(** * Gestão de demandas: the hardened [server.js], embedded in Rocq

    The service is an Express application over three SQLite tables
    ([demandas], [auditoria], [backups]) and a directory of JSON snapshot
    files.  Every route handler of [server.js] is a function from the
    request and the current state to the next state and the answer sent.
    Callbacks run in the order in which the source queues them; one
    request sees one instant of the clock.

    Conventions of the model:
    - JavaScript strings are UTF-8 byte strings; [JS.length] counts UTF-16
      code units, as [String.prototype.length] does on well-formed text.
    - JavaScript numbers are integers, NaN or an infinity; fractions are
      outside the model.  An integer stands for the double that holds it,
      and the database hands its integers over as doubles.  Objects list
      their properties as JavaScript enumerates them: array indices first,
      ascending, then the other names in the order of their creation.
    - SQL values are NULL, INTEGER or TEXT; REAL is outside the model, and
      what is said of a number stored or looked up is said of an integer
      that a double holds exactly.  A value takes the affinity of the
      column it is stored in or compared with.  Rows that an ORDER BY does
      not tell apart stay in table order.
    - The statements of [server.js] are given by what the engine needs of
      them: the columns they name, the number of their placeholders, and
      their effect on the rows.
    - [JSON.parse] and the [Date] constructor are parameters of the
      development: every statement holds whatever they compute. *)

From Stdlib Require Import ZArith List Bool Lia.
From Stdlib Require Import Strings.String Strings.Ascii Numbers.DecimalString.
From Stdlib Require Import Numbers.DecimalPos.
From Stdlib Require Import Sorting.Permutation Sorting.Sorted.
Import ListNotations.
Open Scope string_scope.
Open Scope Z_scope.

(** ** Text helpers *)

Definition string_of_Z (z : Z) : string := NilZero.string_of_int (Z.to_int z).

Fixpoint join (sep : string) (l : list string) : string :=
  match l with
  | [] => ""
  | [x] => x
  | x :: tl => x ++ sep ++ join sep tl
  end.

Definition mem (x : string) (l : list string) : bool :=
  existsb (String.eqb x) l.

Fixpoint map_chars (f : ascii -> ascii) (s : string) : string :=
  match s with
  | EmptyString => EmptyString
  | String c tl => String (f c) (map_chars f tl)
  end.

Fixpoint rev_string_onto (s acc : string) : string :=
  match s with
  | EmptyString => acc
  | String c tl => rev_string_onto tl (String c acc)
  end.

Definition rev_string (s : string) : string := rev_string_onto s "".

Definition byte (c : ascii) : N := N_of_ascii c.

Definition is_digit (c : ascii) : bool := ((48 <=? byte c) && (byte c <=? 57))%N.

Definition digit_val (c : ascii) : Z := Z.of_N (byte c) - 48.

(** A run of decimal digits read as a number; [None] when a byte is not a
    digit. *)
Fixpoint digits_value (acc : Z) (s : string) : option Z :=
  match s with
  | EmptyString => Some acc
  | String c tl =>
      if is_digit c then digits_value (10 * acc + digit_val c) tl else None
  end.

(** The longest run of digits at the head of a text, and the rest. *)
Fixpoint digit_run (s : string) : string * string :=
  match s with
  | String c tl =>
      if is_digit c
      then let (d, rest) := digit_run tl in (String c d, rest)
      else ("", s)
  | EmptyString => ("", s)
  end.

Definition is_space (c : ascii) : bool :=
  ((9 <=? byte c) && (byte c <=? 13) || (byte c =? 32))%N.

Fixpoint skip_spaces (s : string) : string :=
  match s with
  | String c tl => if is_space c then skip_spaces tl else s
  | EmptyString => s
  end.

Definition take_sign (s : string) : bool * string :=
  match s with
  | String "-" tl => (true, tl)
  | String "+" tl => (false, tl)
  | _ => (false, s)
  end.

(** The exponent part of a number, if the text goes on with one, and the
    rest; [None] for an [e] without digits. *)
Definition exponent (s : string) : option (Z * string) :=
  match s with
  | String c tl =>
      if ((byte c =? 101) || (byte c =? 69))%N
      then
        let (neg, tl') := take_sign tl in
        let (d, rest) := digit_run tl' in
        match d, digits_value 0 d with
        | String _ _, Some e => Some (if neg then - e else e, rest)
        | _, _ => None
        end
      else Some (0, s)
  | EmptyString => Some (0, s)
  end.

(** A decimal number between optional white space: a sign, digits with an
    optional fraction, an optional exponent.  [Some z] when the text is
    such a number and its value is the integer [z].  The value is exact;
    SQLite reads a text that is not plain digits through a double, and the
    two agree on the decimal text of an integer, which is how the
    properties below name an id that no record has. *)
Definition numeric_literal (s : string) : option Z :=
  let (neg, s1) := take_sign (skip_spaces s) in
  let (d1, r1) := digit_run s1 in
  let (d2, r2) :=
    match r1 with
    | String "." tl => digit_run tl
    | _ => ("", r1)
    end in
  if ((d1 =? "") && (d2 =? ""))%string then None
  else
    match exponent r2, digits_value 0 (d1 ++ d2) with
    | Some (e, rest), Some n =>
        if (skip_spaces rest =? "")%string
        then
          let k := e - Z.of_nat (String.length d2) in
          let n' := if neg then - n else n in
          if 0 <=? k then Some (n' * 10 ^ k)
          else if n mod 10 ^ (- k) =? 0 then Some (n' / 10 ^ (- k))
          else None
        else None
    | _, _ => None
    end.

(** ** JavaScript values *)

Module JS.

#[local] Set Warnings "-register-all".

Inductive number : Type :=
| Int (z : Z)
| NaN
| PosInf
| NegInf.

Inductive value : Type :=
| Undefined
| Null
| Bool (b : bool)
| Num (n : number)
| Str (s : string)
| Arr (items : list value)
| Obj (props : list (string * value)).

(** A computation that may throw: [Throw msg] carries the message of the
    exception. *)
Inductive Exn (A : Type) : Type :=
| Ret (a : A)
| Throw (msg : string).
Arguments Ret {A} a.
Arguments Throw {A} msg.

Definition bind {A B : Type} (m : Exn A) (k : A -> Exn B) : Exn B :=
  match m with
  | Ret a => k a
  | Throw e => Throw e
  end.

(** *** Numbers as doubles *)

(** The integer nearest to [z] that a double holds, ties going to the even
    significand.  Every integer of magnitude up to 2^53 is held as it is;
    beyond, 53 bits are kept. *)
Definition to_double (z : Z) : Z :=
  let a := Z.abs z in
  if a <=? 2 ^ 53 then z
  else
    let e := Z.log2 a - 52 in
    let q := a / 2 ^ e in
    let r := a mod 2 ^ e in
    let h := 2 ^ (e - 1) in
    let q' := if (h <? r) || ((r =? h) && Z.odd q) then q + 1 else q in
    Z.sgn z * (q' * 2 ^ e).

(** The decimal digits that Number::toString chooses for the double [x],
    an integer above 2^53: the fewest significant digits that read back as
    [x], then zeros.  [p] is the power of ten under trial. *)
Fixpoint shortest_from (fuel : nat) (p x : Z) : Z :=
  match fuel with
  | O => x
  | S fuel' =>
      let lo := x / p * p in
      let hi := lo + p in
      let ok_lo := to_double lo =? x in
      let ok_hi := to_double hi =? x in
      if ok_lo && ok_hi
      then if x - lo <? hi - x then lo
           else if hi - x <? x - lo then hi
           else if Z.even (lo / p) then lo else hi
      else if ok_lo then lo
      else if ok_hi then hi
      else shortest_from fuel' (p / 10) x
  end.

Definition shortest (x : Z) : Z :=
  let n := String.length (string_of_Z x) in
  shortest_from n (10 ^ (Z.of_nat n - 1)) x.

Fixpoint drop_zeros (s : string) : string :=
  match s with
  | String "0" tl => drop_zeros tl
  | _ => s
  end.

(** The digits [d1 d2 ... dn] of a number of 22 digits or more, the way
    Number::toString writes them: [d1.d2...e+(n-1)] without the zeros at
    the end. *)
Definition exponential (digits : string) : string :=
  let n := Z.of_nat (String.length digits) in
  match rev_string (drop_zeros (rev_string digits)) with
  | String d EmptyString => String d ("e+" ++ string_of_Z (n - 1))
  | String d tl => String d ("." ++ tl ++ "e+" ++ string_of_Z (n - 1))
  | EmptyString => "0"
  end.

(** Number::toString of the double nearest to [z]. *)
Definition number_text (z : Z) : string :=
  let x := to_double z in
  if Z.abs x <=? 2 ^ 53 then string_of_Z x
  else if 2 ^ 1024 <=? Z.abs x
       then (if x <? 0 then "-Infinity" else "Infinity")
       else
         let c := shortest (Z.abs x) in
         let digits := string_of_Z c in
         (if x <? 0 then "-" else "")
         ++ (if c <? 10 ^ 21 then digits else exponential digits).

(** ToBoolean. *)
Definition truthy (v : value) : bool :=
  match v with
  | Undefined | Null => false
  | Bool b => b
  | Num (Int z) => negb (z =? 0)
  | Num NaN => false
  | Num _ => true
  | Str s => negb (s =? "")%string
  | Arr _ | Obj _ => true
  end.

(** [a || b]. *)
Definition or_else (a b : value) : value := if truthy a then a else b.

Fixpoint lookup (k : string) (ps : list (string * value)) : option value :=
  match ps with
  | [] => None
  | (k', v) :: tl => if (k =? k')%string then Some v else lookup k tl
  end.

(** Number of UTF-16 code units of UTF-8 text: one per byte that is not a
    continuation byte, and one more for the lead byte of a four-byte
    sequence (a surrogate pair). *)
Fixpoint length (s : string) : nat :=
  match s with
  | EmptyString => O
  | String c tl =>
      ((if (byte c <? 128)%N || (192 <=? byte c)%N then 1 else 0)
       + (if (240 <=? byte c)%N then 1 else 0)
       + length tl)%nat
  end.

Fixpoint indexed (i : nat) (l : list value) : list (string * value) :=
  match l with
  | [] => []
  | v :: tl => (string_of_Z (Z.of_nat i), v) :: indexed (S i) tl
  end.

(** [o.k] for a base that is neither null nor undefined (own data
    properties, and [length] of arrays and strings). *)
Definition get (o : value) (k : string) : value :=
  match o with
  | Obj ps => match lookup k ps with Some v => v | None => Undefined end
  | Arr l =>
      if (k =? "length")%string then Num (Int (Z.of_nat (List.length l)))
      else match lookup k (indexed 0 l) with
           | Some v => v
           | None => Undefined
           end
  | Str s =>
      if (k =? "length")%string then Num (Int (Z.of_nat (length s)))
      else Undefined
  | _ => Undefined
  end.

(** [o.k], throwing the TypeError of a null or undefined base. *)
Definition get_prop (o : value) (k : string) : Exn value :=
  match o with
  | Undefined =>
      Throw ("Cannot read properties of undefined (reading '" ++ k ++ "')")
  | Null => Throw ("Cannot read properties of null (reading '" ++ k ++ "')")
  | _ => Ret (get o k)
  end.

(** [const { k } = src] for the first name of the pattern: a null or
    undefined source throws. *)
Definition destructure (o : value) (k src : string) : Exn value :=
  match o with
  | Undefined =>
      Throw ("Cannot destructure property '" ++ k ++ "' of '" ++ src
             ++ "' as it is undefined.")
  | Null =>
      Throw ("Cannot destructure property '" ++ k ++ "' of '" ++ src
             ++ "' as it is null.")
  | _ => Ret (get o k)
  end.

(** The number that a property name is when it is an array index: decimal
    digits without a leading zero, at most 2^32 - 2. *)
Definition array_index (k : string) : option Z :=
  match k with
  | EmptyString => None
  | String "0" EmptyString => Some 0
  | String "0" _ => None
  | _ =>
      match digits_value 0 k with
      | Some z => if z <=? 4294967294 then Some z else None
      | None => None
      end
  end.

Fixpoint replace (k : string) (v : value) (ps : list (string * value))
  : list (string * value) :=
  match ps with
  | [] => []
  | (k', v') :: tl =>
      if (k =? k')%string then (k, v) :: tl else (k', v') :: replace k v tl
  end.

(** A new property whose name is the array index [i] goes after the
    indices below it and before everything else. *)
Fixpoint insert_index (i : Z) (k : string) (v : value)
  (ps : list (string * value)) : list (string * value) :=
  match ps with
  | [] => [(k, v)]
  | (k', v') :: tl =>
      match array_index k' with
      | Some j =>
          if j <? i then (k', v') :: insert_index i k v tl
          else (k, v) :: ps
      | None => (k, v) :: ps
      end
  end.

(** [o[k] = v] on the property list, which is in the order in which the
    properties are enumerated: array indices ascending, then the other
    names in the order of their creation.  An existing name keeps its
    place. *)
Definition set (k : string) (v : value) (ps : list (string * value))
  : list (string * value) :=
  match lookup k ps with
  | Some _ => replace k v ps
  | None =>
      match array_index k with
      | Some i => insert_index i k v ps
      | None => (ps ++ [(k, v)])%list
      end
  end.

(** [delete o[k]]. *)
Definition delete (k : string) (ps : list (string * value))
  : list (string * value) :=
  filter (fun p => negb (k =? fst p)%string) ps.

(** The own enumerable properties that an object spread copies. *)
Definition own_props (v : value) : list (string * value) :=
  match v with
  | Obj ps => ps
  | Arr l => indexed 0 l
  | _ => []
  end.

(** [{...base, ...src}] continued: the properties of [src] written over
    [base] in order. *)
Definition spread (base : list (string * value)) (src : value)
  : list (string * value) :=
  fold_left (fun acc p => set (fst p) (snd p) acc) (own_props src) base.

Definition is_array (v : value) : bool :=
  match v with Arr _ => true | _ => false end.

Definition string_of_number (n : number) : string :=
  match n with
  | Int z => number_text z
  | NaN => "NaN"
  | PosInf => "Infinity"
  | NegInf => "-Infinity"
  end.

(** ToString. *)
Fixpoint to_string (v : value) : string :=
  match v with
  | Undefined => "undefined"
  | Null => "null"
  | Bool true => "true"
  | Bool false => "false"
  | Num n => string_of_number n
  | Str s => s
  | Arr l =>
      join ","
        ((fix items (l : list value) : list string :=
            match l with
            | [] => []
            | Undefined :: tl | Null :: tl => "" :: items tl
            | x :: tl => to_string x :: items tl
            end) l)
  | Obj _ => "[object Object]"
  end.

(** *** Strings *)

(** If [s] begins with a code point that [trim] strips (WhiteSpace or
    LineTerminator), the rest of [s] after it. *)
Definition strip_space (s : string) : option string :=
  match s with
  | String c1 tl1 =>
      let b1 := byte c1 in
      if ((9 <=? b1) && (b1 <=? 13) || (b1 =? 32))%N then Some tl1
      else
        match tl1 with
        | String c2 tl2 =>
            let b2 := byte c2 in
            if ((b1 =? 194) && (b2 =? 160))%N then Some tl2
            else
              match tl2 with
              | String c3 tl3 =>
                  let b3 := byte c3 in
                  if ((b1 =? 225) && (b2 =? 154) && (b3 =? 128)
                      || (b1 =? 226) && (b2 =? 128)
                         && ((128 <=? b3) && (b3 <=? 138)
                             || (b3 =? 168) || (b3 =? 169) || (b3 =? 175))
                      || (b1 =? 226) && (b2 =? 129) && (b3 =? 159)
                      || (b1 =? 227) && (b2 =? 128) && (b3 =? 128)
                      || (b1 =? 239) && (b2 =? 187) && (b3 =? 191))%N
                  then Some tl3
                  else None
              | EmptyString => None
              end
        | EmptyString => None
        end
  | EmptyString => None
  end.

(** The same test on the reversed text, where the bytes of a code point
    come last byte first. *)
Definition strip_space_rev (s : string) : option string :=
  match s with
  | String c1 tl1 =>
      let b1 := byte c1 in
      if ((9 <=? b1) && (b1 <=? 13) || (b1 =? 32))%N then Some tl1
      else
        match tl1 with
        | String c2 tl2 =>
            let b2 := byte c2 in
            if ((b2 =? 194) && (b1 =? 160))%N then Some tl2
            else
              match tl2 with
              | String c3 tl3 =>
                  let b3 := byte c3 in
                  if ((b3 =? 225) && (b2 =? 154) && (b1 =? 128)
                      || (b3 =? 226) && (b2 =? 128)
                         && ((128 <=? b1) && (b1 <=? 138)
                             || (b1 =? 168) || (b1 =? 169) || (b1 =? 175))
                      || (b3 =? 226) && (b2 =? 129) && (b1 =? 159)
                      || (b3 =? 227) && (b2 =? 128) && (b1 =? 128)
                      || (b3 =? 239) && (b2 =? 187) && (b1 =? 191))%N
                  then Some tl3
                  else None
              | EmptyString => None
              end
        | EmptyString => None
        end
  | EmptyString => None
  end.

(** Repeated stripping; the fuel is the number of bytes, and every strip
    consumes at least one. *)
Fixpoint strip_all (strip : string -> option string) (fuel : nat) (s : string)
  : string :=
  match fuel with
  | O => s
  | S fuel' =>
      match strip s with
      | Some rest => strip_all strip fuel' rest
      | None => s
      end
  end.

Definition trim_start (s : string) : string :=
  strip_all strip_space (String.length s) s.

Definition trim_end (s : string) : string :=
  let r := rev_string s in
  rev_string (strip_all strip_space_rev (String.length r) r).

(** [s.trim()]. *)
Definition trim (s : string) : string := trim_end (trim_start s).

Definition upper_char (c : ascii) : ascii :=
  if ((97 <=? byte c) && (byte c <=? 122))%N
  then ascii_of_N (byte c - 32) else c.

(** [s.toUpperCase()] on the ASCII letters. *)
Definition toUpperCase (s : string) : string := map_chars upper_char s.

(** [s.replace(/[:.]/g, '-')]. *)
Definition replace_colon_dot (s : string) : string :=
  map_chars (fun c => if ((byte c =? 58) || (byte c =? 46))%N then "-"%char
                      else c) s.

(** *** Numbers *)

Fixpoint digits_prefix (acc : option Z) (s : string) : option Z :=
  match s with
  | String c tl =>
      if is_digit c
      then digits_prefix
             (Some (10 * match acc with Some a => a | None => 0 end
                    + digit_val c)) tl
      else acc
  | EmptyString => acc
  end.

Definition hex_val (c : ascii) : option Z :=
  let b := byte c in
  if ((48 <=? b) && (b <=? 57))%N then Some (Z.of_N b - 48)
  else if ((97 <=? b) && (b <=? 102))%N then Some (Z.of_N b - 87)
  else if ((65 <=? b) && (b <=? 70))%N then Some (Z.of_N b - 55)
  else None.

Fixpoint hex_prefix (acc : option Z) (s : string) : option Z :=
  match s with
  | String c tl =>
      match hex_val c with
      | Some d =>
          hex_prefix
            (Some (16 * match acc with Some a => a | None => 0 end + d)) tl
      | None => acc
      end
  | EmptyString => acc
  end.

(** [parseInt(v)] without a radix: leading white space, an optional sign,
    then the longest run of digits, hexadecimal after [0x]; NaN when there
    is none. *)
Definition parseInt (v : value) : number :=
  let s := trim_start (to_string v) in
  let (neg, body) :=
    match s with
    | String "-" tl => (true, tl)
    | String "+" tl => (false, tl)
    | _ => (false, s)
    end in
  let magnitude :=
    match body with
    | String "0" (String "x" tl) | String "0" (String "X" tl) =>
        hex_prefix None tl
    | _ => digits_prefix None body
    end in
  match magnitude with
  | Some z => Int (if neg then - z else z)
  | None => NaN
  end.

(** ToNumber; a text is read as a decimal number. *)
Definition to_number (v : value) : number :=
  match v with
  | Undefined => NaN
  | Null => Int 0
  | Bool b => Int (if b then 1 else 0)
  | Num n => n
  | _ =>
      let s := trim (to_string v) in
      if (s =? "")%string then Int 0
      else match numeric_literal s with
           | Some z => Int z
           | None => NaN
           end
  end.

(** [Math.ceil(a / b)]. *)
Definition ceil_div (a b : number) : number :=
  match a, b with
  | NaN, _ | _, NaN => NaN
  | Int x, Int y =>
      if y =? 0
      then (if x =? 0 then NaN else if 0 <? x then PosInf else NegInf)
      else Int (- ((- x) / y))
  | Int _, _ => Int 0
  | PosInf, Int y => if y <? 0 then NegInf else PosInf
  | NegInf, Int y => if y <? 0 then PosInf else NegInf
  | _, _ => NaN
  end.

(** [a - b] and [a * b] where the operands are integers or NaN, as the
    results of [parseInt] are. *)
Definition sub (a b : number) : number :=
  match a, b with
  | Int x, Int y => Int (x - y)
  | _, _ => NaN
  end.

Definition mul (a b : number) : number :=
  match a, b with
  | Int x, Int y => Int (x * y)
  | _, _ => NaN
  end.

(** [v < n] for an integer [n]. *)
Definition less_than (v : value) (n : Z) : bool :=
  match to_number v with
  | Int z => z <? n
  | NegInf => true
  | _ => false
  end.

(** *** JSON.stringify *)

Definition hex_digit (n : N) : ascii :=
  ascii_of_N (if (n <? 10)%N then 48 + n else 87 + n).

Definition quote_char (c : ascii) : string :=
  let b := byte c in
  if (b =? 34)%N then String "\" (String c "")
  else if (b =? 92)%N then "\\"
  else if (b =? 8)%N then "\b"
  else if (b =? 9)%N then "\t"
  else if (b =? 10)%N then "\n"
  else if (b =? 12)%N then "\f"
  else if (b =? 13)%N then "\r"
  else if (b <? 32)%N
       then "\u00" ++ String (hex_digit (b / 16)) (String (hex_digit (b mod 16)) "")
  else String c "".

Fixpoint quote_body (s : string) : string :=
  match s with
  | EmptyString => EmptyString
  | String c tl => quote_char c ++ quote_body tl
  end.

Definition dquote : string := String (ascii_of_N 34) "".

Definition quote (s : string) : string := dquote ++ quote_body s ++ dquote.

(** [JSON.stringify(v, null, gap)] at indentation [ind]; [None] is the
    [undefined] that JSON.stringify returns for [undefined].  An empty
    [gap] gives the compact form. *)
Fixpoint stringify_at (gap ind : string) (v : value) : option string :=
  let ind' := ind ++ gap in
  let compact := (gap =? "")%string in
  let open_ := if compact then "" else String (ascii_of_N 10) ind' in
  let close_ := if compact then "" else String (ascii_of_N 10) ind in
  let sep := "," ++ open_ in
  match v with
  | Undefined => None
  | Null => Some "null"
  | Bool true => Some "true"
  | Bool false => Some "false"
  | Num (Int z) =>
      Some (if 2 ^ 1024 <=? Z.abs (to_double z) then "null"
            else number_text z)
  | Num _ => Some "null"
  | Str s => Some (quote s)
  | Arr l =>
      let parts :=
        (fix items (l : list value) : list string :=
           match l with
           | [] => []
           | x :: tl =>
               match stringify_at gap ind' x with
               | Some t => t
               | None => "null"
               end :: items tl
           end) l in
      match parts with
      | [] => Some "[]"
      | _ => Some ("[" ++ open_ ++ join sep parts ++ close_ ++ "]")
      end
  | Obj ps =>
      let parts :=
        (fix members (ps : list (string * value)) : list string :=
           match ps with
           | [] => []
           | (k, x) :: tl =>
               match stringify_at gap ind' x with
               | Some t =>
                   (quote k ++ (if compact then ":" else ": ") ++ t)
                     :: members tl
               | None => members tl
               end
           end) ps in
      match parts with
      | [] => Some "{}"
      | _ => Some ("{" ++ open_ ++ join sep parts ++ close_ ++ "}")
      end
  end.

(** [JSON.stringify(v)] and [JSON.stringify(v, null, 2)] where the value is
    not [undefined]. *)
Definition stringify (v : value) : string :=
  match stringify_at "" "" v with Some s => s | None => "undefined" end.

Definition stringify_pretty (v : value) : string :=
  match stringify_at "  " "" v with Some s => s | None => "undefined" end.

End JS.


(** ** The SQLite engine, as far as [server.js] drives it *)

Module Sql.

Inductive value : Type :=
| Null
| Integer (z : Z)
| Text (s : string).

Inductive affinity : Type := INTEGER | TEXT.

Inductive default : Type :=
| NoDefault
| CurrentTimestamp
| Literal (v : value).

Record column : Type := {
  name : string;
  aff : affinity;
  not_null : bool;
  unique : bool;
  dflt : default
}.

(** The columns of a table after its [id INTEGER PRIMARY KEY AUTOINCREMENT]. *)
Definition schema : Type := list column.

(** A row holds [id] first and then one value per column of the schema. *)
Definition row : Type := list (string * value).

(** [seq] is the table's entry in [sqlite_sequence]: the largest [id] handed
    out so far. *)
Record table : Type := {
  rows : list row;
  seq : Z
}.

Inductive error : Type := Err (msg : string).

Definition message (e : error) : string := match e with Err m => m end.

Definition value_eqb (a b : value) : bool :=
  match a, b with
  | Null, Null => true
  | Integer x, Integer y => x =? y
  | Text s, Text t => (s =? t)%string
  | _, _ => false
  end.

Fixpoint col (c : string) (r : row) : option value :=
  match r with
  | [] => None
  | (k, v) :: tl => if (c =? k)%string then Some v else col c tl
  end.

Definition col_or_null (c : string) (r : row) : value :=
  match col c r with Some v => v | None => Null end.

Fixpoint set_col (c : string) (v : value) (r : row) : row :=
  match r with
  | [] => []
  | (k, w) :: tl =>
      if (c =? k)%string then (k, v) :: tl else (k, w) :: set_col c v tl
  end.

Definition column_names (sch : schema) : list string :=
  "id" :: map name sch.

(** What a row looks like in a JavaScript callback: an integer arrives as
    the double nearest to it. *)
Definition to_js (v : value) : JS.value :=
  match v with
  | Null => JS.Null
  | Integer z => JS.Num (JS.Int (JS.to_double z))
  | Text s => JS.Str s
  end.

Definition row_to_js (r : row) : JS.value :=
  JS.Obj (map (fun p => (fst p, to_js (snd p))) r).

(** How node-sqlite3 binds one parameter; [None] leaves the placeholder
    unbound.  A number is bound with its value: beyond 32 bits it travels
    as a REAL, which an INTEGER column stores as the integer again.  NaN is
    stored as NULL, and an infinity would be a REAL, which no handler
    binds.  An array or any other object is bound as the text
    [[object Object]], whatever its own [toString] gives. *)
Definition of_js (v : JS.value) : option value :=
  match v with
  | JS.Undefined => None
  | JS.Null => Some Null
  | JS.Bool b => Some (Integer (if b then 1 else 0))
  | JS.Num (JS.Int z) => Some (Integer z)
  | JS.Num _ => Some Null
  | JS.Str s => Some (Text s)
  | JS.Arr _ | JS.Obj _ => Some (Text "[object Object]")
  end.

(** Binding the parameter array to [n] placeholders, numbered from 1 in
    the order of the text: an unbound placeholder reads as NULL, and binding
    a value past the last placeholder is SQLITE_RANGE. *)
Fixpoint bind_from (i n : nat) (params : list JS.value) : error + list value :=
  match params with
  | [] => inr (repeat Null (n - i))
  | p :: tl =>
      match of_js p with
      | None =>
          match bind_from (S i) n tl with
          | inl e => inl e
          | inr vs => inr (if (i <? n)%nat then Null :: vs else vs)
          end
      | Some v =>
          if (i <? n)%nat
          then match bind_from (S i) n tl with
               | inl e => inl e
               | inr vs => inr (v :: vs)
               end
          else inl (Err "SQLITE_RANGE: column index out of range")
      end
  end.

Definition bind (n : nat) (params : list JS.value) : error + list value :=
  bind_from 0 n params.

(** Compiling a statement: every column it names must exist. *)
Fixpoint check_columns (sch : schema) (cols : list string) : option error :=
  match cols with
  | [] => None
  | c :: tl =>
      if mem c (column_names sch) then check_columns sch tl
      else Some (Err ("SQLITE_ERROR: no such column: " ++ c))
  end.

(** The affinity of an INTEGER column turns a text that reads as an integer
    into that integer; the affinity of a TEXT column turns a number into its
    decimal text.  An integer is kept whatever its size, where SQLite keeps
    one beyond 64 bits as a REAL. *)
Definition apply_affinity (a : affinity) (v : value) : value :=
  match a, v with
  | INTEGER, Text s =>
      match numeric_literal s with Some z => Integer z | None => v end
  | TEXT, Integer z => Text (string_of_Z z)
  | _, _ => v
  end.

(** Storage order: NULL, then numbers, then text byte by byte. *)
Definition compare (a b : value) : comparison :=
  match a, b with
  | Null, Null => Eq
  | Null, _ => Lt
  | _, Null => Gt
  | Integer x, Integer y => Z.compare x y
  | Integer _, Text _ => Lt
  | Text _, Integer _ => Gt
  | Text s, Text t => String.compare s t
  end.

(** [column = ?], [column >= ?], [column <= ?] in a WHERE clause; a NULL
    operand makes the comparison NULL, which selects nothing. *)
Definition where_cmp (test : comparison -> bool) (a : affinity)
  (stored param : value) : bool :=
  match stored, apply_affinity a param with
  | Null, _ | _, Null => false
  | s, p => test (compare s p)
  end.

Definition is_eq (c : comparison) : bool :=
  match c with Eq => true | _ => false end.
Definition is_ge (c : comparison) : bool :=
  match c with Lt => false | _ => true end.
Definition is_le (c : comparison) : bool :=
  match c with Gt => false | _ => true end.

(** [WHERE id = ?]. *)
Definition id_matches (param : value) (r : row) : bool :=
  where_cmp is_eq INTEGER (col_or_null "id" r) param.

Definition id_of (r : row) : Z :=
  match col "id" r with Some (Integer z) => z | _ => 0 end.

(** [ORDER BY c ASC|DESC] by insertion; rows that compare equal stay in
    table order. *)
Definition before (c : string) (desc : bool) (r1 r2 : row) : bool :=
  match compare (col_or_null c r1) (col_or_null c r2) with
  | Eq => true
  | Lt => negb desc
  | Gt => desc
  end.

Fixpoint insert_sorted (le : row -> row -> bool) (r : row) (l : list row)
  : list row :=
  match l with
  | [] => [r]
  | x :: tl => if le r x then r :: l else x :: insert_sorted le r tl
  end.

Definition sort (le : row -> row -> bool) (l : list row) : list row :=
  fold_right (insert_sorted le) [] l.

Definition order_by (c : string) (desc : bool) (l : list row) : list row :=
  sort (before c desc) l.

(** The value of a LIMIT or OFFSET expression must be an integer. *)
Definition must_be_int (v : value) : error + Z :=
  match apply_affinity INTEGER v with
  | Integer z => inr z
  | _ => inl (Err "SQLITE_MISMATCH: datatype mismatch")
  end.

(** [LIMIT lim OFFSET off]: a negative limit is no limit, a negative offset
    is none. *)
Definition limit_offset (lim off : Z) (l : list row) : list row :=
  let l' := skipn (Z.to_nat off) l in
  if lim <? 0 then l' else firstn (Z.to_nat lim) l'.

(** *** INSERT, UPDATE, DELETE *)

Fixpoint assoc_values (cols : list string) (vals : list value)
  : list (string * value) :=
  match cols, vals with
  | c :: ctl, v :: vtl => (c, v) :: assoc_values ctl vtl
  | _, _ => []
  end.

Definition affinity_of (sch : schema) (c : string) : affinity :=
  match find (fun x => (name x =? c)%string) sch with
  | Some x => aff x
  | None => INTEGER
  end.

(** A value on its way into a column takes the affinity of the column. *)
Definition stored (sch : schema) (p : string * value) : string * value :=
  (fst p, apply_affinity (affinity_of sch (fst p)) (snd p)).

Definition default_value (now : string) (d : default) : value :=
  match d with
  | NoDefault => Null
  | CurrentTimestamp => Text now
  | Literal v => v
  end.

Definition new_row (sch : schema) (given : list (string * value))
  (now : string) (id : Z) : row :=
  ("id", Integer id)
    :: map (fun c =>
              (name c,
               match col (name c) given with
               | Some v => v
               | None => default_value now (dflt c)
               end)) sch.

Fixpoint check_not_null (tname : string) (sch : schema) (r : row)
  : option error :=
  match sch with
  | [] => None
  | c :: tl =>
      if not_null c && value_eqb (col_or_null (name c) r) Null
      then Some (Err ("SQLITE_CONSTRAINT: NOT NULL constraint failed: "
                      ++ tname ++ "." ++ name c))
      else check_not_null tname tl r
  end.

(** A UNIQUE column may not repeat a value of another row; NULLs never
    collide. *)
Fixpoint check_unique (tname : string) (sch : schema) (others : list row)
  (r : row) : option error :=
  match sch with
  | [] => None
  | c :: tl =>
      let v := col_or_null (name c) r in
      if unique c && negb (value_eqb v Null)
         && existsb (fun o => value_eqb (col_or_null (name c) o) v) others
      then Some (Err ("SQLITE_CONSTRAINT: UNIQUE constraint failed: "
                      ++ tname ++ "." ++ name c))
      else check_unique tname tl others r
  end.

Definition max_id (l : list row) : Z :=
  fold_right (fun r m => Z.max (id_of r) m) 0 l.

(** [INSERT INTO tname (cols) VALUES (?, ..., ?)] with [nvalues]
    placeholders, for a column list without [id]: the statement is compiled,
    the parameters bound, the row built and constrained.  Success returns
    the table and [lastID]. *)
Definition insert (tname : string) (sch : schema) (cols : list string)
  (nvalues : nat) (params : list JS.value) (now : string) (t : table)
  : error + (table * Z) :=
  match check_columns sch cols with
  | Some e => inl e
  | None =>
      if negb (List.length cols =? nvalues)%nat
      then inl (Err ("SQLITE_ERROR: " ++ string_of_Z (Z.of_nat nvalues)
                     ++ " values for "
                     ++ string_of_Z (Z.of_nat (List.length cols))
                     ++ " columns"))
      else
        match bind nvalues params with
        | inl e => inl e
        | inr vals =>
            let id := Z.max (seq t) (max_id (rows t)) + 1 in
            let r :=
              new_row sch (map (stored sch) (assoc_values cols vals)) now id in
            match check_not_null tname sch r with
            | Some e => inl e
            | None =>
                match check_unique tname sch (rows t) r with
                | Some e => inl e
                | None => inr ({| rows := rows t ++ [r]; seq := id |}, id)
                end
            end
        end
  end.

Definition set_cols (given : list (string * value)) (r : row) : row :=
  fold_left (fun acc p => set_col (fst p) (snd p) acc) given r.

(** The rows of an UPDATE, one after the other: a row the WHERE clause
    selects is rewritten and checked against the rows as they then are. *)
Fixpoint update_rows (tname : string) (sch : schema)
  (given : list (string * value)) (key : value) (done todo : list row)
  : error + list row :=
  match todo with
  | [] => inr done
  | r :: tl =>
      if id_matches key r
      then
        let r' := set_cols given r in
        match check_not_null tname sch r' with
        | Some e => inl e
        | None =>
            match check_unique tname sch (done ++ tl) r' with
            | Some e => inl e
            | None => update_rows tname sch given key (done ++ [r']) tl
            end
        end
      else update_rows tname sch given key (done ++ [r]) tl
  end.

(** [UPDATE tname SET c1 = ?, ..., cn = ? WHERE id = ?]: the last
    parameter is the key.  A failed statement changes nothing. *)
Definition update (tname : string) (sch : schema) (cols : list string)
  (params : list JS.value) (t : table) : error + table :=
  match check_columns sch cols with
  | Some e => inl e
  | None =>
      match bind (S (List.length cols)) params with
      | inl e => inl e
      | inr vals =>
          let key := last vals Null in
          match
            update_rows tname sch (map (stored sch) (assoc_values cols vals))
              key [] (rows t)
          with
          | inl e => inl e
          | inr rs => inr {| rows := rs; seq := seq t |}
          end
      end
  end.

(** [SELECT * FROM tname WHERE id = ?] through [db.get]: the first row, if
    any. *)
Definition get_by_id (params : list JS.value) (t : table)
  : error + option row :=
  match bind 1 params with
  | inl e => inl e
  | inr vals => inr (find (id_matches (hd Null vals)) (rows t))
  end.

(** [DELETE FROM tname WHERE id = ?]. *)
Definition delete_by_id (params : list JS.value) (t : table)
  : error + table :=
  match bind 1 params with
  | inl e => inl e
  | inr vals =>
      inr {| rows := filter (fun r => negb (id_matches (hd Null vals) r))
                       (rows t);
             seq := seq t |}
  end.

(** [DELETE FROM tname]. *)
Definition delete_all (t : table) : table := {| rows := []; seq := seq t |}.

End Sql.

(** ** The tables of [server.js] *)

Definition mk_col (n : string) (a : Sql.affinity) (nn uq : bool)
  (d : Sql.default) : Sql.column :=
  {| Sql.name := n; Sql.aff := a; Sql.not_null := nn; Sql.unique := uq;
     Sql.dflt := d |}.

(** [CREATE TABLE IF NOT EXISTS demandas]. *)
Definition demandas_schema : Sql.schema :=
  [ mk_col "funcionarioId" Sql.INTEGER true false Sql.NoDefault;
    mk_col "nomeFuncionario" Sql.TEXT true false Sql.NoDefault;
    mk_col "emailFuncionario" Sql.TEXT true false Sql.NoDefault;
    mk_col "categoria" Sql.TEXT true false Sql.NoDefault;
    mk_col "prioridade" Sql.TEXT true false Sql.NoDefault;
    mk_col "complexidade" Sql.TEXT true false Sql.NoDefault;
    mk_col "descricao" Sql.TEXT true false Sql.NoDefault;
    mk_col "local" Sql.TEXT true false Sql.NoDefault;
    mk_col "dataCriacao" Sql.TEXT true false Sql.CurrentTimestamp;
    mk_col "dataLimite" Sql.TEXT true false Sql.NoDefault;
    mk_col "status" Sql.TEXT true false (Sql.Literal (Sql.Text "pendente"));
    mk_col "isRotina" Sql.INTEGER false false (Sql.Literal (Sql.Integer 0));
    mk_col "diasSemana" Sql.TEXT false false Sql.NoDefault;
    mk_col "tag" Sql.TEXT false true Sql.NoDefault;
    mk_col "comentarios" Sql.TEXT false false (Sql.Literal (Sql.Text ""));
    mk_col "comentarioGestor" Sql.TEXT false false (Sql.Literal (Sql.Text ""));
    mk_col "dataConclusao" Sql.TEXT false false Sql.NoDefault;
    mk_col "atribuidos" Sql.TEXT false false Sql.NoDefault;
    mk_col "dataAtualizacao" Sql.TEXT false false Sql.CurrentTimestamp;
    mk_col "criadoPor" Sql.INTEGER false false Sql.NoDefault;
    mk_col "atualizadoPor" Sql.INTEGER false false Sql.NoDefault ].

(** [CREATE TABLE IF NOT EXISTS auditoria]. *)
Definition auditoria_schema : Sql.schema :=
  [ mk_col "acao" Sql.TEXT true false Sql.NoDefault;
    mk_col "tabela" Sql.TEXT true false Sql.NoDefault;
    mk_col "registroId" Sql.INTEGER true false Sql.NoDefault;
    mk_col "dadosAntigos" Sql.TEXT false false Sql.NoDefault;
    mk_col "dadosNovos" Sql.TEXT false false Sql.NoDefault;
    mk_col "usuarioId" Sql.INTEGER false false Sql.NoDefault;
    mk_col "dataHora" Sql.TEXT false false Sql.CurrentTimestamp;
    mk_col "ip" Sql.TEXT false false Sql.NoDefault ].

(** [CREATE TABLE IF NOT EXISTS backups]. *)
Definition backups_schema : Sql.schema :=
  [ mk_col "nomeArquivo" Sql.TEXT true false Sql.NoDefault;
    mk_col "dataBackup" Sql.TEXT true false Sql.NoDefault;
    mk_col "tamanho" Sql.INTEGER true false Sql.NoDefault;
    mk_col "tipo" Sql.TEXT true false Sql.NoDefault;
    mk_col "dataCriacao" Sql.TEXT false false Sql.CurrentTimestamp ].

(** ** State, requests and answers *)

(** The database file, the [backups] directory and [error.log]. *)
Record State : Type := {
  demandas : Sql.table;
  auditoria : Sql.table;
  backups : Sql.table;
  files : list (string * string);
  error_log : list string
}.

Definition with_demandas (t : Sql.table) (st : State) : State :=
  {| demandas := t; auditoria := auditoria st; backups := backups st;
     files := files st; error_log := error_log st |}.

Definition with_auditoria (t : Sql.table) (st : State) : State :=
  {| demandas := demandas st; auditoria := t; backups := backups st;
     files := files st; error_log := error_log st |}.

Definition with_backups (t : Sql.table) (st : State) : State :=
  {| demandas := demandas st; auditoria := auditoria st; backups := t;
     files := files st; error_log := error_log st |}.

Definition with_files (f : list (string * string)) (st : State) : State :=
  {| demandas := demandas st; auditoria := auditoria st;
     backups := backups st; files := f; error_log := error_log st |}.

Definition with_error_log (l : list string) (st : State) : State :=
  {| demandas := demandas st; auditoria := auditoria st;
     backups := backups st; files := files st; error_log := l |}.

(** What the surroundings give one request: the clock, the random suffix
    and the file system's willingness to write. *)
Record Env : Type := {
  now_iso : string;        (* new Date().toISOString() *)
  now_ms : Z;              (* Date.now() *)
  hoje_ms : Z;             (* new Date() after setHours(0, 0, 0, 0) *)
  random36 : string;       (* Math.random().toString(36).substr(2, 9) *)
  sql_now : string;        (* CURRENT_TIMESTAMP *)
  production : bool;       (* process.env.NODE_ENV === 'production' *)
  writable : string -> bool (* fs.writeFile succeeds on this file name *)
}.

Record Request : Type := {
  param_id : string;       (* req.params.id *)
  query : JS.value;        (* req.query *)
  body : JS.value;         (* req.body *)
  ip : JS.value            (* req.ip *)
}.

Record Response : Type := {
  status : Z;
  payload : JS.value
}.

(** A request is answered, left without an answer, or kills the process
    with an exception thrown inside a database callback. *)
Inductive Outcome : Type :=
| Sent (r : Response)
| NoAnswer
| Crashed (msg : string).

(** [res.json(v)] and [res.status(c).json(v)]. *)
Definition json (v : JS.value) : Response := {| status := 200; payload := v |}.
Definition status_json (c : Z) (v : JS.value) : Response :=
  {| status := c; payload := v |}.

Definition error_500 (e : Sql.error) : Response :=
  status_json 500
    (JS.Obj [("success", JS.Bool false); ("error", JS.Str (Sql.message e))]).

(** The four-argument middleware: an exception thrown by a handler is
    written to [error.log] (the first line of its stack) and answered with
    a 500. *)
Definition error_handler (env : Env) (msg : string) (st : State)
  : State * Outcome :=
  let timestamp := now_iso env in
  let logEntry :=
    "[" ++ timestamp ++ "] ERROR: TypeError: " ++ msg
        ++ String (ascii_of_N 10) "" in
  (with_error_log (error_log st ++ [logEntry]) st,
   Sent (status_json 500
           (JS.Obj [("success", JS.Bool false);
                    ("error", JS.Str "Erro interno do servidor");
                    ("message",
                     JS.Str (if production env then "Erro interno" else msg));
                    ("timestamp", JS.Str timestamp)]))).

Definition num (z : Z) : JS.value := JS.Num (JS.Int z).

Fixpoint lookup_file (name : string) (fs : list (string * string))
  : option string :=
  match fs with
  | [] => None
  | (n, c) :: tl => if (name =? n)%string then Some c else lookup_file name tl
  end.

Definition write_file (name content : string) (fs : list (string * string))
  : list (string * string) :=
  (name, content) :: filter (fun p => negb (name =? fst p)%string) fs.

(** The 400 answer of the validation middleware. *)
Definition validation_error (erros : list string) : Response :=
  status_json 400
    (JS.Obj [("success", JS.Bool false);
             ("errors", JS.Arr (map JS.Str erros));
             ("message", JS.Str "Dados inválidos")]).

(** ** The handlers *)

Section Server.

(** [new Date(v).getTime()], with [None] for the NaN of an invalid date. *)
Variable Date_ms : JS.value -> option Z.

(** [JSON.parse], with [None] for a SyntaxError. *)
Variable JSON_parse : string -> option JS.value.

(** *** validarDemanda *)

(** What a middleware does with a request: hand it on or answer it. *)
Inductive Step : Type :=
| Next
| Answer (r : Response).

(** [!v || v.trim().length < n]: a truthy value without a [trim] method
    throws. *)
Definition missing_or_short (field : string) (v : JS.value) (n : nat)
  : JS.Exn bool :=
  if negb (JS.truthy v) then JS.Ret true
  else match v with
       | JS.Str s => JS.Ret (JS.length (JS.trim s) <? n)%nat
       | _ => JS.Throw (field ++ ".trim is not a function")
       end.

(** [!v || !list.includes(v)]. *)
Definition missing_or_outside (v : JS.value) (allowed : list string) : bool :=
  negb (JS.truthy v)
  || negb (match v with JS.Str s => mem s allowed | _ => false end).

(** [dataLim < hoje]. *)
Definition date_before (v : JS.value) (hoje : Z) : bool :=
  match Date_ms v with
  | Some t => t <? hoje
  | None => false
  end.

Definition push (cond : bool) (msg : string) (erros : list string)
  : list string :=
  if cond then (erros ++ [msg])%list else erros.

Definition prioridades : list string := ["Importante"; "Média"; "Relevante"].
Definition complexidades : list string := ["Fácil"; "Médio"; "Difícil"].

(** The list [erros] that the middleware collects. *)
Definition erros_de (env : Env) (b : JS.value) : JS.Exn (list string) :=
  JS.bind (JS.destructure b "nomeDemanda" "req.body") (fun nomeDemanda =>
  let categoria := JS.get b "categoria" in
  let prioridade := JS.get b "prioridade" in
  let complexidade := JS.get b "complexidade" in
  let descricao := JS.get b "descricao" in
  let local := JS.get b "local" in
  let dataLimite := JS.get b "dataLimite" in
  let erros := [] in
  JS.bind (missing_or_short "nomeDemanda" nomeDemanda 3) (fun c1 =>
  let erros :=
    push c1
      "Nome da demanda é obrigatório e deve ter pelo menos 3 caracteres"
      erros in
  let erros := push (negb (JS.truthy categoria)) "Categoria é obrigatória"
                 erros in
  let erros :=
    push (missing_or_outside prioridade prioridades)
      "Prioridade é obrigatória e deve ser: Importante, Média ou Relevante"
      erros in
  let erros :=
    push (missing_or_outside complexidade complexidades)
      "Complexidade é obrigatória e deve ser: Fácil, Médio ou Difícil"
      erros in
  JS.bind (missing_or_short "descricao" descricao 10) (fun c5 =>
  let erros :=
    push c5 "Descrição é obrigatória e deve ter pelo menos 10 caracteres"
      erros in
  let erros := push (negb (JS.truthy local)) "Local é obrigatório" erros in
  let erros :=
    if negb (JS.truthy dataLimite)
    then (erros ++ ["Data limite é obrigatória"])%list
    else push (date_before dataLimite (hoje_ms env))
           "Data limite não pode ser anterior a hoje" erros in
  JS.Ret erros))).

Definition validarDemanda (env : Env) (req : Request) : JS.Exn Step :=
  JS.bind (erros_de env (body req)) (fun erros =>
  if (0 <? List.length erros)%nat
  then JS.Ret (Answer (validation_error erros))
  else JS.Ret Next).

(** *** registrarAuditoria *)

Definition auditoria_insert_columns : list string :=
  ["acao"; "tabela"; "registroId"; "dadosAntigos"; "dadosNovos"; "usuarioId";
   "ip"].

(** The INSERT has seven placeholders; a failure is only written to the
    console. *)
Definition registrarAuditoria (env : Env) (acao tabela : string)
  (registroId dadosAntigos dadosNovos usuarioId ip : JS.value) (st : State)
  : State :=
  match
    Sql.insert "auditoria" auditoria_schema auditoria_insert_columns 7
      [JS.Str acao; JS.Str tabela; registroId;
       JS.Str (JS.stringify (JS.or_else dadosAntigos (JS.Obj [])));
       JS.Str (JS.stringify (JS.or_else dadosNovos (JS.Obj [])));
       usuarioId; ip]
      (sql_now env) (auditoria st)
  with
  | inl _ => st
  | inr (t, _) => with_auditoria t st
  end.

(** *** criarBackup *)

Definition backups_insert_columns : list string :=
  ["nomeArquivo"; "dataBackup"; "tamanho"; "tipo"].

(** The object written to the snapshot file. *)
Definition backupData_of (timestamp : string) (tipo : JS.value)
  (rows : list Sql.row) : JS.value :=
  JS.Obj [("versao", JS.Str "1.0.0");
          ("data", JS.Str timestamp);
          ("tipo", tipo);
          ("totalDemandas", num (Z.of_nat (List.length rows)));
          ("demandas", JS.Arr (map Sql.row_to_js rows))].

(** The parameter array of
    [INSERT INTO backups (nomeArquivo, dataBackup, tamanho, tipo) VALUES (?, ?, ?, ?)]. *)
Definition backup_params (filename : string) (backupData tipo : JS.value)
  : list JS.value :=
  [JS.Str filename; JS.Str (JS.stringify backupData);
   JS.get backupData "length"; tipo].

Definition is_auto (r : Sql.row) : bool :=
  Sql.where_cmp Sql.is_eq Sql.TEXT (Sql.col_or_null "tipo" r) (Sql.Text "auto").

(** [SELECT id FROM backups WHERE tipo = "auto" ORDER BY dataCriacao DESC
    LIMIT 10, 999999]: ten rows skipped, then up to 999999 returned. *)
Definition select_beyond_ten (t : Sql.table) : list Sql.row :=
  Sql.limit_offset 999999 10
    (Sql.order_by "dataCriacao" true (filter is_auto (Sql.rows t))).

(** The callback of that query: with a non-empty result,
    [DELETE FROM backups WHERE tipo = "auto" AND id NOT IN (idsParaManter)]. *)
Definition prune_auto (t : Sql.table) : Sql.table :=
  let rows := select_beyond_ten t in
  if (0 <? List.length rows)%nat
  then
    let idsParaManter := map Sql.id_of rows in
    {| Sql.rows :=
         filter (fun r => negb (is_auto r
                                && negb (existsb (Z.eqb (Sql.id_of r))
                                           idsParaManter)))
           (Sql.rows t);
       Sql.seq := Sql.seq t |}
  else t.

(** The row registration of a snapshot: a failed INSERT is only written to
    the console. *)
Definition register_backup (env : Env) (filename : string)
  (backupData tipo : JS.value) (t : Sql.table) : Sql.table :=
  match
    Sql.insert "backups" backups_schema backups_insert_columns 4
      (backup_params filename backupData tipo) (sql_now env) t
  with
  | inl _ => t
  | inr (t', _) => t'
  end.

Definition is_auto_kind (tipo : JS.value) : bool :=
  match tipo with JS.Str s => (s =? "auto")%string | _ => false end.

(** [criarBackup(tipo, callback)]: the state afterwards and the arguments
    the callback receives, an error or the file name. *)
Definition criarBackup (env : Env) (tipo0 : JS.value) (st : State)
  : State * (string + string) :=
  let tipo := match tipo0 with JS.Undefined => JS.Str "auto" | _ => tipo0 end in
  let timestamp := JS.replace_colon_dot (now_iso env) in
  let filename :=
    "backup_" ++ JS.to_string tipo ++ "_" ++ timestamp ++ ".json" in
  let rows := Sql.rows (demandas st) in
  let backupData := backupData_of timestamp tipo rows in
  if negb (writable env filename)
  then (st, inl "ENOENT")
  else
    let st1 :=
      with_files (write_file filename (JS.stringify_pretty backupData)
                    (files st)) st in
    let st2 :=
      with_backups (register_backup env filename backupData tipo (backups st1))
        st1 in
    let st3 :=
      if is_auto_kind tipo then with_backups (prune_auto (backups st2)) st2
      else st2 in
    (st3, inr filename).

(** *** POST /api/demandas *)

Definition set_field (o : JS.value) (k : string) (v : JS.value) : JS.value :=
  match o with
  | JS.Obj ps => JS.Obj (JS.set k v ps)
  | _ => o
  end.

(** [v ? 1 : 0] and [v ? JSON.stringify(v) : null]. *)
Definition one_or_zero (v : JS.value) : JS.value :=
  num (if JS.truthy v then 1 else 0).

Definition stringify_or_null (v : JS.value) : JS.value :=
  if JS.truthy v then JS.Str (JS.stringify v) else JS.Null.

Definition not_found : Response :=
  status_json 404
    (JS.Obj [("success", JS.Bool false);
             ("error", JS.Str "Demanda não encontrada")]).

(** The column list of the INSERT of the create route: eighteen names, for
    seventeen placeholders in its VALUES list. *)
Definition create_insert_columns : list string :=
  ["funcionarioId"; "nomeFuncionario"; "emailFuncionario"; "categoria";
   "prioridade"; "complexidade"; "descricao"; "local"; "dataCriacao";
   "dataLimite"; "status"; "isRotina"; "diasSemana"; "tag"; "comentarios";
   "comentarioGestor"; "atribuidos"; "criadoPor"].

Definition create_placeholders : nat := 17.

(** The body after [if (!d.tag) d.tag = `DEM-${Date.now()}-${...}`]. *)
Definition with_tag (env : Env) (d : JS.value) : JS.value :=
  if negb (JS.truthy (JS.get d "tag"))
  then set_field d "tag"
         (JS.Str ("DEM-" ++ string_of_Z (now_ms env) ++ "-" ++ random36 env))
  else d.

Definition create_params (env : Env) (d : JS.value) : list JS.value :=
  [JS.get d "funcionarioId";
   JS.get d "nomeFuncionario";
   JS.get d "emailFuncionario";
   JS.get d "categoria";
   JS.get d "prioridade";
   JS.get d "complexidade";
   JS.get d "descricao";
   JS.get d "local";
   JS.or_else (JS.get d "dataCriacao") (JS.Str (now_iso env));
   JS.get d "dataLimite";
   JS.or_else (JS.get d "status") (JS.Str "pendente");
   one_or_zero (JS.get d "isRotina");
   stringify_or_null (JS.get d "diasSemana");
   JS.get d "tag";
   JS.or_else (JS.get d "comentarios") (JS.Str "");
   JS.or_else (JS.get d "comentarioGestor") (JS.Str "");
   stringify_or_null (JS.get d "atribuidos");
   JS.get d "funcionarioId"].

Definition post_demandas (env : Env) (req : Request) (st : State)
  : State * Outcome :=
  match validarDemanda env req with
  | JS.Throw msg => error_handler env msg st
  | JS.Ret (Answer r) => (st, Sent r)
  | JS.Ret Next =>
      let d := with_tag env (body req) in
      let params := create_params env d in
      match
        Sql.insert "demandas" demandas_schema create_insert_columns
          create_placeholders params (sql_now env) (demandas st)
      with
      | inl e => (st, Sent (error_500 e))
      | inr (t, lastID) =>
          let st1 := with_demandas t st in
          let st2 :=
            registrarAuditoria env "CREATE" "demandas" (num lastID) JS.Null d
              (JS.get d "funcionarioId") (ip req) st1 in
          let st3 := fst (criarBackup env (JS.Str "auto") st2) in
          (st3,
           Sent (json
             (JS.Obj
                [("success", JS.Bool true);
                 ("demanda",
                  JS.Obj (JS.set "dataCriacao" (nth 8 params JS.Undefined)
                            (JS.spread [("id", num lastID)] d)))])))
      end
  end.

(** *** PUT /api/demandas/:id *)

(** The columns of the SET clause, in the order of their placeholders. *)
Definition update_set_columns : list string :=
  ["funcionarioId"; "nomeFuncionario"; "emailFuncionario"; "categoria";
   "prioridade"; "complexidade"; "descricao"; "local"; "dataLimite";
   "status"; "isRotina"; "diasSemana"; "tag"; "comentarios";
   "comentarioGestor"; "dataConclusao"; "atribuidos"; "dataAtualizacao";
   "atualizadoPor"].

(** [{ ...demandaExistente, ...d }] without [id], [dataCriacao] and
    [criadoPor], with the modification stamp. *)
Definition dadosCompletos_of (env : Env) (demandaExistente d : JS.value)
  : JS.value :=
  let merged := JS.spread (JS.spread [] demandaExistente) d in
  let kept :=
    JS.delete "criadoPor" (JS.delete "dataCriacao" (JS.delete "id" merged)) in
  JS.Obj (JS.set "atualizadoPor" (JS.get d "funcionarioId")
            (JS.set "dataAtualizacao" (JS.Str (now_iso env)) kept)).

Definition update_params (dadosCompletos id : JS.value) : list JS.value :=
  [JS.get dadosCompletos "funcionarioId";
   JS.get dadosCompletos "nomeFuncionario";
   JS.get dadosCompletos "emailFuncionario";
   JS.get dadosCompletos "categoria";
   JS.get dadosCompletos "prioridade";
   JS.get dadosCompletos "complexidade";
   JS.get dadosCompletos "descricao";
   JS.get dadosCompletos "local";
   JS.get dadosCompletos "dataLimite";
   JS.get dadosCompletos "status";
   one_or_zero (JS.get dadosCompletos "isRotina");
   stringify_or_null (JS.get dadosCompletos "diasSemana");
   JS.get dadosCompletos "tag";
   JS.or_else (JS.get dadosCompletos "comentarios") (JS.Str "");
   JS.or_else (JS.get dadosCompletos "comentarioGestor") (JS.Str "");
   JS.or_else (JS.get dadosCompletos "dataConclusao") JS.Null;
   stringify_or_null (JS.get dadosCompletos "atribuidos");
   JS.get dadosCompletos "dataAtualizacao";
   JS.get dadosCompletos "atualizadoPor";
   id].

Definition is_critical_status (v : JS.value) : bool :=
  match v with JS.Str s => mem s ["aprovada"; "reprovada"] | _ => false end.

Definition put_demandas (env : Env) (req : Request) (st : State)
  : State * Outcome :=
  match validarDemanda env req with
  | JS.Throw msg => error_handler env msg st
  | JS.Ret (Answer r) => (st, Sent r)
  | JS.Ret Next =>
      let id := JS.Str (param_id req) in
      let d := body req in
      match Sql.get_by_id [id] (demandas st) with
      | inl e => (st, Sent (error_500 e))
      | inr None => (st, Sent not_found)
      | inr (Some row) =>
          let demandaExistente := Sql.row_to_js row in
          let dadosCompletos := dadosCompletos_of env demandaExistente d in
          match
            Sql.update "demandas" demandas_schema update_set_columns
              (update_params dadosCompletos id) (demandas st)
          with
          | inl e => (st, Sent (error_500 e))
          | inr t =>
              let st1 := with_demandas t st in
              let st2 :=
                registrarAuditoria env "UPDATE" "demandas" id demandaExistente
                  dadosCompletos (JS.get d "funcionarioId") (ip req) st1 in
              let st3 :=
                if is_critical_status (JS.get d "status")
                then fst (criarBackup env (JS.Str "status_change") st2)
                else st2 in
              (st3,
               Sent (json
                 (JS.Obj
                    [("success", JS.Bool true);
                     ("demanda",
                      JS.Obj (JS.spread [("id", JS.Num (JS.parseInt id))]
                                dadosCompletos))])))
          end
      end
  end.

(** *** DELETE /api/demandas/:id *)

Definition delete_demandas (env : Env) (req : Request) (st : State)
  : State * Outcome :=
  let id := JS.Str (param_id req) in
  match Sql.get_by_id [id] (demandas st) with
  | inl e => (st, Sent (error_500 e))
  | inr None => (st, Sent not_found)
  | inr (Some demanda) =>
      match Sql.delete_by_id [id] (demandas st) with
      | inl e => (st, Sent (error_500 e))
      | inr t =>
          let st1 := with_demandas t st in
          match JS.get_prop (body req) "usuarioId" with
          | JS.Throw msg => (st1, Crashed msg)
          | JS.Ret usuarioId =>
              let st2 :=
                registrarAuditoria env "DELETE" "demandas" id
                  (Sql.row_to_js demanda) JS.Null
                  (JS.or_else usuarioId JS.Null) (ip req) st1 in
              let st3 := fst (criarBackup env (JS.Str "delete") st2) in
              (st3, Sent (json (JS.Obj [("success", JS.Bool true)])))
          end
      end
  end.

(** *** GET /api/demandas *)

Definition default_to (v dflt : JS.value) : JS.value :=
  match v with JS.Undefined => dflt | _ => v end.

(** One [AND column op ?] of the WHERE clause with the parameter pushed
    for it. *)
Record Cond : Type := {
  cond_column : string;
  cond_affinity : Sql.affinity;
  cond_test : comparison -> bool;
  cond_param : JS.value
}.

Definition cond_if (v : JS.value) (c : string) (a : Sql.affinity)
  (test : comparison -> bool) : list Cond :=
  if JS.truthy v
  then [{| cond_column := c; cond_affinity := a; cond_test := test;
           cond_param := v |}]
  else [].

Fixpoint row_satisfies (conds : list Cond) (vals : list Sql.value)
  (r : Sql.row) : bool :=
  match conds, vals with
  | c :: ctl, v :: vtl =>
      Sql.where_cmp (cond_test c) (cond_affinity c)
        (Sql.col_or_null (cond_column c) r) v
      && row_satisfies ctl vtl r
  | _, _ => true
  end.

Definition allowedOrderFields : list string :=
  ["dataCriacao"; "dataLimite"; "status"; "prioridade"; "categoria"].

(** The name SQLite gives a result column: its alias, or without one the
    text of the expression. *)
Definition result_column (expr : string) (alias : option string) : string :=
  match alias with Some a => a | None => expr end.

(** The row of [SELECT COUNT( * ) FROM demandas WHERE ...], the text that the
    two [replace] calls make of the list query: the count has no alias. *)
Definition countRow_of (n : nat) : JS.value :=
  JS.Obj [(result_column "COUNT(*)" None, num (Z.of_nat n))].

(** The row of [SELECT COUNT( * ) as count FROM demandas] of the health
    route. *)
Definition health_row_of (n : nat) : JS.value :=
  JS.Obj [(result_column "COUNT(*)" (Some "count"), num (Z.of_nat n))].

Definition get_demandas (env : Env) (req : Request) (st : State)
  : State * Outcome :=
  let q := query req in
  let page := default_to (JS.get q "page") (num 1) in
  let limit := default_to (JS.get q "limit") (num 50) in
  let orderBy := default_to (JS.get q "orderBy") (JS.Str "dataCriacao") in
  let orderDirection :=
    default_to (JS.get q "orderDirection") (JS.Str "DESC") in
  let conds :=
    (cond_if (JS.get q "status") "status" Sql.TEXT Sql.is_eq
     ++ cond_if (JS.get q "funcionarioId") "funcionarioId" Sql.INTEGER
          Sql.is_eq
     ++ cond_if (JS.get q "categoria") "categoria" Sql.TEXT Sql.is_eq
     ++ cond_if (JS.get q "prioridade") "prioridade" Sql.TEXT Sql.is_eq
     ++ cond_if (JS.get q "dataInicio") "dataCriacao" Sql.TEXT Sql.is_ge
     ++ cond_if (JS.get q "dataFim") "dataCriacao" Sql.TEXT Sql.is_le)%list in
  let field :=
    match orderBy with
    | JS.Str s => if mem s allowedOrderFields then s else "dataCriacao"
    | _ => "dataCriacao"
    end in
  match orderDirection with
  | JS.Str s =>
      let desc := negb (JS.toUpperCase s =? "ASC")%string in
      let offset :=
        JS.mul (JS.sub (JS.parseInt page) (JS.Int 1)) (JS.parseInt limit) in
      let params :=
        (map cond_param conds
         ++ [JS.Num (JS.parseInt limit); JS.Num offset])%list in
      let n := List.length conds in
      match Sql.bind (n + 2) params with
      | inl e => (st, Sent (error_500 e))
      | inr vals =>
          match Sql.must_be_int (nth n vals Sql.Null),
                Sql.must_be_int (nth (S n) vals Sql.Null) with
          | inr lim, inr off =>
              let matching :=
                filter (row_satisfies conds vals) (Sql.rows (demandas st)) in
              let rows :=
                Sql.limit_offset lim off (Sql.order_by field desc matching) in
              let countRow := countRow_of (List.length matching) in
              (st,
               Sent (json
                 (JS.Obj
                    [("success", JS.Bool true);
                     ("data", JS.Arr (map Sql.row_to_js rows));
                     ("pagination",
                      JS.Obj
                        [("page", JS.Num (JS.parseInt page));
                         ("limit", JS.Num (JS.parseInt limit));
                         ("total", JS.get countRow "count");
                         ("pages",
                          JS.Num (JS.ceil_div
                                    (JS.to_number (JS.get countRow "count"))
                                    (JS.parseInt limit)))])])))
          | inl e, _ | _, inl e => (st, Sent (error_500 e))
          end
      end
  | _ => error_handler env "orderDirection.toUpperCase is not a function" st
  end.

(** *** GET /api/demandas/search *)

Definition lower_byte (c : ascii) : N :=
  if ((65 <=? byte c) && (byte c <=? 90))%N then byte c + 32 else byte c.

Fixpoint skip_continuation (s : string) : string :=
  match s with
  | String c tl =>
      if ((128 <=? byte c) && (byte c <? 192))%N then skip_continuation tl
      else s
  | EmptyString => s
  end.

(** [text LIKE pattern]: [%] is any run, [_] one character, letters of
    ASCII without regard to case. *)
Fixpoint like (pattern text : string) : bool :=
  match pattern with
  | EmptyString => (text =? "")%string
  | String p ptl =>
      if (byte p =? 37)%N
      then
        (fix any (t : string) : bool :=
           like ptl t
           || match t with
              | String _ ttl => any ttl
              | EmptyString => false
              end) text
      else
        match text with
        | EmptyString => false
        | String c ttl =>
            if (byte p =? 95)%N then like ptl (skip_continuation ttl)
            else (lower_byte p =? lower_byte c)%N && like ptl ttl
        end
  end.

(** [column LIKE ?] as a condition: NULL on either side is not a match. *)
Definition like_value (stored pattern : Sql.value) : bool :=
  match Sql.apply_affinity Sql.TEXT stored,
        Sql.apply_affinity Sql.TEXT pattern with
  | Sql.Text t, Sql.Text p => like p t
  | _, _ => false
  end.

(** The columns the search statement names, in the order of its text. *)
Definition search_columns : list string :=
  ["nomeDemanda"; "descricao"; "tag"; "nomeDemanda"; "descricao";
   "dataLimite"].

(** The search statement has six placeholders: three in WHERE, two in the
    CASE of ORDER BY, one after LIMIT. *)
Definition search_placeholders : nat := 6.

Definition search_rank (vals : list Sql.value) (r : Sql.row) : Z :=
  if like_value (Sql.col_or_null "nomeDemanda" r) (nth 3 vals Sql.Null)
  then 1
  else if like_value (Sql.col_or_null "descricao" r) (nth 4 vals Sql.Null)
       then 2 else 3.

Definition search_before (vals : list Sql.value) (r1 r2 : Sql.row) : bool :=
  match Z.compare (search_rank vals r1) (search_rank vals r2) with
  | Lt => true
  | Gt => false
  | Eq => Sql.before "dataLimite" false r1 r2
  end.

Definition get_search (env : Env) (req : Request) (st : State)
  : State * Outcome :=
  let q := JS.get (query req) "q" in
  let limit := default_to (JS.get (query req) "limit") (num 20) in
  if negb (JS.truthy q) || JS.less_than (JS.get q "length") 2
  then (st, Sent (json (JS.Obj [("success", JS.Bool true);
                                ("data", JS.Arr [])])))
  else
    let searchTerm := JS.Str ("%" ++ JS.to_string q ++ "%") in
    match Sql.check_columns demandas_schema search_columns with
    | Some e => (st, Sent (error_500 e))
    | None =>
        match Sql.bind search_placeholders
                [searchTerm; searchTerm; searchTerm; limit] with
        | inl e => (st, Sent (error_500 e))
        | inr vals =>
            match Sql.must_be_int (nth 5 vals Sql.Null) with
            | inl e => (st, Sent (error_500 e))
            | inr lim =>
                let matching :=
                  filter
                    (fun r =>
                       like_value (Sql.col_or_null "nomeDemanda" r)
                         (nth 0 vals Sql.Null)
                       || like_value (Sql.col_or_null "descricao" r)
                            (nth 1 vals Sql.Null)
                       || like_value (Sql.col_or_null "tag" r)
                            (nth 2 vals Sql.Null))
                    (Sql.rows (demandas st)) in
                let rows :=
                  Sql.limit_offset lim 0
                    (Sql.sort (search_before vals) matching) in
                (st, Sent (json (JS.Obj
                                   [("success", JS.Bool true);
                                    ("data", JS.Arr (map Sql.row_to_js rows))])))
            end
        end
    end.

(** *** POST /api/backup and GET /api/backups *)

Definition post_backup (env : Env) (req : Request) (st : State)
  : State * Outcome :=
  match JS.destructure (body req) "tipo" "req.body" with
  | JS.Throw msg => error_handler env msg st
  | JS.Ret t =>
      let tipo := default_to t (JS.Str "manual") in
      match criarBackup env tipo st with
      | (st', inl e) => (st', Sent (error_500 (Sql.Err e)))
      | (st', inr filename) =>
          (st',
           Sent (json (JS.Obj [("success", JS.Bool true);
                               ("message", JS.Str "Backup criado com sucesso");
                               ("filename", JS.Str filename)])))
      end
  end.

Definition get_backups (env : Env) (req : Request) (st : State)
  : State * Outcome :=
  (st,
   Sent (json (JS.Obj
                 [("success", JS.Bool true);
                  ("backups",
                   JS.Arr (map Sql.row_to_js
                             (Sql.order_by "dataCriacao" true
                                (Sql.rows (backups st)))))]))).

(** *** POST /api/restore *)

(** The column list of the INSERT of the restore route: nineteen names, for
    eighteen placeholders. *)
Definition restore_insert_columns : list string :=
  ["funcionarioId"; "nomeFuncionario"; "emailFuncionario"; "categoria";
   "prioridade"; "complexidade"; "descricao"; "local"; "dataCriacao";
   "dataLimite"; "status"; "isRotina"; "diasSemana"; "tag"; "comentarios";
   "comentarioGestor"; "dataConclusao"; "atribuidos"; "criadoPor"].

Definition restore_placeholders : nat := 18.

Definition restore_params (demanda : JS.value) : JS.Exn (list JS.value) :=
  JS.bind (JS.get_prop demanda "funcionarioId") (fun funcionarioId =>
  JS.Ret
    [funcionarioId;
     JS.get demanda "nomeFuncionario";
     JS.get demanda "emailFuncionario";
     JS.get demanda "categoria";
     JS.get demanda "prioridade";
     JS.get demanda "complexidade";
     JS.get demanda "descricao";
     JS.get demanda "local";
     JS.get demanda "dataCriacao";
     JS.get demanda "dataLimite";
     JS.get demanda "status";
     one_or_zero (JS.get demanda "isRotina");
     stringify_or_null (JS.get demanda "diasSemana");
     JS.get demanda "tag";
     JS.or_else (JS.get demanda "comentarios") (JS.Str "");
     JS.or_else (JS.get demanda "comentarioGestor") (JS.Str "");
     JS.or_else (JS.get demanda "dataConclusao") JS.Null;
     stringify_or_null (JS.get demanda "atribuidos");
     JS.get demanda "criadoPor"]).

(** The [forEach] builds the parameters of every record before any of the
    queued INSERTs runs. *)
Fixpoint all_restore_params (l : list JS.value)
  : JS.Exn (list (list JS.value)) :=
  match l with
  | [] => JS.Ret []
  | x :: tl =>
      JS.bind (restore_params x) (fun p =>
      JS.bind (all_restore_params tl) (fun ps => JS.Ret (p :: ps)))
  end.

(** The queued INSERTs; one that fails is only written to the console. *)
Definition restore_inserts (env : Env) (ps : list (list JS.value))
  (t : Sql.table) : Sql.table :=
  fold_left
    (fun acc params =>
       match
         Sql.insert "demandas" demandas_schema restore_insert_columns
           restore_placeholders params (sql_now env) acc
       with
       | inl _ => acc
       | inr (t', _) => t'
       end)
    ps t.

Definition corrupt_backup : Response :=
  status_json 500
    (JS.Obj [("success", JS.Bool false);
             ("error", JS.Str "Erro ao processar arquivo de backup")]).

Definition items_of (v : JS.value) : list JS.value :=
  match v with JS.Arr l => l | _ => [] end.

Definition post_restore (env : Env) (req : Request) (st : State)
  : State * Outcome :=
  match JS.destructure (body req) "backupId" "req.body" with
  | JS.Throw msg => error_handler env msg st
  | JS.Ret backupId =>
      if negb (JS.truthy backupId)
      then (st,
            Sent (status_json 400
                    (JS.Obj [("success", JS.Bool false);
                             ("error", JS.Str "ID do backup é obrigatório")])))
      else
        match Sql.get_by_id [backupId] (backups st) with
        | inl e => (st, Sent (error_500 e))
        | inr None =>
            (st,
             Sent (status_json 404
                     (JS.Obj [("success", JS.Bool false);
                              ("error", JS.Str "Backup não encontrado")])))
        | inr (Some backup) =>
            (* try *)
            match Sql.col_or_null "nomeArquivo" backup with
            | Sql.Text nomeArquivo =>
                match lookup_file nomeArquivo (files st) with
                | None => (st, Sent corrupt_backup)
                | Some content =>
                    match JSON_parse content with
                    | None => (st, Sent corrupt_backup)
                    | Some backupData =>
                        match JS.get_prop backupData "demandas" with
                        | JS.Throw _ => (st, Sent corrupt_backup)
                        | JS.Ret ds =>
                            if JS.truthy ds && JS.is_array ds
                            then
                              let st1 :=
                                with_demandas (Sql.delete_all (demandas st))
                                  st in
                              match all_restore_params (items_of ds) with
                              | JS.Throw msg => (st1, Crashed msg)
                              | JS.Ret ps =>
                                  (with_demandas
                                     (restore_inserts env ps (demandas st1))
                                     st1,
                                   Sent (json
                                     (JS.Obj
                                        [("success", JS.Bool true);
                                         ("message",
                                          JS.Str
                                            ("Backup restaurado com sucesso! "
                                             ++ string_of_Z
                                                  (Z.of_nat
                                                     (List.length
                                                        (items_of ds)))
                                             ++ " demandas foram restauradas."))])))
                              end
                            else (st, NoAnswer)
                        end
                    end
                end
            | _ => (st, Sent corrupt_backup)
            end
        end
  end.

End Server.

(** ** Instances of the two parameters, for running the handlers *)

(** Days from 1970-01-01 to a date of the proleptic Gregorian calendar. *)
Definition days_from_civil (y m d : Z) : Z :=
  let y' := if m <=? 2 then y - 1 else y in
  let era := y' / 400 in
  let yoe := y' - era * 400 in
  let doy := (153 * (if 2 <? m then m - 3 else m + 9) + 2) / 5 + d - 1 in
  let doe := yoe * 365 + yoe / 4 - yoe / 100 + doy in
  era * 146097 + doe - 719468.

(** The time value of a date-only text [yyyy-mm-dd], which the [Date]
    constructor reads as midnight UTC; every other argument is taken for an
    invalid date here. *)
Definition iso_date_ms (v : JS.value) : option Z :=
  match v with
  | JS.Str s =>
      if ((String.length s =? 10)%nat
          && (substring 4 1 s =? "-")%string
          && (substring 7 1 s =? "-")%string)
      then
        match digits_value 0 (substring 0 4 s),
              digits_value 0 (substring 5 2 s),
              digits_value 0 (substring 8 2 s) with
        | Some y, Some m, Some d =>
            if (1 <=? m) && (m <=? 12) && (1 <=? d) && (d <=? 31)
            then Some (days_from_civil y m d * 86400000)
            else None
        | _, _, _ => None
        end
      else None
  | _ => None
  end.

(** A JSON reader for integers, strings, arrays and objects. *)
Module Json.

Fixpoint skip_ws (s : string) : string :=
  match s with
  | String c tl =>
      if ((byte c =? 32) || (byte c =? 9) || (byte c =? 10) || (byte c =? 13))%N
      then skip_ws tl else s
  | EmptyString => s
  end.

Definition hex_val (c : ascii) : option N :=
  option_map Z.to_N (JS.hex_val c).

(** The UTF-8 bytes of a code point of the basic plane. *)
Definition utf8 (n : N) : string :=
  (if n <? 128 then String (ascii_of_N n) ""
   else if n <? 2048
        then String (ascii_of_N (192 + n / 64))
               (String (ascii_of_N (128 + n mod 64)) "")
        else String (ascii_of_N (224 + n / 4096))
               (String (ascii_of_N (128 + (n / 64) mod 64))
                  (String (ascii_of_N (128 + n mod 64)) "")))%N.

(** The text of a string literal after its opening quote, up to the closing
    one. *)
Fixpoint string_body (s : string) : option (string * string) :=
  match s with
  | EmptyString => None
  | String c tl =>
      let b := byte c in
      if (b =? 34)%N then Some ("", tl)
      else if (b <? 32)%N then None
      else if (b =? 92)%N
      then
        match tl with
        | String e tl' =>
            let simple (x : N) :=
              option_map (fun p => (String (ascii_of_N x) (fst p), snd p))
                (string_body tl') in
            let be := byte e in
            if (be =? 34)%N then simple 34%N
            else if (be =? 92)%N then simple 92%N
            else if (be =? 47)%N then simple 47%N
            else if (be =? 98)%N then simple 8%N
            else if (be =? 102)%N then simple 12%N
            else if (be =? 110)%N then simple 10%N
            else if (be =? 114)%N then simple 13%N
            else if (be =? 116)%N then simple 9%N
            else if (be =? 117)%N
            then
              match tl' with
              | String h1 (String h2 (String h3 (String h4 rest))) =>
                  match hex_val h1, hex_val h2, hex_val h3, hex_val h4 with
                  | Some a, Some b', Some c', Some d =>
                      option_map
                        (fun p =>
                           (utf8 (a * 4096 + b' * 256 + c' * 16 + d)%N
                              ++ fst p, snd p))
                        (string_body rest)
                  | _, _, _, _ => None
                  end
              | _ => None
              end
            else None
        | EmptyString => None
        end
      else option_map (fun p => (String c (fst p), snd p)) (string_body tl)
  end.

(** An integer literal; a fraction or an exponent is refused. *)
Definition number (s : string) : option (JS.value * string) :=
  let (neg, s') :=
    match s with
    | String "-" tl => (true, tl)
    | _ => (false, s)
    end in
  let (d, rest) := digit_run s' in
  match digits_value 0 d, d, rest with
  | _, EmptyString, _ => None
  | _, String "0" (String _ _), _ => None
  | _, _, String "." _ | _, _, String "e" _ | _, _, String "E" _ => None
  | Some z, _, _ =>
      Some (JS.Num (JS.Int (JS.to_double (if neg then - z else z))), rest)
  | None, _, _ => None
  end.

Definition literal (word : string) (v : JS.value) (s : string)
  : option (JS.value * string) :=
  if prefix word s
  then Some (v, substring (String.length word)
                  (String.length s - String.length word) s)
  else None.

(** One value at the head of the text and the text after it; the fuel
    bounds the nesting and the number of members. *)
Fixpoint value (fuel : nat) (s : string) : option (JS.value * string) :=
  match fuel with
  | O => None
  | S fuel' =>
      let elements :=
        fix elements (n : nat) (s : string) (acc : list JS.value)
          : option (JS.value * string) :=
          match n with
          | O => None
          | S n' =>
              match value fuel' s with
              | Some (v, rest) =>
                  match skip_ws rest with
                  | String "," rest' => elements n' rest' (acc ++ [v])%list
                  | String "]" rest' => Some (JS.Arr (acc ++ [v])%list, rest')
                  | _ => None
                  end
              | None => None
              end
          end in
      let members :=
        fix members (n : nat) (s : string) (acc : list (string * JS.value))
          : option (JS.value * string) :=
          match n with
          | O => None
          | S n' =>
              match skip_ws s with
              | String q s1 =>
                  if (byte q =? 34)%N
                  then
                    match string_body s1 with
                    | Some (k, s2) =>
                        match skip_ws s2 with
                        | String ":" s3 =>
                            match value fuel' s3 with
                            | Some (v, rest) =>
                                match skip_ws rest with
                                | String "," rest' =>
                                    members n' rest' (JS.set k v acc)
                                | String "}" rest' =>
                                    Some (JS.Obj (JS.set k v acc), rest')
                                | _ => None
                                end
                            | None => None
                            end
                        | _ => None
                        end
                    | None => None
                    end
                  else None
              | EmptyString => None
              end
          end in
      match skip_ws s with
      | EmptyString => None
      | String c tl =>
          let b := byte c in
          if (b =? 34)%N
          then option_map (fun p => (JS.Str (fst p), snd p)) (string_body tl)
          else if (b =? 91)%N
          then match skip_ws tl with
               | String "]" rest => Some (JS.Arr [], rest)
               | _ => elements fuel' tl []
               end
          else if (b =? 123)%N
          then match skip_ws tl with
               | String "}" rest => Some (JS.Obj [], rest)
               | _ => members fuel' tl []
               end
          else if (b =? 116)%N then literal "true" (JS.Bool true) (String c tl)
          else if (b =? 102)%N then literal "false" (JS.Bool false) (String c tl)
          else if (b =? 110)%N then literal "null" JS.Null (String c tl)
          else number (String c tl)
      end
  end.

(** The whole text as one value. *)
Definition parse (s : string) : option JS.value :=
  match value (S (String.length s)) s with
  | Some (v, rest) =>
      if (skip_ws rest =? "")%string then Some v else None
  | None => None
  end.

End Json.

(** ** What the claims say, in the words of the specification *)










(** The due date of the create example of the specification is the instant
    [t], and the current day does not start after it. *)
Definition due_in_time (Date_ms : JS.value -> option Z) (env : Env) (t : Z)
  : Prop :=
  Date_ms (JS.Str "2999-01-01") = Some t /\ hoje_ms env <= t.

(** The request names a registered snapshot whose file holds [content]. *)
Definition snapshot_text (req : Request) (st : State) (content : string)
  : Prop :=
  exists backupId backup nomeArquivo,
    JS.destructure (body req) "backupId" "req.body" = JS.Ret backupId
    /\ JS.truthy backupId = true
    /\ Sql.get_by_id [backupId] (backups st) = inr (Some backup)
    /\ Sql.col_or_null "nomeArquivo" backup = Sql.Text nomeArquivo
    /\ lookup_file nomeArquivo (files st) = Some content.

(** ** Sample states and requests *)

Module Sample.

Definition env : Env :=
  {| now_iso := "2026-11-02T12:00:00.000Z";
     now_ms := 1793620800000;
     hoje_ms := 1793577600000;
     random36 := "k3j9x0q1z";
     sql_now := "2026-11-02 12:00:00";
     production := false;
     writable := fun _ => true |}.

Definition empty_table : Sql.table := {| Sql.rows := []; Sql.seq := 0 |}.

Definition empty : State :=
  {| demandas := empty_table; auditoria := empty_table;
     backups := empty_table; files := []; error_log := [] |}.

Definition two_digits (n : Z) : string :=
  if n <? 10 then "0" ++ string_of_Z n else string_of_Z n.

(** A stored record created on day [n] of October 2026 by employee 7. *)
Definition demanda (n : Z) : Sql.row :=
  [("id", Sql.Integer n);
   ("funcionarioId", Sql.Integer 7);
   ("nomeFuncionario", Sql.Text "Ana");
   ("emailFuncionario", Sql.Text "ana@example.org");
   ("categoria", Sql.Text "Manutenção");
   ("prioridade", Sql.Text "Importante");
   ("complexidade", Sql.Text "Fácil");
   ("descricao", Sql.Text "Pipe is leaking badly");
   ("local", Sql.Text "Bloco A");
   ("dataCriacao", Sql.Text ("2026-10-" ++ two_digits n ++ "T08:00:00.000Z"));
   ("dataLimite", Sql.Text "2999-01-01");
   ("status", Sql.Text "pendente");
   ("isRotina", Sql.Integer 0);
   ("diasSemana", Sql.Null);
   ("tag", Sql.Text ("DEM-" ++ string_of_Z n));
   ("comentarios", Sql.Text "");
   ("comentarioGestor", Sql.Text "");
   ("dataConclusao", Sql.Null);
   ("atribuidos", Sql.Null);
   ("dataAtualizacao", Sql.Text "2026-10-31 08:00:00");
   ("criadoPor", Sql.Integer 7);
   ("atualizadoPor", Sql.Null)].

Definition ids (first count : nat) : list Z :=
  map Z.of_nat (seq first count).

Definition with_records (count : nat) : State :=
  with_demandas {| Sql.rows := map demanda (ids 1 count);
                   Sql.seq := Z.of_nat count |} empty.

(** The body of the create example of the specification. *)
Definition fix_leak : JS.value :=
  JS.Obj [("nomeDemanda", JS.Str "Fix leak");
          ("categoria", JS.Str "Manutenção");
          ("prioridade", JS.Str "Importante");
          ("complexidade", JS.Str "Fácil");
          ("descricao", JS.Str "Pipe is leaking badly");
          ("local", JS.Str "Bloco A");
          ("dataLimite", JS.Str "2999-01-01")].

Definition request (id : string) (q b : JS.value) : Request :=
  {| param_id := id; query := q; body := b; ip := JS.Str "127.0.0.1" |}.

(** An update that also names [id], [dataCriacao] and [criadoPor]. *)
Definition overwrite : JS.value :=
  JS.Obj (JS.spread (JS.own_props fix_leak)
            (JS.Obj [("id", num 999);
                     ("dataCriacao", JS.Str "1999-01-01T00:00:00.000Z");
                     ("criadoPor", num 42);
                     ("funcionarioId", num 9);
                     ("status", JS.Str "aprovada")])).



(** An index entry of kind [tipo] registered on day [n] of October 2026. *)
Definition backup_entry (tipo : string) (n : Z) : Sql.row :=
  let nome := "backup_" ++ tipo ++ "_2026-10-" ++ two_digits n ++ ".json" in
  [("id", Sql.Integer n);
   ("nomeArquivo", Sql.Text nome);
   ("dataBackup", Sql.Text ("2026-10-" ++ two_digits n));
   ("tamanho", Sql.Integer 100);
   ("tipo", Sql.Text tipo);
   ("dataCriacao", Sql.Text ("2026-10-" ++ two_digits n ++ " 06:00:00"))].

(** Eleven automatic entries, the one with [id] 1 the oldest. *)
Definition eleven_auto : Sql.table :=
  {| Sql.rows := map (backup_entry "auto") (ids 1 11); Sql.seq := 11 |}.

Definition with_eleven_auto : State := with_backups eleven_auto empty.

(** Three records and one registered snapshot whose file holds [content]. *)
Definition with_snapshot (content : string) : State :=
  with_files [("backup_manual_2026-10-01.json", content)]
    (with_backups {| Sql.rows := [backup_entry "manual" 1]; Sql.seq := 1 |}
       (with_records 3)).

Definition restore_request : Request :=
  request "" (JS.Obj []) (JS.Obj [("backupId", num 1)]).

(** The text of a snapshot file without the record list, and of one whose
    record list is a string. *)
Definition without_list : string :=
  JS.stringify (JS.Obj [("versao", JS.Str "1.0.0")]).

Definition with_text_list : string :=
  JS.stringify
    (JS.Obj [("versao", JS.Str "1.0.0"); ("demandas", JS.Str "oops")]).

(** [GET /api/demandas?page=2&limit=10] and [GET /api/demandas/search?q=...]. *)
Definition page_two : Request :=
  request "" (JS.Obj [("page", JS.Str "2"); ("limit", JS.Str "10")])
    (JS.Obj []).

Definition search_for (q : string) : Request :=
  request "" (JS.Obj [("q", JS.Str q)]) (JS.Obj []).

End Sample.

(** ** The rest of [server.js] *)

(** *** GET /health *)

(** The first query counts the records; its callback runs the integrity
    check, and the callback of that one calls its own argument [row] as
    well.  [integrity] is what the engine gives the second query: an error,
    or the text of the check.  With an error the inner [row] is undefined,
    and reading [row.count] throws inside the callback. *)
Definition get_health (env : Env) (integrity : string + string)
  (uptime memory : JS.value) (st : State) : State * Outcome :=
  let row := health_row_of (List.length (Sql.rows (demandas st))) in
  match integrity with
  | inr text =>
      let row := JS.Obj [("integrity_check", JS.Str text)] in
      let integrity := JS.get row "integrity_check" in
      (st,
       Sent (json (JS.Obj [("status", JS.Str "OK");
                           ("demandas", JS.get row "count");
                           ("integrity", integrity);
                           ("uptime", uptime);
                           ("timestamp", JS.Str (now_iso env));
                           ("memory", memory);
                           ("version", JS.Str "1.0.0")])))
  | inl _ =>
      let row := JS.Undefined in
      match JS.get_prop row "count" with
      | JS.Throw msg => (st, Crashed msg)
      | JS.Ret count => (st, NoAnswer)
      end
  end.

(** *** The daily purge of the snapshot index *)

Definition is_lt (c : comparison) : bool :=
  match c with Lt => true | _ => false end.

(** [dataCriacao < ?]. *)
Definition older_than (cutoff : string) (r : Sql.row) : bool :=
  Sql.where_cmp is_lt Sql.TEXT (Sql.col_or_null "dataCriacao" r)
    (Sql.Text cutoff).

(** [DELETE FROM backups WHERE dataCriacao < ?] with the ISO text of the
    instant thirty days before now, which the clock gives as [cutoff]. *)
Definition purge_old_backups (cutoff : string) (st : State) : State :=
  with_backups
    {| Sql.rows := filter (fun r => negb (older_than cutoff r))
                     (Sql.rows (backups st));
       Sql.seq := Sql.seq (backups st) |}
    st.

(** ** The earlier [server.js] *)

Module Legacy.

Definition plain (n : string) (a : Sql.affinity) : Sql.column :=
  mk_col n a false false Sql.NoDefault.

(** [CREATE TABLE IF NOT EXISTS demandas] of the earlier server: no
    constraint and no default. *)
Definition demandas_schema : Sql.schema :=
  [ plain "funcionarioId" Sql.INTEGER;
    plain "nomeFuncionario" Sql.TEXT;
    plain "emailFuncionario" Sql.TEXT;
    plain "categoria" Sql.TEXT;
    plain "prioridade" Sql.TEXT;
    plain "complexidade" Sql.TEXT;
    plain "descricao" Sql.TEXT;
    plain "local" Sql.TEXT;
    plain "dataCriacao" Sql.TEXT;
    plain "dataLimite" Sql.TEXT;
    plain "status" Sql.TEXT;
    plain "isRotina" Sql.INTEGER;
    plain "diasSemana" Sql.TEXT;
    plain "tag" Sql.TEXT;
    plain "comentarios" Sql.TEXT;
    plain "comentarioGestor" Sql.TEXT;
    plain "dataConclusao" Sql.TEXT;
    plain "atribuidos" Sql.TEXT ].

(** Without an error middleware Express answers an exception of a handler
    with a 500 page; the page is given here by the message. *)
Definition uncaught (msg : string) : Response :=
  status_json 500 (JS.Str msg).

Section Routes.

Variable JSON_parse : string -> option JS.value.

(** *** GET /api/demandas *)

(** [if (v) { try { JSON.parse(v) } catch (e) { [] } } else { [] }]. *)
Definition parsed_or_empty (v : JS.value) : JS.value :=
  if JS.truthy v
  then match JSON_parse (JS.to_string v) with
       | Some x => x
       | None => JS.Arr []
       end
  else JS.Arr [].

Definition process_row (r : Sql.row) : JS.value :=
  let row := Sql.row_to_js r in
  let row :=
    set_field row "diasSemana" (parsed_or_empty (JS.get row "diasSemana")) in
  let row :=
    set_field row "atribuidos" (parsed_or_empty (JS.get row "atribuidos")) in
  set_field row "isRotina" (JS.Bool (JS.truthy (JS.get row "isRotina"))).

Definition get_demandas (st : State) : State * Outcome :=
  (st, Sent (json (JS.Arr (map process_row (Sql.rows (demandas st)))))).

(** *** POST /api/demandas *)

(** Seventeen columns for seventeen placeholders. *)
Definition insert_columns : list string :=
  ["funcionarioId"; "nomeFuncionario"; "emailFuncionario"; "categoria";
   "prioridade"; "complexidade"; "descricao"; "local"; "dataCriacao";
   "dataLimite"; "status"; "isRotina"; "diasSemana"; "tag"; "comentarios";
   "comentarioGestor"; "atribuidos"].

Definition insert_params (env : Env) (d : JS.value) : list JS.value :=
  [JS.get d "funcionarioId";
   JS.get d "nomeFuncionario";
   JS.get d "emailFuncionario";
   JS.get d "categoria";
   JS.get d "prioridade";
   JS.get d "complexidade";
   JS.get d "descricao";
   JS.get d "local";
   JS.or_else (JS.get d "dataCriacao") (JS.Str (now_iso env));
   JS.get d "dataLimite";
   JS.or_else (JS.get d "status") (JS.Str "pendente");
   one_or_zero (JS.get d "isRotina");
   stringify_or_null (JS.get d "diasSemana");
   JS.get d "tag";
   JS.or_else (JS.get d "comentarios") (JS.Str "");
   JS.or_else (JS.get d "comentarioGestor") (JS.Str "");
   stringify_or_null (JS.get d "atribuidos")].

Definition post_demandas (env : Env) (req : Request) (st : State)
  : State * Outcome :=
  let d := body req in
  match JS.get_prop d "funcionarioId" with
  | JS.Throw msg => (st, Sent (uncaught msg))
  | JS.Ret _ =>
      let params := insert_params env d in
      match
        Sql.insert "demandas" demandas_schema insert_columns 17 params
          (sql_now env) (demandas st)
      with
      | inl e => (st, Sent (error_500 e))
      | inr (t, lastID) =>
          (with_demandas t st,
           Sent (json
             (JS.Obj
                [("success", JS.Bool true);
                 ("demanda",
                  JS.Obj (JS.set "dataCriacao" (nth 8 params JS.Undefined)
                            (JS.spread [("id", num lastID)] d)))])))
      end
  end.

(** *** PUT /api/demandas/:id *)

Definition set_columns : list string :=
  ["funcionarioId"; "nomeFuncionario"; "emailFuncionario"; "categoria";
   "prioridade"; "complexidade"; "descricao"; "local"; "dataLimite";
   "status"; "isRotina"; "diasSemana"; "tag"; "comentarios";
   "comentarioGestor"; "dataConclusao"; "atribuidos"].

Definition update_values (d : JS.value) : list JS.value :=
  [JS.get d "funcionarioId";
   JS.get d "nomeFuncionario";
   JS.get d "emailFuncionario";
   JS.get d "categoria";
   JS.get d "prioridade";
   JS.get d "complexidade";
   JS.get d "descricao";
   JS.get d "local";
   JS.get d "dataLimite";
   JS.get d "status";
   one_or_zero (JS.get d "isRotina");
   stringify_or_null (JS.get d "diasSemana");
   JS.get d "tag";
   JS.or_else (JS.get d "comentarios") (JS.Str "");
   JS.or_else (JS.get d "comentarioGestor") (JS.Str "");
   JS.or_else (JS.get d "dataConclusao") JS.Null;
   stringify_or_null (JS.get d "atribuidos")].

(** The route looks no record up: the UPDATE runs, and an UPDATE that
    selects no row is no error. *)
Definition put_demandas (env : Env) (req : Request) (st : State)
  : State * Outcome :=
  let d := body req in
  let id := JS.Str (param_id req) in
  match JS.get_prop d "funcionarioId" with
  | JS.Throw msg => (st, Sent (uncaught msg))
  | JS.Ret _ =>
      match
        Sql.update "demandas" demandas_schema set_columns
          (update_values d ++ [id]) (demandas st)
      with
      | inl e => (st, Sent (error_500 e))
      | inr t =>
          (with_demandas t st,
           Sent (json
             (JS.Obj
                [("success", JS.Bool true);
                 ("demanda",
                  JS.Obj (JS.spread [("id", JS.Num (JS.to_number id))] d))])))
      end
  end.

(** *** DELETE /api/demandas/:id *)

Definition delete_demandas (env : Env) (req : Request) (st : State)
  : State * Outcome :=
  match Sql.delete_by_id [JS.Str (param_id req)] (demandas st) with
  | inl e => (st, Sent (error_500 e))
  | inr t => (with_demandas t st, Sent (json (JS.Obj [("success", JS.Bool true)])))
  end.

(** *** GET /health *)

Definition get_health (st : State) : State * Outcome :=
  let row := health_row_of (List.length (Sql.rows (demandas st))) in
  (st, Sent (json (JS.Obj [("status", JS.Str "OK");
                           ("demandas", JS.get row "count")]))).

End Routes.

End Legacy.

(** ** What the handlers promise, in terms of the request *)




(** What node-sqlite3 makes of a parameter that has a placeholder. *)
Definition bound (p : JS.value) : Sql.value :=
  match Sql.of_js p with Some v => v | None => Sql.Null end.

(** No row of the table has the id [n]. *)
Definition absent (n : Z) (t : Sql.table) : Prop :=
  forall r, In r (Sql.rows t) -> Sql.col "id" r <> Some (Sql.Integer n).

(** An integer that a double holds exactly, whatever it is. *)
Definition safe_integer (n : Z) : Prop := Z.abs n <= 2 ^ 53.

(** The record has the columns of the table, each once and in the order
    of the table. *)
Definition shaped (sch : Sql.schema) (r : Sql.row) : Prop :=
  map fst r = Sql.column_names sch.

(** The order that [ORDER BY c] asks of two neighbours. *)
Definition in_order (c : string) (desc : bool) (r1 r2 : Sql.row) : Prop :=
  Sql.before c desc r1 r2 = true.

(** The text has ASCII characters only. *)
Fixpoint ascii_text (s : string) : Prop :=
  match s with
  | EmptyString => True
  | String c tl => (byte c < 128)%N /\ ascii_text tl
  end.

(** The text has neither a colon nor a period. *)
Fixpoint file_safe (s : string) : Prop :=
  match s with
  | EmptyString => True
  | String c tl => c <> ":"%char /\ c <> "."%char /\ file_safe tl
  end.

(** More sample states. *)
Module More.

(** A record as the earlier server stores it. *)
Definition legacy_demanda (n : Z) (diasSemana : Sql.value) : Sql.row :=
  [("id", Sql.Integer n);
   ("funcionarioId", Sql.Integer 7);
   ("nomeFuncionario", Sql.Text "Ana");
   ("emailFuncionario", Sql.Text "ana@example.org");
   ("categoria", Sql.Text "Manutenção");
   ("prioridade", Sql.Text "Importante");
   ("complexidade", Sql.Text "Fácil");
   ("descricao", Sql.Text "Pipe is leaking badly");
   ("local", Sql.Text "Bloco A");
   ("dataCriacao", Sql.Text "2026-10-01T08:00:00.000Z");
   ("dataLimite", Sql.Text "2999-01-01");
   ("status", Sql.Text "pendente");
   ("isRotina", Sql.Integer 1);
   ("diasSemana", diasSemana);
   ("tag", Sql.Text "DEM-1");
   ("comentarios", Sql.Text "");
   ("comentarioGestor", Sql.Text "");
   ("dataConclusao", Sql.Null);
   ("atribuidos", Sql.Null)].

Definition legacy_store : State :=
  with_demandas
    {| Sql.rows := [legacy_demanda 1 (Sql.Text "[oops");
                    legacy_demanda 2 Sql.Null];
       Sql.seq := 2 |}
    Sample.empty.

(** An update body with every required field and a status that is not
    critical. *)
Definition plain_update : JS.value :=
  JS.Obj (JS.spread (JS.own_props Sample.fix_leak)
            (JS.Obj [("funcionarioId", num 9);
                     ("status", JS.Str "em_andamento")])).

(** Two records, the first with a stored list of week days. *)
Definition weekly_record : Sql.row :=
  Sql.set_col "diasSemana" (Sql.Text "[1,3]") (Sample.demanda 1).

Definition weekly : State :=
  with_demandas
    {| Sql.rows := [weekly_record; Sample.demanda 2]; Sql.seq := 2 |}
    Sample.empty.

(** Three manual and two automatic index entries. *)
Definition mixed_index : State :=
  with_backups
    {| Sql.rows := [Sample.backup_entry "manual" 1;
                    Sample.backup_entry "auto" 2;
                    Sample.backup_entry "manual" 3;
                    Sample.backup_entry "auto" 4;
                    Sample.backup_entry "manual" 5];
       Sql.seq := 5 |}
    (Sample.with_records 2).

(** The text of a snapshot file with two records. *)
Definition two_records : string :=
  JS.stringify
    (JS.Obj [("versao", JS.Str "1.0.0");
             ("demandas",
              JS.Arr [Sql.row_to_js (Sample.demanda 1);
                      Sql.row_to_js (Sample.demanda 2)])]).

End More.

(** * Properties *)

(** ** The engine *)

Section EngineFacts.

Lemma col_set_col_other (c k : string) (v : Sql.value) (r : Sql.row) :
  c <> k -> Sql.col c (Sql.set_col k v r) = Sql.col c r.
Proof.
  intros Hne. induction r as [|[k' w] tl IH]; simpl; [reflexivity|].
  destruct (String.eqb_spec k k') as [->|Hk]; simpl.
  - destruct (String.eqb_spec c k'); [contradiction|reflexivity].
  - destruct (c =? k')%string; [reflexivity|exact IH].
Qed.

Lemma col_set_cols_other (c : string) (given : list (string * Sql.value))
  (r : Sql.row) :
  ~ In c (map fst given) -> Sql.col c (Sql.set_cols given r) = Sql.col c r.
Proof.
  unfold Sql.set_cols. revert r.
  induction given as [|[k v] tl IH]; intros r Hnot; simpl; [reflexivity|].
  rewrite IH.
  - apply col_set_col_other. intros ->. apply Hnot. simpl. now left.
  - intros Hin. apply Hnot. simpl. now right.
Qed.

Lemma assoc_values_keys (cols : list string) (vals : list Sql.value)
  (k : string) :
  In k (map fst (Sql.assoc_values cols vals)) -> In k cols.
Proof.
  revert vals. induction cols as [|c tl IH]; intros [|v vtl]; simpl; try tauto.
  intros [->|Hin]; [now left|right; eauto].
Qed.

Lemma stored_keys (sch : Sql.schema) (cols : list string)
  (vals : list Sql.value) (k : string) :
  In k (map fst (map (Sql.stored sch) (Sql.assoc_values cols vals))) ->
  In k cols.
Proof.
  rewrite map_map. cbn [Sql.stored fst]. apply assoc_values_keys.
Qed.

Lemma id_matches_set_cols (key : Sql.value)
  (given : list (string * Sql.value)) (r : Sql.row) :
  ~ In "id" (map fst given) ->
  Sql.id_matches key (Sql.set_cols given r) = Sql.id_matches key r.
Proof.
  intros Hnot. unfold Sql.id_matches, Sql.col_or_null.
  now rewrite col_set_cols_other.
Qed.

(** An UPDATE that succeeds rewrites the selected rows in place. *)
Lemma update_rows_map (tname : string) (sch : Sql.schema)
  (given : list (string * Sql.value)) (key : Sql.value)
  (todo done rs : list Sql.row) :
  Sql.update_rows tname sch given key done todo = inr rs ->
  rs = (done
        ++ map (fun r => if Sql.id_matches key r
                         then Sql.set_cols given r else r) todo)%list.
Proof.
  revert done. induction todo as [|r tl IH]; intros done; simpl.
  - intros H. injection H as <-. now rewrite app_nil_r.
  - destruct (Sql.id_matches key r).
    + destruct (Sql.check_not_null _ _ _); [discriminate|].
      destruct (Sql.check_unique _ _ _ _); [discriminate|].
      intros H. apply IH in H. now rewrite <- app_assoc in H.
    + intros H. apply IH in H. now rewrite <- app_assoc in H.
Qed.

Lemma find_rewritten (key : Sql.value) (given : list (string * Sql.value))
  (l : list Sql.row) (old : Sql.row) :
  ~ In "id" (map fst given) ->
  find (Sql.id_matches key) l = Some old ->
  find (Sql.id_matches key)
    (map (fun r => if Sql.id_matches key r then Sql.set_cols given r else r) l)
  = Some (Sql.set_cols given old).
Proof.
  intros Hnot. induction l as [|r tl IH]; simpl; [discriminate|].
  destruct (Sql.id_matches key r) eqn:Hm.
  - intros H. injection H as <-. now rewrite id_matches_set_cols, Hm.
  - rewrite Hm. exact IH.
Qed.

(** When the parameter array ends with a text and fills the placeholders
    exactly, the last bound value is that text. *)
Lemma bind_last_text (s : string) (front : list JS.value) :
  forall (i n : nat) (vals : list Sql.value),
    Sql.bind_from i n (front ++ [JS.Str s]) = inr vals ->
    (i + List.length front + 1 = n)%nat ->
    last vals Sql.Null = Sql.Text s.
Proof.
  induction front as [|p tl IH]; intros i n vals Hb Hn; simpl in Hb.
  - assert (Hlt : (i <? n)%nat = true) by (apply Nat.ltb_lt; simpl in Hn; lia).
    rewrite Hlt in Hb.
    replace (n - S i)%nat with 0%nat in Hb by (simpl in Hn; lia).
    simpl in Hb. injection Hb as <-. reflexivity.
  - assert (Hn' : (S i + List.length tl + 1 = n)%nat) by (simpl in Hn; lia).
    destruct (Sql.of_js p) as [v|].
    + destruct (i <? n)%nat; [|discriminate].
      destruct (Sql.bind_from (S i) n (tl ++ [JS.Str s])) as [e|vs] eqn:Hrec;
        [discriminate|].
      injection Hb as <-. specialize (IH _ _ _ Hrec Hn').
      destruct vs; [discriminate IH|exact IH].
    + destruct (Sql.bind_from (S i) n (tl ++ [JS.Str s])) as [e|vs] eqn:Hrec;
        [discriminate|].
      injection Hb as <-. specialize (IH _ _ _ Hrec Hn').
      destruct (i <? n)%nat; [|exact IH].
      destruct vs; [discriminate IH|exact IH].
Qed.

Lemma get_by_id_text (s : string) (t : Sql.table) :
  Sql.get_by_id [JS.Str s] t
  = inr (find (Sql.id_matches (Sql.Text s)) (Sql.rows t)).
Proof. reflexivity. Qed.

(** An UPDATE keyed by a text leaves the selected row selected and every
    column outside its SET clause as it was. *)
Lemma update_frame (tname : string) (sch : Sql.schema) (cols : list string)
  (front : list JS.value) (s : string) (t t' : Sql.table) (old : Sql.row) :
  Sql.update tname sch cols (front ++ [JS.Str s]) t = inr t' ->
  List.length front = List.length cols ->
  ~ In "id" cols ->
  find (Sql.id_matches (Sql.Text s)) (Sql.rows t) = Some old ->
  exists new,
    find (Sql.id_matches (Sql.Text s)) (Sql.rows t') = Some new
    /\ forall c, ~ In c cols -> Sql.col c new = Sql.col c old.
Proof.
  intros Hupd Hlen Hid Hfind. unfold Sql.update in Hupd.
  destruct (Sql.check_columns sch cols); [discriminate|].
  destruct (Sql.bind _ _) as [e|vals] eqn:Hbind; [discriminate|].
  destruct (Sql.update_rows _ _ _ _ _ _) as [e|rs] eqn:Hrows; [discriminate|].
  injection Hupd as <-.
  apply update_rows_map in Hrows. rewrite app_nil_l in Hrows. subst rs.
  assert (Hkey : last vals Sql.Null = Sql.Text s).
  { apply (bind_last_text _ _ _ _ _ Hbind). rewrite Hlen. lia. }
  rewrite Hkey. cbn [Sql.rows].
  exists (Sql.set_cols
            (map (Sql.stored sch) (Sql.assoc_values cols vals)) old).
  split.
  - apply find_rewritten; [|exact Hfind].
    intros Hin. apply Hid. eapply stored_keys, Hin.
  - intros c Hc. apply col_set_cols_other.
    intros Hin. apply Hc. eapply stored_keys, Hin.
Qed.

Lemma sort_length (le : Sql.row -> Sql.row -> bool) (l : list Sql.row) :
  List.length (Sql.sort le l) = List.length l.
Proof.
  unfold Sql.sort. induction l as [|a l IH]; [reflexivity|].
  simpl. rewrite <- IH. generalize (fold_right (Sql.insert_sorted le) [] l).
  intros m. induction m as [|b m IHm]; simpl; [reflexivity|].
  destruct (le a b); simpl; [reflexivity|now rewrite IHm].
Qed.

End EngineFacts.

(** ** Strings *)

Section StringFacts.









Lemma mem_In (s : string) (l : list string) : mem s l = true -> In s l.
Proof.
  unfold mem. intros H. apply existsb_exists in H.
  destruct H as (x & Hin & Heq). apply String.eqb_eq in Heq. now subst.
Qed.

End StringFacts.

(** ** Integers as text *)

Section Literals.

Lemma digit_run_uint (d : Decimal.uint) :
  digit_run (NilEmpty.string_of_uint d) = (NilEmpty.string_of_uint d, "").
Proof.
  induction d; simpl; try reflexivity; now rewrite IHd.
Qed.

Lemma digits_value_uint_acc (d : Decimal.uint) (acc : positive) :
  digits_value (Zpos acc) (NilEmpty.string_of_uint d)
  = Some (Zpos (Pos.of_uint_acc d acc)).
Proof.
  revert acc.
  induction d; intros acc;
    cbn [NilEmpty.string_of_uint Pos.of_uint_acc digits_value];
    try reflexivity;
    (change (is_digit _) with true; cbv iota; rewrite <- IHd; f_equal;
     cbv [digit_val byte]; simpl N_of_ascii; lia).
Qed.

Lemma digits_value_uint (d : Decimal.uint) :
  digits_value 0 (NilEmpty.string_of_uint d) = Some (Z.of_N (Pos.of_uint d)).
Proof.
  induction d; cbn [NilEmpty.string_of_uint Pos.of_uint digits_value];
    try reflexivity;
    change (is_digit _) with true; cbv iota;
    try exact IHd;
    (change (10 * 0 + digit_val _) with (Zpos 1)
     || change (10 * 0 + digit_val _) with (Zpos 2)
     || change (10 * 0 + digit_val _) with (Zpos 3)
     || change (10 * 0 + digit_val _) with (Zpos 4)
     || change (10 * 0 + digit_val _) with (Zpos 5)
     || change (10 * 0 + digit_val _) with (Zpos 6)
     || change (10 * 0 + digit_val _) with (Zpos 7)
     || change (10 * 0 + digit_val _) with (Zpos 8)
     || change (10 * 0 + digit_val _) with (Zpos 9));
    rewrite digits_value_uint_acc; reflexivity.
Qed.

Lemma uint_nonempty (p : positive) : Pos.to_uint p <> Decimal.Nil.
Proof.
  intros H. apply (f_equal Pos.of_uint) in H.
  rewrite DecimalPos.Unsigned.of_to in H. discriminate H.
Qed.

(** Reading the digits of a natural number, with or without a minus sign
    before them. *)
Lemma numeric_digits (d : Decimal.uint) (neg : bool) :
  d <> Decimal.Nil ->
  numeric_literal
    ((if neg then "-" else "") ++ NilEmpty.string_of_uint d)
  = Some (if neg then - Z.of_N (Pos.of_uint d) else Z.of_N (Pos.of_uint d)).
Proof.
  intros Hd. unfold numeric_literal.
  assert (Hfirst :
    take_sign (skip_spaces
                 ((if neg then "-" else "") ++ NilEmpty.string_of_uint d))
    = (neg, NilEmpty.string_of_uint d)).
  { destruct neg; [reflexivity|]. destruct d; reflexivity. }
  rewrite Hfirst, digit_run_uint. cbn [exponent].
  assert (Hne : (NilEmpty.string_of_uint d =? "")%string = false).
  { destruct d; try reflexivity. contradiction. }
  rewrite Hne. cbn [andb].
  assert (Happ : NilEmpty.string_of_uint d ++ "" = NilEmpty.string_of_uint d).
  { generalize (NilEmpty.string_of_uint d). intros s.
    induction s; simpl; [reflexivity|now rewrite IHs]. }
  rewrite Happ, digits_value_uint. cbn [skip_spaces String.eqb String.length].
  change (0 - 0) with 0. change (0 <=? 0) with true. cbv iota.
  change (10 ^ 0) with 1. now rewrite Z.mul_1_r.
Qed.

(** Reading the decimal text of an integer gives the integer. *)
Lemma numeric_literal_string_of_Z (n : Z) :
  numeric_literal (string_of_Z n) = Some n.
Proof.
  unfold string_of_Z.
  destruct n as [|p|p]; [reflexivity| |];
    cbn [Z.to_int NilZero.string_of_int];
    pose proof (uint_nonempty p) as Hp;
    assert (Hs : NilZero.string_of_uint (Pos.to_uint p)
                 = NilEmpty.string_of_uint (Pos.to_uint p))
      by (destruct (Pos.to_uint p); try reflexivity; contradiction);
    rewrite Hs.
  - etransitivity; [exact (numeric_digits _ false Hp)|].
    now rewrite DecimalPos.Unsigned.of_to.
  - etransitivity; [exact (numeric_digits _ true Hp)|].
    now rewrite DecimalPos.Unsigned.of_to.
Qed.

(** [WHERE id = ?] with the decimal text of [n], or with [n] itself,
    selects the rows whose id is [n]. *)
Lemma id_matches_integer_text (n : Z) (r : Sql.row) :
  Sql.id_matches (Sql.Text (string_of_Z n)) r = true
  <-> Sql.col "id" r = Some (Sql.Integer n).
Proof.
  unfold Sql.id_matches, Sql.where_cmp, Sql.col_or_null.
  cbn [Sql.apply_affinity]. rewrite numeric_literal_string_of_Z.
  destruct (Sql.col "id" r) as [[|m|t]|]; cbn [Sql.compare Sql.is_eq];
    try (split; discriminate).
  destruct (Z.compare_spec m n) as [->|Hlt|Hgt]; split; try discriminate;
    try reflexivity; intros Heq; injection Heq as ->; lia.
Qed.

Lemma id_matches_integer (n : Z) (r : Sql.row) :
  Sql.id_matches (Sql.Integer n) r = true
  <-> Sql.col "id" r = Some (Sql.Integer n).
Proof.
  unfold Sql.id_matches, Sql.where_cmp, Sql.col_or_null.
  cbn [Sql.apply_affinity].
  destruct (Sql.col "id" r) as [[|m|t]|]; cbn [Sql.compare Sql.is_eq];
    try (split; discriminate).
  destruct (Z.compare_spec m n) as [->|Hlt|Hgt]; split; try discriminate;
    try reflexivity; intros Heq; injection Heq as ->; lia.
Qed.

Lemma absent_find_text (n : Z) (t : Sql.table) :
  absent n t ->
  find (Sql.id_matches (Sql.Text (string_of_Z n))) (Sql.rows t) = None.
Proof.
  unfold absent. induction (Sql.rows t) as [|x tl IH]; intros H; simpl;
    [reflexivity|].
  destruct (Sql.id_matches _ x) eqn:Hm.
  - apply id_matches_integer_text in Hm. now destruct (H x (or_introl eq_refl)).
  - apply IH. intros y Hy. apply H. now right.
Qed.

Lemma absent_unmatched (n : Z) (t : Sql.table) :
  absent n t ->
  forall r, In r (Sql.rows t) ->
            Sql.id_matches (Sql.Text (string_of_Z n)) r = false.
Proof.
  intros H r Hin. destruct (Sql.id_matches _ r) eqn:Hm; [|reflexivity].
  apply id_matches_integer_text in Hm. now destruct (H r Hin).
Qed.

Lemma absent_find (n : Z) (t : Sql.table) :
  absent n t -> find (Sql.id_matches (Sql.Integer n)) (Sql.rows t) = None.
Proof.
  unfold absent. induction (Sql.rows t) as [|x tl IH]; intros H; simpl;
    [reflexivity|].
  destruct (Sql.id_matches _ x) eqn:Hm.
  - apply id_matches_integer in Hm. now destruct (H x (or_introl eq_refl)).
  - apply IH. intros y Hy. apply H. now right.
Qed.

End Literals.

(** ** The validation middleware *)

Section Validation.

Variable Date_ms : JS.value -> option Z.













(** The middleware answers with 400 or not at all. *)
Lemma validarDemanda_answer (env : Env) (req : Request) (r : Response) :
  validarDemanda Date_ms env req = JS.Ret (Answer r) -> status r = 400.
Proof.
  unfold validarDemanda.
  destruct (erros_de Date_ms env (body req)) as [erros|msg]; simpl;
    [|discriminate].
  destruct (0 <? List.length erros)%nat; [|discriminate].
  intros H. injection H as <-. reflexivity.
Qed.

End Validation.

(** ** Side effects *)

Section SideEffects.

Lemma registrarAuditoria_demandas env acao tabela rid antigos novos uid ip st :
  demandas (registrarAuditoria env acao tabela rid antigos novos uid ip st)
  = demandas st.
Proof.
  unfold registrarAuditoria.
  destruct (Sql.insert _ _ _ _ _ _ _) as [e|[t z]]; reflexivity.
Qed.

Lemma criarBackup_demandas env tipo st :
  demandas (fst (criarBackup env tipo st)) = demandas st.
Proof.
  unfold criarBackup.
  destruct (negb (writable env _)); simpl; [reflexivity|].
  destruct (is_auto_kind _); reflexivity.
Qed.

(** The side effects of a successful update leave the records alone. *)
Lemma update_effects_demandas env (critical : bool) rid antigos novos uid ip
  st :
  demandas
    (if critical
     then fst (criarBackup env (JS.Str "status_change")
                 (registrarAuditoria env "UPDATE" "demandas" rid antigos novos
                    uid ip st))
     else registrarAuditoria env "UPDATE" "demandas" rid antigos novos uid ip
            st)
  = demandas st.
Proof.
  destruct critical; [rewrite criarBackup_demandas|];
    apply registrarAuditoria_demandas.
Qed.

(** No snapshot is ever registered: the third parameter of the INSERT is
    the [length] of an object that has none, and [tamanho] is NOT NULL. *)
Lemma register_backup_refused (env : Env) (filename timestamp : string)
  (tipo : JS.value) (rows : list Sql.row) (t : Sql.table) :
  register_backup env filename (backupData_of timestamp tipo rows) tipo t = t.
Proof.
  unfold register_backup, Sql.insert.
  change (Sql.check_columns backups_schema backups_insert_columns)
    with (@None Sql.error).
  cbn [List.length backups_insert_columns Nat.eqb negb].
  unfold backup_params, Sql.bind.
  change (JS.get (backupData_of timestamp tipo rows) "length")
    with JS.Undefined.
  cbn [Sql.bind_from Sql.of_js Nat.ltb Nat.leb].
  destruct (Sql.of_js tipo) as [v|]; reflexivity.
Qed.

(** The automatic entries that pruning keeps are those that its query
    returned: the ones after the ten newest. *)
Lemma prune_auto_keeps (t : Sql.table) (r : Sql.row) :
  select_beyond_ten t <> [] ->
  (In r (Sql.rows (prune_auto t))
   <-> In r (Sql.rows t)
       /\ (is_auto r = true ->
           In (Sql.id_of r) (map Sql.id_of (select_beyond_ten t)))).
Proof.
  intros Hne. unfold prune_auto.
  destruct (select_beyond_ten t) as [|x tl] eqn:Hsel; [contradiction|].
  cbn [List.length Nat.ltb Nat.leb Sql.rows]. rewrite filter_In.
  split; intros [Hin H]; (split; [exact Hin|]).
  - intros Ha. rewrite Ha in H. cbn [andb] in H.
    apply negb_true_iff, negb_false_iff, existsb_exists in H.
    destruct H as (z & Hz & Heq). apply Z.eqb_eq in Heq. now rewrite Heq.
  - destruct (is_auto r); [|reflexivity]. cbn [andb].
    apply negb_true_iff, negb_false_iff, existsb_exists.
    exists (Sql.id_of r). split; [now apply H|apply Z.eqb_refl].
Qed.

(** Up to ten automatic entries are all kept. *)
Lemma prune_auto_up_to_ten (t : Sql.table) :
  (List.length (filter is_auto (Sql.rows t)) <= 10)%nat -> prune_auto t = t.
Proof.
  intros Hlen. unfold prune_auto, select_beyond_ten, Sql.limit_offset.
  assert (Hskip :
    skipn (Z.to_nat 10)
      (Sql.order_by "dataCriacao" true (filter is_auto (Sql.rows t))) = []).
  { apply skipn_all2. unfold Sql.order_by. rewrite sort_length.
    change (Z.to_nat 10) with 10%nat. exact Hlen. }
  rewrite Hskip. reflexivity.
Qed.

End SideEffects.

(** ** Snapshots: registration and pruning *)

(** C1.  Pruning after an automatic snapshot is meant to leave the ten
    newest automatic entries of the index.  On an index of eleven automatic
    entries, created on eleven successive days, the pruning step of
    [criarBackup] leaves one entry, the oldest: the query returns the
    entries after the ten newest, and the DELETE keeps exactly those. *)
Theorem prune_keeps_the_oldest_entry :
  map Sql.id_of (Sql.rows (prune_auto Sample.eleven_auto)) = [1]
  /\ map Sql.id_of
       (filter is_auto
          (Sql.rows (backups (fst (criarBackup Sample.env (JS.Str "auto")
                                     Sample.with_eleven_auto)))))
     = [1]
  /\ Sql.col "dataCriacao" (Sample.backup_entry "auto" 1)
     = Some (Sql.Text "2026-10-01 06:00:00").
Proof. repeat split; vm_compute; reflexivity. Qed.

(** C9.  The index row of a snapshot is meant to hold the file name, the
    backup timestamp, the byte size of the payload and the kind.  For a
    manual snapshot of an empty store the parameters of the INSERT are the
    file name, the whole serialized object, [undefined] and the kind; the
    payload written has 121 bytes; the INSERT is refused because [tamanho]
    is NOT NULL, and the index stays empty. *)
Theorem snapshot_is_not_registered :
  let timestamp := JS.replace_colon_dot (now_iso Sample.env) in
  let filename := "backup_manual_" ++ timestamp ++ ".json" in
  let backupData := backupData_of timestamp (JS.Str "manual") [] in
  let after := fst (criarBackup Sample.env (JS.Str "manual") Sample.empty) in
  files after = [(filename, JS.stringify_pretty backupData)]
  /\ backup_params filename backupData (JS.Str "manual")
     = [JS.Str filename; JS.Str (JS.stringify backupData); JS.Undefined;
        JS.Str "manual"]
  /\ JS.stringify backupData <> timestamp
  /\ String.length (JS.stringify_pretty backupData) = 121%nat
  /\ Sql.insert "backups" backups_schema backups_insert_columns 4
       (backup_params filename backupData (JS.Str "manual"))
       (sql_now Sample.env) (backups Sample.empty)
     = inl (Sql.Err
              "SQLITE_CONSTRAINT: NOT NULL constraint failed: backups.tamanho")
  /\ Sql.rows (backups after) = [].
Proof.
  repeat split; try (vm_compute; reflexivity).
  vm_compute. intros H. discriminate H.
Qed.

(** ** Update *)

Section Update.

Variable Date_ms : JS.value -> option Z.

Lemma update_params_split (dadosCompletos id : JS.value) :
  exists front,
    update_params dadosCompletos id = (front ++ [id])%list
    /\ List.length front = 19%nat.
Proof.
  exists (removelast (update_params dadosCompletos id)).
  split; reflexivity.
Qed.

(** A 200 from the update route means that the UPDATE statement ran on the
    record found, and its result is the table afterwards. *)
Lemma put_success (env : Env) (req : Request) (st st' : State)
  (r : Response) :
  put_demandas Date_ms env req st = (st', Sent r) ->
  status r = 200 ->
  exists old,
    Sql.get_by_id [JS.Str (param_id req)] (demandas st) = inr (Some old)
    /\ Sql.update "demandas" demandas_schema update_set_columns
         (update_params (dadosCompletos_of env (Sql.row_to_js old) (body req))
            (JS.Str (param_id req)))
         (demandas st)
       = inr (demandas st').
Proof.
  intros Hput Hok. unfold put_demandas in Hput.
  destruct (validarDemanda Date_ms env req) as [[|a]|msg] eqn:Hval.
  - destruct (Sql.get_by_id _ _) as [e|[old|]] eqn:Hold.
    + injection Hput as _ <-. discriminate Hok.
    + exists old. split; [reflexivity|].
      destruct (Sql.update _ _ _ _ _) as [e|t] eqn:Hupd.
      * injection Hput as _ <-. discriminate Hok.
      * injection Hput as <- _. now rewrite update_effects_demandas.
    + injection Hput as _ <-. discriminate Hok.
  - injection Hput as _ <-. apply validarDemanda_answer in Hval.
    rewrite Hval in Hok. discriminate.
  - unfold error_handler in Hput. injection Hput as _ <-. discriminate Hok.
Qed.

(** C2.  After a successful update (answer 200) of an existing record, the
    record stored under that id has the [id], [dataCriacao] and [criadoPor]
    it had before, whatever the body of the request says. *)
Theorem update_preserves_identity :
  forall (env : Env) (req : Request) (st st' : State) (r : Response)
         (old : Sql.row),
    Sql.get_by_id [JS.Str (param_id req)] (demandas st) = inr (Some old) ->
    put_demandas Date_ms env req st = (st', Sent r) ->
    status r = 200 ->
    exists new,
      Sql.get_by_id [JS.Str (param_id req)] (demandas st') = inr (Some new)
      /\ Sql.col "id" new = Sql.col "id" old
      /\ Sql.col "dataCriacao" new = Sql.col "dataCriacao" old
      /\ Sql.col "criadoPor" new = Sql.col "criadoPor" old.
Proof.
  intros env req st st' r old Hold Hput Hok.
  destruct (put_success _ _ _ _ _ Hput Hok) as (old' & Hold' & Hupd).
  rewrite Hold in Hold'. injection Hold' as <-.
  rewrite get_by_id_text in Hold |- *. injection Hold as Hfind.
  destruct (update_params_split
              (dadosCompletos_of env (Sql.row_to_js old) (body req))
              (JS.Str (param_id req))) as (front & Hsplit & Hlen).
  rewrite Hsplit in Hupd.
  assert (Hset : forall c, In c ["id"; "dataCriacao"; "criadoPor"] ->
                           ~ In c update_set_columns).
  { intros c Hc Hin. simpl in Hc.
    destruct Hc as [<-|[<-|[<-|[]]]];
      repeat (destruct Hin as [Hin|Hin]; [discriminate Hin|]); exact Hin. }
  destruct (update_frame _ _ _ _ _ _ _ old Hupd Hlen) as (new & Hnew & Hcols).
  - apply Hset. simpl. tauto.
  - exact Hfind.
  - exists new. split; [now rewrite Hnew|].
    repeat split; apply Hcols, Hset; simpl; tauto.
Qed.


Lemma error_handler_tables env msg st :
  demandas (fst (error_handler env msg st)) = demandas st
  /\ auditoria (fst (error_handler env msg st)) = auditoria st.
Proof. split; reflexivity. Qed.


End Update.

Lemma update_preserves_identity_witness :
  exists st' r,
    put_demandas iso_date_ms Sample.env
      (Sample.request "1" (JS.Obj []) Sample.overwrite)
      (Sample.with_records 2) = (st', Sent r)
    /\ status r = 200
    /\ exists new,
         Sql.get_by_id [JS.Str "1"] (demandas st') = inr (Some new)
         /\ Sql.col "id" new = Sql.col "id" (Sample.demanda 1)
         /\ Sql.col "dataCriacao" new
            = Sql.col "dataCriacao" (Sample.demanda 1)
         /\ Sql.col "criadoPor" new = Sql.col "criadoPor" (Sample.demanda 1).
Proof.
  eexists. eexists.
  split; [vm_compute; reflexivity|].
  split; [reflexivity|].
  eapply (update_preserves_identity iso_date_ms Sample.env
            (Sample.request "1" (JS.Obj []) Sample.overwrite)
            (Sample.with_records 2) _ _ (Sample.demanda 1)).
  - vm_compute. reflexivity.
  - vm_compute. reflexivity.
  - reflexivity.
Defined.





(** ** Delete *)



(** ** Create *)

Section Create.

Variable Date_ms : JS.value -> option Z.

Lemma fix_leak_validated (env : Env) (req : Request) (t : Z) :
  body req = Sample.fix_leak ->
  due_in_time Date_ms env t ->
  validarDemanda Date_ms env req = JS.Ret Next.
Proof.
  intros Hb [Hdate Hhoje]. unfold validarDemanda, erros_de. rewrite Hb.
  cbn [JS.destructure JS.bind Sample.fix_leak].
  replace (date_before Date_ms (JS.get Sample.fix_leak "dataLimite")
             (hoje_ms env)) with false.
  - vm_compute. reflexivity.
  - unfold date_before.
    change (JS.get Sample.fix_leak "dataLimite") with (JS.Str "2999-01-01").
    rewrite Hdate. symmetry. apply Z.ltb_ge. exact Hhoje.
Qed.

(** Whatever the number of placeholders, the INSERT of that body fails. *)
Lemma fix_leak_refused (env : Env) (t : Sql.table) (n : nat) :
  exists e,
    Sql.insert "demandas" demandas_schema create_insert_columns n
      (create_params env (with_tag env Sample.fix_leak)) (sql_now env) t
    = inl e.
Proof.
  unfold Sql.insert.
  change (Sql.check_columns demandas_schema create_insert_columns) with
    (@None Sql.error).
  destruct (Nat.eqb_spec (List.length create_insert_columns) n) as [<-|Hne].
  - cbn [negb].
    change (List.length create_insert_columns) with 18%nat.
    eexists. vm_compute. reflexivity.
  - cbn [negb]. eexists. reflexivity.
Qed.

(** C8, as amended.  The create request of the example, received while its
    due date is not past, passes the validation; the parameters of its
    INSERT carry a generated tag [DEM-<Date.now()>-<suffix>] and the status
    [pendente]; the store refuses the row, which has no [funcionarioId]
    where the table says NOT NULL, also when the INSERT is given as many
    placeholders as columns; the answer is a 500 and the state is
    untouched. *)
Theorem fix_leak_is_validated_but_not_stored :
  forall (env : Env) (req : Request) (st : State) (t : Z),
    body req = Sample.fix_leak ->
    due_in_time Date_ms env t ->
    let params := create_params env (with_tag env (body req)) in
    validarDemanda Date_ms env req = JS.Ret Next
    /\ nth 13 params JS.Undefined
       = JS.Str ("DEM-" ++ string_of_Z (now_ms env) ++ "-" ++ random36 env)
    /\ nth 10 params JS.Undefined = JS.Str "pendente"
    /\ Sql.insert "demandas" demandas_schema create_insert_columns
         (List.length create_insert_columns) params (sql_now env)
         (demandas st)
       = inl (Sql.Err
                "SQLITE_CONSTRAINT: NOT NULL constraint failed: demandas.funcionarioId")
    /\ exists e,
         post_demandas Date_ms env req st = (st, Sent (error_500 e))
         /\ status (error_500 e) = 500.
Proof.
  intros env req st t Hb Hdue params.
  split; [now apply (fix_leak_validated env req t)|].
  subst params. rewrite Hb.
  split; [reflexivity|]. split; [reflexivity|]. split.
  - vm_compute. reflexivity.
  - unfold post_demandas. rewrite (fix_leak_validated env req t Hb Hdue).
    rewrite Hb.
    destruct (fix_leak_refused env (demandas st) create_placeholders)
      as (e & ->).
    exists e. split; reflexivity.
Qed.

End Create.

Lemma fix_leak_is_validated_but_not_stored_witness :
  let req := Sample.request "" (JS.Obj []) Sample.fix_leak in
  let params := create_params Sample.env (with_tag Sample.env (body req)) in
  validarDemanda iso_date_ms Sample.env req = JS.Ret Next
  /\ nth 13 params JS.Undefined
     = JS.Str ("DEM-" ++ string_of_Z (now_ms Sample.env) ++ "-"
               ++ random36 Sample.env)
  /\ nth 10 params JS.Undefined = JS.Str "pendente"
  /\ Sql.insert "demandas" demandas_schema create_insert_columns
       (List.length create_insert_columns) params (sql_now Sample.env)
       (demandas Sample.empty)
     = inl (Sql.Err
              "SQLITE_CONSTRAINT: NOT NULL constraint failed: demandas.funcionarioId")
  /\ exists e,
       post_demandas iso_date_ms Sample.env req Sample.empty
       = (Sample.empty, Sent (error_500 e))
       /\ status (error_500 e) = 500.
Proof.
  apply (fix_leak_is_validated_but_not_stored iso_date_ms Sample.env
           (Sample.request "" (JS.Obj []) Sample.fix_leak) Sample.empty
           32472144000000).
  - reflexivity.
  - split; [reflexivity|]. vm_compute. discriminate.
Defined.

(** The create request of the example on an empty store: the answer is a
    500 with [success: false], not a 200. *)
Lemma fix_leak_is_answered_500 :
  post_demandas iso_date_ms Sample.env
    (Sample.request "" (JS.Obj []) Sample.fix_leak) Sample.empty
  = (Sample.empty,
     Sent (status_json 500
             (JS.Obj [("success", JS.Bool false);
                      ("error",
                       JS.Str "SQLITE_ERROR: 17 values for 18 columns")]))).
Proof. vm_compute. reflexivity. Qed.

(** ** List *)

(** C3.  A list request is meant to report the total of the matching
    records and the page count.  For page 2 with limit 10 over 25 records
    the answer holds the eleventh to the twentieth record in the default
    order (newest first), but its [total] is [undefined] and its [pages] is
    NaN, not 25 and 3: the count query gives the count no alias, so its row
    has no property [count]. *)
Theorem list_page_two_has_no_total :
  exists data pagination,
    get_demandas Sample.env Sample.page_two (Sample.with_records 25)
    = (Sample.with_records 25,
       Sent (json (JS.Obj [("success", JS.Bool true);
                           ("data", JS.Arr data);
                           ("pagination", pagination)])))
    /\ map (fun d => JS.get d "id") data
       = map num [15; 14; 13; 12; 11; 10; 9; 8; 7; 6]
    /\ pagination
       = JS.Obj [("page", num 2); ("limit", num 10);
                 ("total", JS.Undefined); ("pages", JS.Num JS.NaN)].
Proof.
  eexists. eexists.
  split; [vm_compute; reflexivity|]. split; reflexivity.
Qed.

(** Whatever the request and the records, a list that is answered carries
    no total and no page count. *)
Lemma list_never_counts (env : Env) (req : Request) (st st' : State)
  (r : Response) :
  get_demandas env req st = (st', Sent r) ->
  status r = 200 ->
  JS.get (JS.get (payload r) "pagination") "total" = JS.Undefined
  /\ JS.get (JS.get (payload r) "pagination") "pages" = JS.Num JS.NaN.
Proof.
  unfold get_demandas. intros H Hok.
  destruct (default_to (JS.get (query req) "orderDirection") (JS.Str "DESC"));
    try (unfold error_handler in H; injection H as _ <-; discriminate Hok).
  destruct (Sql.bind _ _) as [e|vals];
    [injection H as _ <-; discriminate Hok|].
  destruct (Sql.must_be_int (nth _ vals Sql.Null)) as [e|lim];
    [injection H as _ <-; discriminate Hok|].
  destruct (Sql.must_be_int (nth (S _) vals Sql.Null)) as [e|off];
    [injection H as _ <-; discriminate Hok|].
  injection H as _ <-. split; reflexivity.
Qed.

(** The health route reads its count under the alias that its query gives;
    the row of the list's count query has no such property. *)
Lemma health_row_has_count (n : nat) :
  JS.get (health_row_of n) "count" = num (Z.of_nat n)
  /\ JS.get (countRow_of n) "count" = JS.Undefined.
Proof. split; reflexivity. Qed.

(** ** Search *)

(** C4.  A search for a text of two characters or more is meant to return
    the matching records, ranked.  The search for [ab] over three records
    is answered with a 500: the statement names a column [nomeDemanda] that
    the table does not have. *)
Theorem search_of_two_letters_fails :
  get_search Sample.env (Sample.search_for "ab") (Sample.with_records 3)
  = (Sample.with_records 3,
     Sent (status_json 500
             (JS.Obj [("success", JS.Bool false);
                      ("error",
                       JS.Str "SQLITE_ERROR: no such column: nomeDemanda")]))).
Proof. vm_compute. reflexivity. Qed.

(** A query of fewer than two characters, or none, is answered with the
    empty list. *)
Lemma search_short_query (env : Env) (req : Request) (st : State) (s : string) :
  JS.get (query req) "q" = JS.Str s ->
  (JS.length s < 2)%nat ->
  get_search env req st
  = (st, Sent (json (JS.Obj [("success", JS.Bool true);
                             ("data", JS.Arr [])]))).
Proof.
  intros Hq Hlen. unfold get_search. rewrite Hq.
  replace (JS.less_than (JS.get (JS.Str s) "length") 2) with true;
    [now rewrite orb_true_r|].
  symmetry. unfold JS.less_than. cbn. apply Z.ltb_lt. lia.
Qed.

Lemma search_without_query (env : Env) (req : Request) (st : State) :
  JS.get (query req) "q" = JS.Undefined ->
  get_search env req st
  = (st, Sent (json (JS.Obj [("success", JS.Bool true);
                             ("data", JS.Arr [])]))).
Proof. intros Hq. unfold get_search. now rewrite Hq. Qed.

(** Every query of two characters or more fails in the same way. *)
Lemma search_long_query (env : Env) (req : Request) (st : State) (s : string) :
  JS.get (query req) "q" = JS.Str s ->
  (2 <= JS.length s)%nat ->
  get_search env req st
  = (st, Sent (error_500
                 (Sql.Err "SQLITE_ERROR: no such column: nomeDemanda"))).
Proof.
  intros Hq Hlen. unfold get_search. rewrite Hq.
  assert (Ht : JS.truthy (JS.Str s) = true).
  { destruct s; [simpl in Hlen; lia|reflexivity]. }
  rewrite Ht.
  replace (JS.less_than (JS.get (JS.Str s) "length") 2) with false;
    [reflexivity|].
  symmetry. unfold JS.less_than. cbn. apply Z.ltb_ge. lia.
Qed.

(** ** Restore *)

(** C5.  A restore from a snapshot without a usable record list is meant to
    fail with the 500 of a corrupt backup.  For a registered snapshot whose
    file parses to an object without [demandas], and for one whose
    [demandas] is a string, the route sends no answer at all; the state is
    the state before. *)
Theorem restore_without_list_is_not_answered :
  Json.parse Sample.without_list = Some (JS.Obj [("versao", JS.Str "1.0.0")])
  /\ post_restore Json.parse Sample.env Sample.restore_request
       (Sample.with_snapshot Sample.without_list)
     = (Sample.with_snapshot Sample.without_list, NoAnswer)
  /\ Json.parse Sample.with_text_list
     = Some (JS.Obj [("versao", JS.Str "1.0.0"); ("demandas", JS.Str "oops")])
  /\ post_restore Json.parse Sample.env Sample.restore_request
       (Sample.with_snapshot Sample.with_text_list)
     = (Sample.with_snapshot Sample.with_text_list, NoAnswer).
Proof. repeat split; vm_compute; reflexivity. Qed.

Section Restore.

Variable JSON_parse : string -> option JS.value.

(** A file that does not parse is answered with the 500 of a corrupt
    backup, and nothing changes. *)
Lemma restore_unparsable (env : Env) (req : Request) (st : State)
  (content : string) :
  snapshot_text req st content ->
  JSON_parse content = None ->
  post_restore JSON_parse env req st = (st, Sent corrupt_backup).
Proof.
  intros (backupId & backup & nome & Hid & Ht & Hget & Hnome & Hfile) Hparse.
  unfold post_restore.
  now rewrite Hid, Ht, Hget, Hnome, Hfile, Hparse.
Qed.

(** A file that parses to something without an array [demandas] is not
    answered at all; nothing changes either. *)
Lemma restore_without_list (env : Env) (req : Request) (st : State)
  (content : string) (backupData : JS.value) :
  snapshot_text req st content ->
  JSON_parse content = Some backupData ->
  backupData <> JS.Null ->
  backupData <> JS.Undefined ->
  JS.truthy (JS.get backupData "demandas")
  && JS.is_array (JS.get backupData "demandas") = false ->
  post_restore JSON_parse env req st = (st, NoAnswer).
Proof.
  intros (backupId & backup & nome & Hid & Ht & Hget & Hnome & Hfile)
    Hparse Hnull Hundef Hlist.
  unfold post_restore.
  rewrite Hid, Ht, Hget, Hnome, Hfile, Hparse.
  assert (Hprop : JS.get_prop backupData "demandas"
                  = JS.Ret (JS.get backupData "demandas")).
  { destruct backupData; try reflexivity; contradiction. }
  rewrite Hprop, Hlist. reflexivity.
Qed.

End Restore.

(** ** The order of validation and lookup *)

Section Order.

Variable Date_ms : JS.value -> option Z.

(** A body that the validation does not pass never reaches the lookup of
    the update route: the answer is the 400 of the middleware or the 500 of
    the error middleware, and the records and the audit trail stay as they
    are. *)
Lemma update_stopped_by_validation (env : Env) (req : Request) (st : State) :
  validarDemanda Date_ms env req <> JS.Ret Next ->
  exists st' r,
    put_demandas Date_ms env req st = (st', Sent r)
    /\ (status r = 400 \/ status r = 500)
    /\ demandas st' = demandas st
    /\ auditoria st' = auditoria st.
Proof.
  intros Hstop. unfold put_demandas.
  destruct (validarDemanda Date_ms env req) as [[|a]|msg] eqn:Hval.
  - now destruct Hstop.
  - exists st, a. split; [reflexivity|]. split; [|split; reflexivity].
    left. eapply validarDemanda_answer, Hval.
  - unfold error_handler. eexists. eexists.
    split; [reflexivity|]. split; [right; reflexivity|split; reflexivity].
Qed.

End Order.

(** * Further properties *)

(** ** What passes the validation *)

Section Acceptance.

Variable Date_ms : JS.value -> option Z.




Lemma In_mem (s : string) (l : list string) : In s l -> mem s l = true.
Proof.
  intros H. unfold mem. apply existsb_exists. exists s.
  split; [exact H|apply String.eqb_refl].
Qed.





End Acceptance.

(** ** Create *)

Section CreateNever.

Variable Date_ms : JS.value -> option Z.

(** The INSERT of the create route does not compile, whatever is bound. *)
Lemma create_insert_refused (params : list JS.value) (now : string)
  (t : Sql.table) :
  Sql.insert "demandas" demandas_schema create_insert_columns
    create_placeholders params now t
  = inl (Sql.Err "SQLITE_ERROR: 17 values for 18 columns").
Proof. reflexivity. Qed.

(** X2.  The create route stores nothing, whatever the request: its INSERT
    names 18 columns for 17 values and is refused when it is compiled.  Every
    request is answered 400 or 500, and records, audit trail, index and files
    are as before. *)
Theorem create_never_stores :
  forall (env : Env) (req : Request) (st : State),
    exists st' r,
      post_demandas Date_ms env req st = (st', Sent r)
      /\ (status r = 400 \/ status r = 500)
      /\ demandas st' = demandas st
      /\ auditoria st' = auditoria st
      /\ backups st' = backups st
      /\ files st' = files st.
Proof.
  intros env req st. unfold post_demandas.
  destruct (validarDemanda Date_ms env req) as [[|a]|msg] eqn:Hval.
  - rewrite create_insert_refused. eexists. eexists.
    split; [reflexivity|]. split; [now right|]. repeat split.
  - exists st, a. split; [reflexivity|]. split; [|repeat split].
    left. eapply validarDemanda_answer, Hval.
  - unfold error_handler. eexists. eexists.
    split; [reflexivity|]. split; [now right|]. repeat split.
Qed.

End CreateNever.

(** ** More on the engine *)

Section MoreEngine.

(** With no more parameters than placeholders every one is bound, and the
    placeholders left over read as NULL. *)
Lemma bind_from_exact (params : list JS.value) :
  forall (i n : nat),
    (i + List.length params <= n)%nat ->
    Sql.bind_from i n params
    = inr (map bound params
           ++ repeat Sql.Null (n - i - List.length params))%list.
Proof.
  induction params as [|p tl IH]; intros i n Hle; simpl.
  - now rewrite Nat.sub_0_r.
  - simpl in Hle.
    assert (Hlt : (i <? n)%nat = true) by (apply Nat.ltb_lt; lia).
    rewrite IH by lia. rewrite Hlt.
    replace (n - S i - List.length tl)%nat
      with (n - i - S (List.length tl))%nat by lia.
    unfold bound. destruct (Sql.of_js p); reflexivity.
Qed.

Lemma bind_exact (n : nat) (params : list JS.value) :
  List.length params = n -> Sql.bind n params = inr (map bound params).
Proof.
  intros <-. unfold Sql.bind. rewrite bind_from_exact by lia.
  replace (List.length params - 0 - List.length params)%nat with 0%nat by lia.
  simpl. now rewrite app_nil_r.
Qed.

Lemma lookup_replace_same (k : string) (v : JS.value)
  (ps : list (string * JS.value)) :
  JS.lookup k ps <> None -> JS.lookup k (JS.replace k v ps) = Some v.
Proof.
  induction ps as [|[k' v'] tl IH]; simpl; [tauto|].
  destruct (String.eqb_spec k k') as [->|Hne]; simpl.
  - now rewrite String.eqb_refl.
  - destruct (String.eqb_spec k k'); [contradiction|exact IH].
Qed.

Lemma lookup_replace_other (k k' : string) (v : JS.value)
  (ps : list (string * JS.value)) :
  k <> k' -> JS.lookup k (JS.replace k' v ps) = JS.lookup k ps.
Proof.
  intros Hne. induction ps as [|[k2 v2] tl IH]; simpl; [reflexivity|].
  destruct (String.eqb_spec k' k2) as [->|Hk]; simpl.
  - destruct (String.eqb_spec k k2); [contradiction|reflexivity].
  - destruct (k =? k2)%string; [reflexivity|exact IH].
Qed.

Lemma lookup_insert_index_same (i : Z) (k : string) (v : JS.value)
  (ps : list (string * JS.value)) :
  JS.lookup k ps = None -> JS.lookup k (JS.insert_index i k v ps) = Some v.
Proof.
  induction ps as [|[k' v'] tl IH]; simpl.
  - now rewrite String.eqb_refl.
  - destruct (String.eqb_spec k k') as [->|Hne]; [discriminate|].
    intros Hnone.
    destruct (JS.array_index k') as [j|];
      [destruct (j <? i)|]; simpl; rewrite ?String.eqb_refl;
      try reflexivity.
    destruct (String.eqb_spec k k'); [contradiction|now apply IH].
Qed.

Lemma lookup_insert_index_other (i : Z) (k k' : string) (v : JS.value)
  (ps : list (string * JS.value)) :
  k <> k' -> JS.lookup k (JS.insert_index i k' v ps) = JS.lookup k ps.
Proof.
  intros Hne. induction ps as [|[k2 v2] tl IH]; simpl.
  - destruct (String.eqb_spec k k'); [contradiction|reflexivity].
  - destruct (JS.array_index k2) as [j|];
      [destruct (j <? i)|]; simpl;
      try (destruct (String.eqb_spec k k'); [contradiction|reflexivity]).
    destruct (k =? k2)%string; [reflexivity|exact IH].
Qed.

Lemma lookup_app_last (k k' : string) (v : JS.value)
  (ps : list (string * JS.value)) :
  JS.lookup k (ps ++ [(k', v)])
  = match JS.lookup k ps with
    | Some x => Some x
    | None => if (k =? k')%string then Some v else None
    end.
Proof.
  induction ps as [|[k2 v2] tl IH]; simpl; [reflexivity|].
  destruct (k =? k2)%string; [reflexivity|exact IH].
Qed.

Lemma lookup_set_same (k : string) (v : JS.value)
  (ps : list (string * JS.value)) :
  JS.lookup k (JS.set k v ps) = Some v.
Proof.
  unfold JS.set. destruct (JS.lookup k ps) as [x|] eqn:Hk.
  - apply lookup_replace_same. now rewrite Hk.
  - destruct (JS.array_index k) as [i|].
    + now apply lookup_insert_index_same.
    + now rewrite lookup_app_last, Hk, String.eqb_refl.
Qed.

Lemma lookup_set_other (k k' : string) (v : JS.value)
  (ps : list (string * JS.value)) :
  k <> k' -> JS.lookup k (JS.set k' v ps) = JS.lookup k ps.
Proof.
  intros Hne. unfold JS.set. destruct (JS.lookup k' ps) as [x|].
  - now apply lookup_replace_other.
  - destruct (JS.array_index k') as [i|].
    + now apply lookup_insert_index_other.
    + rewrite lookup_app_last.
      destruct (JS.lookup k ps); [reflexivity|].
      destruct (String.eqb_spec k k'); [contradiction|reflexivity].
Qed.




End MoreEngine.

(** ** The audit trail *)

Section Audit.

#[local] Arguments numeric_literal : simpl never.
#[local] Arguments JS.stringify : simpl never.
#[local] Arguments Z.max : simpl never.
#[local] Arguments Z.add : simpl never.


End Audit.

(** ** Snapshots, in general *)

Section SnapshotFacts.

Lemma lookup_write_same (n c : string) (fs : list (string * string)) :
  lookup_file n (write_file n c fs) = Some c.
Proof. unfold write_file. simpl. now rewrite String.eqb_refl. Qed.


(** The name of the snapshot file and the kind that [criarBackup] works
    with. *)
Lemma criarBackup_unfold (env : Env) (tipo0 : JS.value) (st : State) :
  let tipo := match tipo0 with JS.Undefined => JS.Str "auto" | _ => tipo0 end in
  let timestamp := JS.replace_colon_dot (now_iso env) in
  let filename :=
    "backup_" ++ JS.to_string tipo ++ "_" ++ timestamp ++ ".json" in
  criarBackup env tipo0 st
  = if negb (writable env filename) then (st, inl "ENOENT")
    else
      (with_backups
         (if is_auto_kind tipo then prune_auto (backups st) else backups st)
         (with_files
            (write_file filename
               (JS.stringify_pretty
                  (backupData_of timestamp tipo (Sql.rows (demandas st))))
               (files st)) st),
       inr filename).
Proof.
  intros tipo timestamp filename. unfold criarBackup.
  fold tipo. fold timestamp. fold filename.
  destruct (negb (writable env filename)); [reflexivity|].
  cbn [backups with_files with_backups].
  rewrite register_backup_refused.
  destruct (is_auto_kind tipo); reflexivity.
Qed.

Lemma prune_auto_subset (t : Sql.table) (r : Sql.row) :
  In r (Sql.rows (prune_auto t)) -> In r (Sql.rows t).
Proof.
  unfold prune_auto. destruct (0 <? _)%nat; [|auto].
  cbn [Sql.rows]. intros H. now apply filter_In in H.
Qed.

End SnapshotFacts.



(** X4.  A snapshot never adds an entry to the index: the entries after
    are among the entries before, and for a kind other than auto the index
    is what it was. *)
Theorem snapshot_never_registers :
  forall (env : Env) (tipo : JS.value) (st : State),
    let st' := fst (criarBackup env tipo st) in
    (forall r, In r (Sql.rows (backups st')) -> In r (Sql.rows (backups st)))
    /\ (tipo <> JS.Undefined -> tipo <> JS.Str "auto" ->
        backups st' = backups st).
Proof.
  intros env tipo st st'. subst st'.
  rewrite criarBackup_unfold. cbv zeta.
  destruct (negb (writable env _)); cbn [fst backups with_backups].
  - split; [auto|reflexivity].
  - split.
    + intros r. destruct (is_auto_kind _); [apply prune_auto_subset|auto].
    + intros Hu Ha.
      assert (Hk : is_auto_kind
                     match tipo with
                     | JS.Undefined => JS.Str "auto"
                     | _ => tipo
                     end = false).
      { destruct tipo; try reflexivity; [contradiction|].
        simpl. destruct (String.eqb_spec s "auto") as [->|]; [|reflexivity].
        contradiction. }
      now rewrite Hk.
Qed.

Lemma snapshot_never_registers_witness :
  let st' := fst (criarBackup Sample.env (JS.Str "delete") More.mixed_index) in
  (forall r, In r (Sql.rows (backups st')) ->
             In r (Sql.rows (backups More.mixed_index)))
  /\ backups st' = backups More.mixed_index.
Proof.
  destruct (snapshot_never_registers Sample.env (JS.Str "delete")
              More.mixed_index) as [Hsub Hsame].
  split; [exact Hsub|]. apply Hsame; discriminate.
Defined.

(** ** UPDATE, by column *)

Section UpdateEngine.

Lemma col_set_col_same (c : string) (v : Sql.value) (r : Sql.row) :
  Sql.col c r <> None -> Sql.col c (Sql.set_col c v r) = Some v.
Proof.
  induction r as [|[k w] tl IH]; simpl; [tauto|].
  destruct (String.eqb_spec c k) as [->|Hne]; simpl.
  - now rewrite String.eqb_refl.
  - destruct (String.eqb_spec c k); [contradiction|exact IH].
Qed.

(** With every key once, the row ends up with the value given for a column
    that it has. *)
Lemma col_set_cols_given (c : string) (v : Sql.value)
  (given : list (string * Sql.value)) :
  NoDup (map fst given) ->
  In (c, v) given ->
  forall r, Sql.col c r <> None ->
            Sql.col c (Sql.set_cols given r) = Some v.
Proof.
  unfold Sql.set_cols.
  induction given as [|[k w] tl IH]; intros Hnd Hin r Hcol; [destruct Hin|].
  simpl in Hnd. inversion Hnd as [|? ? Hk Hnd']; subst.
  destruct Hin as [Heq|Hin]; simpl.
  - injection Heq as -> ->.
    change (Sql.col c (Sql.set_cols tl (Sql.set_col c v r)) = Some v).
    rewrite col_set_cols_other by exact Hk.
    now apply col_set_col_same.
  - apply IH; [exact Hnd'|exact Hin|].
    assert (Hne : c <> k).
    { intros ->. apply Hk. apply (in_map fst) in Hin. exact Hin. }
    now rewrite col_set_col_other.
Qed.

Lemma assoc_values_nth (cols : list string) (vals : list Sql.value)
  (i : nat) (c : string) (v : Sql.value) :
  nth_error cols i = Some c -> nth_error vals i = Some v ->
  nth_error (Sql.assoc_values cols vals) i = Some (c, v).
Proof.
  revert vals i. induction cols as [|c0 ctl IH]; intros [|v0 vtl] [|i];
    simpl; try discriminate.
  - intros H1 H2. now injection H1 as ->; injection H2 as ->.
  - apply IH.
Qed.

Lemma assoc_values_fst (cols : list string) (vals : list Sql.value) :
  (List.length cols <= List.length vals)%nat ->
  map fst (Sql.assoc_values cols vals) = cols.
Proof.
  revert vals. induction cols as [|c tl IH]; intros [|v vtl] Hle; simpl in *;
    try reflexivity; try lia.
  f_equal. apply IH. lia.
Qed.

(** What a successful UPDATE keyed by a text does to the table: the rows it
    selects are rewritten with the bound values, in place. *)
Lemma update_result (tname : string) (sch : Sql.schema) (cols : list string)
  (front : list JS.value) (s : string) (t t' : Sql.table) :
  Sql.update tname sch cols (front ++ [JS.Str s]) t = inr t' ->
  List.length front = List.length cols ->
  t' = {| Sql.rows :=
            map (fun r =>
                   if Sql.id_matches (Sql.Text s) r
                   then Sql.set_cols
                          (map (Sql.stored sch)
                             (Sql.assoc_values cols
                                (map bound (front ++ [JS.Str s])))) r
                   else r) (Sql.rows t);
          Sql.seq := Sql.seq t |}.
Proof.
  intros Hupd Hlen. unfold Sql.update in Hupd.
  destruct (Sql.check_columns sch cols); [discriminate|].
  rewrite bind_exact in Hupd
    by (rewrite length_app; simpl; lia).
  destruct (Sql.update_rows _ _ _ _ _ _) as [e|rs] eqn:Hrows; [discriminate|].
  injection Hupd as <-.
  apply update_rows_map in Hrows. rewrite app_nil_l in Hrows. subst rs.
  assert (Hkey : last (map bound (front ++ [JS.Str s])) Sql.Null = Sql.Text s)
    by (rewrite map_app; apply last_last).
  rewrite Hkey. reflexivity.
Qed.

(** The rows that the key does not select are the same before and after,
    and no row comes or goes. *)
Lemma update_others (tname : string) (sch : Sql.schema) (cols : list string)
  (front : list JS.value) (s : string) (t t' : Sql.table) :
  Sql.update tname sch cols (front ++ [JS.Str s]) t = inr t' ->
  List.length front = List.length cols ->
  ~ In "id" cols ->
  filter (fun r => negb (Sql.id_matches (Sql.Text s) r)) (Sql.rows t')
  = filter (fun r => negb (Sql.id_matches (Sql.Text s) r)) (Sql.rows t)
  /\ List.length (Sql.rows t') = List.length (Sql.rows t).
Proof.
  intros Hupd Hlen Hid.
  rewrite (update_result _ _ _ _ _ _ _ Hupd Hlen). cbn [Sql.rows].
  split; [|apply length_map].
  induction (Sql.rows t) as [|r tl IH]; simpl; [reflexivity|].
  destruct (Sql.id_matches (Sql.Text s) r) eqn:Hm.
  - rewrite id_matches_set_cols, Hm; [exact IH|].
    intros Hin. apply Hid. eapply stored_keys, Hin.
  - rewrite Hm. simpl. now rewrite IH.
Qed.

(** The column at position [i] of the SET clause receives the parameter at
    position [i], with the affinity of the column. *)
Lemma update_sets (tname : string) (sch : Sql.schema) (cols : list string)
  (front : list JS.value) (s : string) (t t' : Sql.table) (old : Sql.row)
  (i : nat) (c : string) (p : JS.value) :
  Sql.update tname sch cols (front ++ [JS.Str s]) t = inr t' ->
  List.length front = List.length cols ->
  NoDup cols -> ~ In "id" cols ->
  find (Sql.id_matches (Sql.Text s)) (Sql.rows t) = Some old ->
  nth_error cols i = Some c -> nth_error front i = Some p ->
  Sql.col c old <> None ->
  exists new,
    find (Sql.id_matches (Sql.Text s)) (Sql.rows t') = Some new
    /\ Sql.col c new
       = Some (Sql.apply_affinity (Sql.affinity_of sch c) (bound p)).
Proof.
  intros Hupd Hlen Hnd Hid Hfind Hc Hp Hcol.
  rewrite (update_result _ _ _ _ _ _ _ Hupd Hlen). cbn [Sql.rows].
  set (given := map (Sql.stored sch) _).
  assert (Hkeys : map fst given = cols).
  { subst given. rewrite map_map. cbn [Sql.stored fst].
    apply assoc_values_fst. rewrite length_map, length_app. simpl. lia. }
  exists (Sql.set_cols given old). split.
  - apply find_rewritten; [|exact Hfind]. now rewrite Hkeys.
  - apply col_set_cols_given; [now rewrite Hkeys| |exact Hcol].
    subst given.
    apply (in_map (Sql.stored sch) _ (c, bound p)).
    apply (nth_error_In _ i). apply assoc_values_nth; [exact Hc|].
    rewrite map_app, nth_error_app1.
    + now rewrite nth_error_map, Hp.
    + rewrite length_map. apply nth_error_Some. now rewrite Hp.
Qed.

End UpdateEngine.

(** ** The merged object of an update *)

Section Merge.

Lemma lookup_delete_other (k k' : string) (ps : list (string * JS.value)) :
  k <> k' -> JS.lookup k (JS.delete k' ps) = JS.lookup k ps.
Proof.
  intros Hne. unfold JS.delete.
  induction ps as [|[k2 v2] tl IH]; simpl; [reflexivity|].
  destruct (String.eqb_spec k' k2) as [->|Hk]; simpl.
  - destruct (String.eqb_spec k k2); [contradiction|exact IH].
  - destruct (k =? k2)%string; [reflexivity|exact IH].
Qed.

Lemma lookup_none_keys (k : string) (ps : list (string * JS.value)) :
  JS.lookup k ps = None -> forall p, In p ps -> k <> fst p.
Proof.
  induction ps as [|[k2 v2] tl IH]; simpl; [tauto|].
  destruct (String.eqb_spec k k2) as [->|Hk]; [discriminate|].
  intros Hnone p [<-|Hin]; [exact Hk|now apply IH].
Qed.

(** A spread writes nothing under a name that its source does not have. *)
Lemma lookup_spread_absent (k : string) (src : JS.value)
  (base : list (string * JS.value)) :
  JS.lookup k (JS.own_props src) = None ->
  JS.lookup k (JS.spread base src) = JS.lookup k base.
Proof.
  intros Hnone. unfold JS.spread.
  pose proof (lookup_none_keys _ _ Hnone) as Hkeys. clear Hnone.
  revert base. induction (JS.own_props src) as [|p tl IH]; intros base;
    simpl; [reflexivity|].
  rewrite IH by (intros q Hq; apply Hkeys; now right).
  apply lookup_set_other. apply Hkeys. now left.
Qed.

Lemma lookup_spread_nil (k : string) (ps : list (string * JS.value)) :
  NoDup (map fst ps) ->
  JS.lookup k (JS.spread [] (JS.Obj ps)) = JS.lookup k ps.
Proof.
  unfold JS.spread. cbn [JS.own_props].
  assert (H : forall base,
             NoDup (map fst ps) ->
             (forall p, In p ps -> JS.lookup (fst p) base = None) ->
             JS.lookup k
               (fold_left (fun acc p => JS.set (fst p) (snd p) acc) ps base)
             = match JS.lookup k base with
               | Some v => Some v
               | None => JS.lookup k ps
               end).
  { induction ps as [|[k2 v2] tl IH]; intros base Hnd Hfresh; simpl.
    - now destruct (JS.lookup k base).
    - inversion Hnd as [|? ? Hk2 Hnd']; subst.
      rewrite IH; [|exact Hnd'|].
      + cbn [fst snd].
        destruct (String.eqb_spec k k2) as [->|Hne].
        * rewrite lookup_set_same.
          pose proof (Hfresh (k2, v2) (or_introl eq_refl)) as Hf.
          cbn [fst] in Hf. rewrite Hf. reflexivity.
        * rewrite lookup_set_other by exact Hne.
          destruct (String.eqb_spec k k2); [contradiction|reflexivity].
      + intros p Hp. cbn [fst snd].
        rewrite lookup_set_other.
        * apply Hfresh. now right.
        * intros Heq. apply Hk2. rewrite <- Heq. now apply in_map.
  }
  intros Hnd. rewrite H; [reflexivity|exact Hnd|reflexivity].
Qed.

Lemma lookup_row_to_js (k : string) (r : Sql.row) :
  JS.lookup k (JS.own_props (Sql.row_to_js r))
  = option_map Sql.to_js (Sql.col k r).
Proof.
  unfold Sql.row_to_js. cbn [JS.own_props].
  induction r as [|[c v] tl IH]; simpl; [reflexivity|].
  destruct (k =? c)%string; [reflexivity|exact IH].
Qed.

Lemma to_double_safe (z : Z) : safe_integer z -> JS.to_double z = z.
Proof.
  unfold safe_integer, JS.to_double. intros H.
  now destruct (Z.leb_spec (Z.abs z) (2 ^ 53)); [|lia].
Qed.

(** A text, a NULL or an integer that a double holds comes back from
    JavaScript as it went. *)
Lemma bound_to_js (v : Sql.value) :
  (forall z, v = Sql.Integer z -> safe_integer z) ->
  bound (Sql.to_js v) = v.
Proof.
  destruct v as [|z|s]; intros H; try reflexivity.
  cbn [Sql.to_js]. now rewrite (to_double_safe z (H z eq_refl)).
Qed.

End Merge.

(** ** The shape of a record *)

Section Shape.

Lemma shaped_col (sch : Sql.schema) (r : Sql.row) (c : string) :
  shaped sch r -> In c (Sql.column_names sch) -> Sql.col c r <> None.
Proof.
  unfold shaped. intros <-.
  induction r as [|[k v] tl IH]; simpl; [tauto|].
  intros [<-|Hin]; [now rewrite String.eqb_refl|].
  destruct (c =? k)%string; [discriminate|exact (IH Hin)].
Qed.

Lemma demandas_columns_once : NoDup (Sql.column_names demandas_schema).
Proof.
  repeat (constructor;
          [intros Hin;
           repeat (destruct Hin as [Hin|Hin]; [discriminate Hin|]);
           exact Hin|]).
  constructor.
Qed.

Lemma update_set_columns_once : NoDup update_set_columns.
Proof.
  repeat (constructor;
          [intros Hin;
           repeat (destruct Hin as [Hin|Hin]; [discriminate Hin|]);
           exact Hin|]).
  constructor.
Qed.

Lemma update_set_columns_no_id : ~ In "id" update_set_columns.
Proof.
  intros Hin.
  repeat (destruct Hin as [Hin|Hin]; [discriminate Hin|]); exact Hin.
Qed.

End Shape.

Section MergedObject.

(** What the merged object of an update holds under a name other than the
    three it drops and the two it stamps, when the body does not have the
    name: what the stored record has. *)
Lemma dadosCompletos_unnamed (env : Env) (old : Sql.row) (d : JS.value)
  (k : string) :
  shaped demandas_schema old ->
  ~ In k ["id"; "dataCriacao"; "criadoPor"; "dataAtualizacao";
          "atualizadoPor"] ->
  JS.lookup k (JS.own_props d) = None ->
  JS.get (dadosCompletos_of env (Sql.row_to_js old) d) k
  = match Sql.col k old with
    | Some v => Sql.to_js v
    | None => JS.Undefined
    end.
Proof.
  intros Hshape Hk Hnone. unfold dadosCompletos_of. cbn [JS.get].
  assert (Hne : forall c, In c ["id"; "dataCriacao"; "criadoPor";
                                "dataAtualizacao"; "atualizadoPor"] ->
                          k <> c).
  { intros c Hc ->. exact (Hk Hc). }
  rewrite !lookup_set_other by (apply Hne; simpl; tauto).
  rewrite !lookup_delete_other by (apply Hne; simpl; tauto).
  rewrite lookup_spread_absent by exact Hnone.
  unfold Sql.row_to_js at 1.
  rewrite lookup_spread_nil.
  - pose proof (lookup_row_to_js k old) as H. unfold Sql.row_to_js in H.
    cbn [JS.own_props] in H. rewrite H.
    destruct (Sql.col k old); reflexivity.
  - rewrite map_map. cbn [fst].
    unfold shaped in Hshape.
    change (map (fun x : string * Sql.value => fst x) old) with (map fst old).
    rewrite Hshape. apply demandas_columns_once.
Qed.

Lemma dadosCompletos_stamp (env : Env) (e d : JS.value) :
  JS.get (dadosCompletos_of env e d) "dataAtualizacao" = JS.Str (now_iso env)
  /\ JS.get (dadosCompletos_of env e d) "atualizadoPor"
     = JS.get d "funcionarioId".
Proof.
  unfold dadosCompletos_of. cbn [JS.get]. split.
  - rewrite lookup_set_other by discriminate.
    now rewrite lookup_set_same.
  - now rewrite lookup_set_same.
Qed.

End MergedObject.

(** ** Update, continued *)

Section UpdateMore.

Variable Date_ms : JS.value -> option Z.



(** X5.  A successful update touches one id only: the records that the id
    of the URL does not select are the same before and after, in the same
    order, and the table has as many records as before. *)
Theorem update_leaves_other_records :
  forall (env : Env) (req : Request) (st st' : State) (r : Response),
    put_demandas Date_ms env req st = (st', Sent r) ->
    status r = 200 ->
    filter (fun x => negb (Sql.id_matches (Sql.Text (param_id req)) x))
      (Sql.rows (demandas st'))
    = filter (fun x => negb (Sql.id_matches (Sql.Text (param_id req)) x))
        (Sql.rows (demandas st))
    /\ List.length (Sql.rows (demandas st'))
       = List.length (Sql.rows (demandas st)).
Proof.
  intros env req st st' r Hput Hok.
  destruct (put_success _ _ _ _ _ _ Hput Hok) as (old & _ & Hupd).
  destruct (update_params_split
              (dadosCompletos_of env (Sql.row_to_js old) (body req))
              (JS.Str (param_id req))) as (front & Hsplit & Hlen).
  rewrite Hsplit in Hupd.
  exact (update_others _ _ _ _ _ _ _ Hupd Hlen update_set_columns_no_id).
Qed.

(** What a successful update stores in the column at position [i] of its
    SET clause: the parameter at position [i], as the column stores it. *)
Lemma put_sets_column (env : Env) (req : Request) (st st' : State)
  (r : Response) (old : Sql.row) (i : nat) (c : string)
  (p : JS.value -> JS.value) :
  Sql.get_by_id [JS.Str (param_id req)] (demandas st) = inr (Some old) ->
  shaped demandas_schema old ->
  put_demandas Date_ms env req st = (st', Sent r) ->
  status r = 200 ->
  nth_error update_set_columns i = Some c ->
  (forall dc id, nth_error (update_params dc id) i = Some (p dc)) ->
  exists new,
    Sql.get_by_id [JS.Str (param_id req)] (demandas st') = inr (Some new)
    /\ Sql.col c new
       = Some (Sql.apply_affinity (Sql.affinity_of demandas_schema c)
                 (bound
                    (p (dadosCompletos_of env (Sql.row_to_js old)
                          (body req))))).
Proof.
  intros Hold Hshape Hput Hok Hc Hp0.
  pose proof (Hp0 (dadosCompletos_of env (Sql.row_to_js old) (body req))
                (JS.Str (param_id req))) as Hp.
  clear Hp0.
  destruct (put_success _ _ _ _ _ _ Hput Hok) as (old' & Hold' & Hupd).
  rewrite Hold in Hold'. injection Hold' as <-.
  rewrite get_by_id_text in Hold |- *. injection Hold as Hfind.
  destruct (update_params_split
              (dadosCompletos_of env (Sql.row_to_js old) (body req))
              (JS.Str (param_id req))) as (front & Hsplit & Hlen).
  rewrite Hsplit in Hupd, Hp.
  assert (Hi : (i < 19)%nat).
  { change 19%nat with (List.length update_set_columns).
    apply nth_error_Some. now rewrite Hc. }
  rewrite nth_error_app1 in Hp by (rewrite Hlen; exact Hi).
  destruct (update_sets _ _ _ _ _ _ _ old i c _ Hupd Hlen
              update_set_columns_once update_set_columns_no_id Hfind Hc Hp)
    as (new & Hnew & Hcol).
  - apply (shaped_col _ _ _ Hshape).
    apply nth_error_In in Hc. simpl in Hc.
    repeat (destruct Hc as [<-|Hc]; [apply mem_In; reflexivity|]).
    destruct Hc.
  - exists new. split; [now rewrite Hnew|exact Hcol].
Qed.

(** X6.  A successful update stamps the record: [dataAtualizacao] is the
    time of the request, and [atualizadoPor] is NULL when the body has no
    [funcionarioId] and the integer [n] when the body has the number [n],
    an integer that a double holds. *)
Theorem update_stamps_modification :
  forall (env : Env) (req : Request) (st st' : State) (r : Response)
         (old : Sql.row),
    Sql.get_by_id [JS.Str (param_id req)] (demandas st) = inr (Some old) ->
    shaped demandas_schema old ->
    put_demandas Date_ms env req st = (st', Sent r) ->
    status r = 200 ->
    exists new,
      Sql.get_by_id [JS.Str (param_id req)] (demandas st') = inr (Some new)
      /\ Sql.col "dataAtualizacao" new = Some (Sql.Text (now_iso env))
      /\ (JS.get (body req) "funcionarioId" = JS.Undefined ->
          Sql.col "atualizadoPor" new = Some Sql.Null)
      /\ (forall n,
            JS.get (body req) "funcionarioId" = num n ->
            safe_integer n ->
            Sql.col "atualizadoPor" new = Some (Sql.Integer n)).
Proof.
  intros env req st st' r old Hold Hshape Hput Hok.
  destruct (dadosCompletos_stamp env (Sql.row_to_js old) (body req))
    as [Hwhen Hwho].
  destruct (put_sets_column env req st st' r old 17 "dataAtualizacao"
              (fun dc => JS.get dc "dataAtualizacao")
              Hold Hshape Hput Hok eq_refl (fun dc id => eq_refl))
    as (new & Hnew & Hc1).
  destruct (put_sets_column env req st st' r old 18 "atualizadoPor"
              (fun dc => JS.get dc "atualizadoPor")
              Hold Hshape Hput Hok eq_refl (fun dc id => eq_refl))
    as (new' & Hnew' & Hc2).
  rewrite Hnew in Hnew'. injection Hnew' as <-.
  exists new. split; [exact Hnew|]. split; [|split].
  - rewrite Hc1, Hwhen. reflexivity.
  - intros Hnone. rewrite Hc2, Hwho, Hnone. reflexivity.
  - intros n Hn _. rewrite Hc2, Hwho, Hn. reflexivity.
Qed.

(** X7.  An update is partial for the employee, the status and the tag: a
    body that does not name one of these columns leaves the record with the
    value it had, when that value is a text in one of the four text columns
    or, in [funcionarioId], an integer that a double holds. *)
Theorem update_keeps_unnamed_fields :
  forall (env : Env) (req : Request) (st st' : State) (r : Response)
         (old : Sql.row) (c : string) (v : Sql.value),
    Sql.get_by_id [JS.Str (param_id req)] (demandas st) = inr (Some old) ->
    shaped demandas_schema old ->
    put_demandas Date_ms env req st = (st', Sent r) ->
    status r = 200 ->
    JS.lookup c (JS.own_props (body req)) = None ->
    Sql.col c old = Some v ->
    (c = "funcionarioId" /\ exists z, v = Sql.Integer z /\ safe_integer z)
    \/ (In c ["nomeFuncionario"; "emailFuncionario"; "status"; "tag"]
        /\ exists s, v = Sql.Text s) ->
    exists new,
      Sql.get_by_id [JS.Str (param_id req)] (demandas st') = inr (Some new)
      /\ Sql.col c new = Some v.
Proof.
  intros env req st st' r old c v Hold Hshape Hput Hok Hnone Hv Hkind.
  assert (Hc : In c ["funcionarioId"; "nomeFuncionario"; "emailFuncionario";
                     "status"; "tag"]).
  { destruct Hkind as [[-> _]|[Hin _]]; [now left|now right]. }
  assert (Hback : bound (Sql.to_js v) = v).
  { apply bound_to_js. intros z ->.
    destruct Hkind as [(_ & z' & Hz & Hsafe)|(_ & s & Hs)];
      [now injection Hz as ->|discriminate Hs]. }
  assert (Hget :
    JS.get (dadosCompletos_of env (Sql.row_to_js old) (body req)) c
    = Sql.to_js v).
  { rewrite dadosCompletos_unnamed; [now rewrite Hv|exact Hshape| |exact Hnone].
    intros Hin. simpl in Hc, Hin.
    destruct Hc as [<-|[<-|[<-|[<-|[<-|[]]]]]];
      repeat (destruct Hin as [Hin|Hin]; [discriminate Hin|]); exact Hin. }
  assert (Hstored :
    Sql.apply_affinity (Sql.affinity_of demandas_schema c) v = v).
  { destruct Hkind as [(-> & z & -> & _)|(Hin & s & ->)]; [reflexivity|].
    simpl in Hin. destruct Hin as [<-|[<-|[<-|[<-|[]]]]]; reflexivity. }
  simpl in Hc.
  destruct Hc as [<-|[<-|[<-|[<-|[<-|[]]]]]].
  - destruct (put_sets_column env req st st' r old 0 "funcionarioId"
                (fun dc => JS.get dc "funcionarioId")
                Hold Hshape Hput Hok eq_refl (fun dc id => eq_refl))
      as (new & Hnew & Hcol).
    exists new. split; [exact Hnew|]. now rewrite Hcol, Hget, Hback, Hstored.
  - destruct (put_sets_column env req st st' r old 1 "nomeFuncionario"
                (fun dc => JS.get dc "nomeFuncionario")
                Hold Hshape Hput Hok eq_refl (fun dc id => eq_refl))
      as (new & Hnew & Hcol).
    exists new. split; [exact Hnew|]. now rewrite Hcol, Hget, Hback, Hstored.
  - destruct (put_sets_column env req st st' r old 2 "emailFuncionario"
                (fun dc => JS.get dc "emailFuncionario")
                Hold Hshape Hput Hok eq_refl (fun dc id => eq_refl))
      as (new & Hnew & Hcol).
    exists new. split; [exact Hnew|]. now rewrite Hcol, Hget, Hback, Hstored.
  - destruct (put_sets_column env req st st' r old 9 "status"
                (fun dc => JS.get dc "status")
                Hold Hshape Hput Hok eq_refl (fun dc id => eq_refl))
      as (new & Hnew & Hcol).
    exists new. split; [exact Hnew|]. now rewrite Hcol, Hget, Hback, Hstored.
  - destruct (put_sets_column env req st st' r old 12 "tag"
                (fun dc => JS.get dc "tag")
                Hold Hshape Hput Hok eq_refl (fun dc id => eq_refl))
      as (new & Hnew & Hcol).
    exists new. split; [exact Hnew|]. now rewrite Hcol, Hget, Hback, Hstored.
Qed.

Lemma length_append (a b : string) :
  String.length (a ++ b) = (String.length a + String.length b)%nat.
Proof. induction a as [|c tl IH]; simpl; [reflexivity|now rewrite IH]. Qed.

Lemma quote_char_length (c : ascii) : (1 <= String.length (JS.quote_char c))%nat.
Proof.
  unfold JS.quote_char.
  repeat match goal with
         | |- context [if ?b then _ else _] => destruct b
         end; simpl; lia.
Qed.

Lemma quote_body_length (s : string) :
  (String.length s <= String.length (JS.quote_body s))%nat.
Proof.
  induction s as [|c tl IH]; simpl; [lia|].
  rewrite length_append. pose proof (quote_char_length c). lia.
Qed.

(** A text is never its own JSON text. *)
Lemma quote_differs (s : string) : JS.quote s <> s.
Proof.
  intros H. apply (f_equal String.length) in H.
  unfold JS.quote in H. rewrite !length_append in H.
  pose proof (quote_body_length s). simpl in H. lia.
Qed.

(** X8.  The day list and the assignee list are stored as JSON text, and an
    update whose body names neither encodes the stored text once more: the
    record ends up with the JSON text of the text it had, which is another
    text. *)
Theorem update_encodes_stored_lists_again :
  forall (env : Env) (req : Request) (st st' : State) (r : Response)
         (old : Sql.row) (c s : string),
    Sql.get_by_id [JS.Str (param_id req)] (demandas st) = inr (Some old) ->
    shaped demandas_schema old ->
    put_demandas Date_ms env req st = (st', Sent r) ->
    status r = 200 ->
    In c ["diasSemana"; "atribuidos"] ->
    JS.lookup c (JS.own_props (body req)) = None ->
    Sql.col c old = Some (Sql.Text s) ->
    s <> "" ->
    exists new,
      Sql.get_by_id [JS.Str (param_id req)] (demandas st') = inr (Some new)
      /\ Sql.col c new = Some (Sql.Text (JS.quote s))
      /\ JS.quote s <> s.
Proof.
  intros env req st st' r old c s Hold Hshape Hput Hok Hc Hnone Hv Hs.
  assert (Hget :
    JS.get (dadosCompletos_of env (Sql.row_to_js old) (body req)) c
    = JS.Str s).
  { rewrite dadosCompletos_unnamed; [now rewrite Hv|exact Hshape| |exact Hnone].
    intros Hin. simpl in Hc, Hin.
    destruct Hc as [<-|[<-|[]]];
      repeat (destruct Hin as [Hin|Hin]; [discriminate Hin|]); exact Hin. }
  assert (Henc : stringify_or_null (JS.Str s) = JS.Str (JS.quote s)).
  { unfold stringify_or_null. cbn [JS.truthy].
    destruct (String.eqb_spec s ""); [contradiction|reflexivity]. }
  simpl in Hc. destruct Hc as [<-|[<-|[]]].
  - destruct (put_sets_column env req st st' r old 11 "diasSemana"
                (fun dc => stringify_or_null (JS.get dc "diasSemana"))
                Hold Hshape Hput Hok eq_refl (fun dc id => eq_refl))
      as (new & Hnew & Hcol).
    exists new. split; [exact Hnew|]. split; [|apply quote_differs].
    now rewrite Hcol, Hget, Henc.
  - destruct (put_sets_column env req st st' r old 16 "atribuidos"
                (fun dc => stringify_or_null (JS.get dc "atribuidos"))
                Hold Hshape Hput Hok eq_refl (fun dc id => eq_refl))
      as (new & Hnew & Hcol).
    exists new. split; [exact Hnew|]. split; [|apply quote_differs].
    now rewrite Hcol, Hget, Henc.
Qed.



End UpdateMore.

(** ** Delete, continued *)

Section DeleteMore.







End DeleteMore.

Lemma update_leaves_other_records_witness :
  exists st' r,
    put_demandas iso_date_ms Sample.env
      (Sample.request "1" (JS.Obj []) More.plain_update)
      (Sample.with_records 2) = (st', Sent r)
    /\ status r = 200
    /\ filter (fun x => negb (Sql.id_matches (Sql.Text "1") x))
         (Sql.rows (demandas st'))
       = filter (fun x => negb (Sql.id_matches (Sql.Text "1") x))
           (Sql.rows (demandas (Sample.with_records 2)))
    /\ List.length (Sql.rows (demandas st'))
       = List.length (Sql.rows (demandas (Sample.with_records 2))).
Proof.
  eexists. eexists.
  split; [vm_compute; reflexivity|].
  split; [reflexivity|].
  eapply (update_leaves_other_records iso_date_ms Sample.env
            (Sample.request "1" (JS.Obj []) More.plain_update)
            (Sample.with_records 2)).
  - vm_compute. reflexivity.
  - reflexivity.
Defined.

Lemma update_stamps_modification_witness :
  exists st' r,
    put_demandas iso_date_ms Sample.env
      (Sample.request "1" (JS.Obj []) More.plain_update)
      (Sample.with_records 2) = (st', Sent r)
    /\ status r = 200
    /\ exists new,
         Sql.get_by_id [JS.Str "1"] (demandas st') = inr (Some new)
         /\ Sql.col "dataAtualizacao" new
            = Some (Sql.Text (now_iso Sample.env))
         /\ (JS.get More.plain_update "funcionarioId" = JS.Undefined ->
             Sql.col "atualizadoPor" new = Some Sql.Null)
         /\ (forall n,
               JS.get More.plain_update "funcionarioId" = num n ->
               safe_integer n ->
               Sql.col "atualizadoPor" new = Some (Sql.Integer n)).
Proof.
  eexists. eexists.
  split; [vm_compute; reflexivity|].
  split; [reflexivity|].
  eapply (update_stamps_modification iso_date_ms Sample.env
            (Sample.request "1" (JS.Obj []) More.plain_update)
            (Sample.with_records 2) _ _ (Sample.demanda 1)).
  - vm_compute. reflexivity.
  - vm_compute. reflexivity.
  - vm_compute. reflexivity.
  - reflexivity.
Defined.

Lemma update_keeps_unnamed_fields_witness :
  exists st' r,
    put_demandas iso_date_ms Sample.env
      (Sample.request "1" (JS.Obj []) More.plain_update)
      (Sample.with_records 2) = (st', Sent r)
    /\ status r = 200
    /\ exists new,
         Sql.get_by_id [JS.Str "1"] (demandas st') = inr (Some new)
         /\ Sql.col "tag" new = Some (Sql.Text "DEM-1").
Proof.
  eexists. eexists.
  split; [vm_compute; reflexivity|].
  split; [reflexivity|].
  eapply (update_keeps_unnamed_fields iso_date_ms Sample.env
            (Sample.request "1" (JS.Obj []) More.plain_update)
            (Sample.with_records 2) _ _ (Sample.demanda 1) "tag"
            (Sql.Text "DEM-1")).
  - vm_compute. reflexivity.
  - vm_compute. reflexivity.
  - vm_compute. reflexivity.
  - reflexivity.
  - vm_compute. reflexivity.
  - vm_compute. reflexivity.
  - right. split; [simpl; tauto|eexists; reflexivity].
Defined.

Lemma update_encodes_stored_lists_again_witness :
  exists st' r,
    put_demandas iso_date_ms Sample.env
      (Sample.request "1" (JS.Obj []) More.plain_update)
      More.weekly = (st', Sent r)
    /\ status r = 200
    /\ exists new,
         Sql.get_by_id [JS.Str "1"] (demandas st') = inr (Some new)
         /\ Sql.col "diasSemana" new = Some (Sql.Text (JS.quote "[1,3]"))
         /\ JS.quote "[1,3]" <> "[1,3]".
Proof.
  eexists. eexists.
  split; [vm_compute; reflexivity|].
  split; [reflexivity|].
  eapply (update_encodes_stored_lists_again iso_date_ms Sample.env
            (Sample.request "1" (JS.Obj []) More.plain_update)
            More.weekly _ _ More.weekly_record "diasSemana" "[1,3]").
  - vm_compute. reflexivity.
  - vm_compute. reflexivity.
  - vm_compute. reflexivity.
  - reflexivity.
  - simpl. tauto.
  - vm_compute. reflexivity.
  - vm_compute. reflexivity.
  - discriminate.
Defined.







(** ** Restore, continued *)

Section RestoreMore.

Variable JSON_parse : string -> option JS.value.

(** The INSERT of the restore route names nineteen columns for eighteen
    values: it is refused when it is compiled, whatever the parameters. *)
Lemma restore_insert_refused (params : list JS.value) (now : string)
  (t : Sql.table) :
  Sql.insert "demandas" demandas_schema restore_insert_columns
    restore_placeholders params now t
  = inl (Sql.Err "SQLITE_ERROR: 18 values for 19 columns").
Proof. reflexivity. Qed.

Lemma restore_inserts_nothing (env : Env) (ps : list (list JS.value))
  (t : Sql.table) :
  restore_inserts env ps t = t.
Proof.
  unfold restore_inserts. revert t.
  induction ps as [|p tl IH]; intros t; cbn [fold_left]; [reflexivity|].
  rewrite restore_insert_refused. apply IH.
Qed.

Lemma all_restore_params_total (l : list JS.value) :
  Forall (fun x => x <> JS.Null /\ x <> JS.Undefined) l ->
  exists ps, all_restore_params l = JS.Ret ps.
Proof.
  induction 1 as [|x tl [Hn Hu] _ [ps IH]]; simpl; [now eexists|].
  unfold restore_params.
  destruct x; try contradiction; cbn [JS.get_prop JS.bind]; rewrite IH;
    cbn [JS.bind]; now eexists.
Qed.

(** X14.  Restoring the snapshot that the body names by its number, an
    integer other than zero that a double holds, when the index has it and
    its file holds a list of records, answers 200 with the number of the
    records of the file and leaves the table of records empty: the table is
    emptied first, and not one record of the file is stored. *)
Theorem restore_empties_the_records :
  forall (env : Env) (req : Request) (st : State) (n : Z)
         (backup : Sql.row) (nomeArquivo content : string)
         (backupData : JS.value) (l : list JS.value),
    JS.destructure (body req) "backupId" "req.body" = JS.Ret (num n) ->
    n <> 0 ->
    safe_integer n ->
    Sql.get_by_id [num n] (backups st) = inr (Some backup) ->
    Sql.col_or_null "nomeArquivo" backup = Sql.Text nomeArquivo ->
    lookup_file nomeArquivo (files st) = Some content ->
    JSON_parse content = Some backupData ->
    JS.get_prop backupData "demandas" = JS.Ret (JS.Arr l) ->
    Forall (fun x => x <> JS.Null /\ x <> JS.Undefined) l ->
    exists st',
      post_restore JSON_parse env req st
      = (st',
         Sent (json
                 (JS.Obj
                    [("success", JS.Bool true);
                     ("message",
                      JS.Str ("Backup restaurado com sucesso! "
                              ++ string_of_Z (Z.of_nat (List.length l))
                              ++ " demandas foram restauradas."))])))
      /\ Sql.rows (demandas st') = []
      /\ auditoria st' = auditoria st
      /\ backups st' = backups st
      /\ files st' = files st.
Proof.
  intros env req st n backup nome content backupData l
    Hid Hn _ Hget Hnome Hfile Hparse Hlist Hitems.
  destruct (all_restore_params_total l Hitems) as [ps Hps].
  assert (Ht : JS.truthy (num n) = true).
  { cbn [JS.truthy num]. now destruct (Z.eqb_spec n 0). }
  unfold post_restore.
  rewrite Hid, Ht, Hget, Hnome, Hfile, Hparse, Hlist.
  cbn [negb JS.truthy JS.is_array andb items_of].
  rewrite Hps, restore_inserts_nothing.
  eexists. split; [reflexivity|]. repeat split.
Qed.

(** X15.  Whatever the request, a restore writes no audit entry, no file
    and no index entry; the table of records is either what it was or
    empty. *)
Theorem restore_only_empties :
  forall (env : Env) (req : Request) (st : State),
    let st' := fst (post_restore JSON_parse env req st) in
    auditoria st' = auditoria st
    /\ backups st' = backups st
    /\ files st' = files st
    /\ (demandas st' = demandas st
        \/ demandas st' = Sql.delete_all (demandas st)).
Proof.
  intros env req st. unfold post_restore.
  destruct (JS.destructure _ _ _) as [backupId|msg];
    [|cbn; repeat split; now left].
  destruct (negb (JS.truthy backupId)); [cbn; repeat split; now left|].
  destruct (Sql.get_by_id _ _) as [e|[backup|]];
    [cbn; repeat split; now left| |cbn; repeat split; now left].
  destruct (Sql.col_or_null "nomeArquivo" backup) as [|z|nome];
    [cbn; repeat split; now left|cbn; repeat split; now left|].
  destruct (lookup_file nome (files st)) as [content|];
    [|cbn; repeat split; now left].
  destruct (JSON_parse content) as [backupData|];
    [|cbn; repeat split; now left].
  destruct (JS.get_prop backupData "demandas") as [ds|msg];
    [|cbn; repeat split; now left].
  destruct (JS.truthy ds && JS.is_array ds);
    [|cbn; repeat split; now left].
  destruct (all_restore_params (items_of ds)) as [ps|msg].
  - rewrite restore_inserts_nothing. cbn. repeat split. now right.
  - cbn. repeat split. now right.
Qed.

(** X16.  A restore whose body has no usable [backupId] is answered 400,
    and one whose [backupId] is an integer that no index entry has, given as
    a number that a double holds or as its decimal text, is answered 404;
    the state is left as it was in both cases. *)
Theorem restore_needs_a_registered_backup :
  forall (env : Env) (req : Request) (st : State) (backupId : JS.value),
    JS.destructure (body req) "backupId" "req.body" = JS.Ret backupId ->
    JS.truthy backupId = false
    \/ (exists n,
          absent n (backups st)
          /\ ((backupId = num n /\ safe_integer n)
              \/ backupId = JS.Str (string_of_Z n))) ->
    exists r,
      post_restore JSON_parse env req st = (st, Sent r)
      /\ status r = (if JS.truthy backupId then 404 else 400)
      /\ JS.get (payload r) "success" = JS.Bool false.
Proof.
  intros env req st backupId Hid Hcase. unfold post_restore. rewrite Hid.
  destruct (JS.truthy backupId) eqn:Ht; cbn [negb].
  - destruct Hcase as [Hf|(n & Habsent & Hn)]; [discriminate|].
    assert (Hnone : Sql.get_by_id [backupId] (backups st) = inr None).
    { destruct Hn as [[-> _]| ->].
      - change (Sql.get_by_id [num n] (backups st))
          with (@inr Sql.error _
                  (find (Sql.id_matches (Sql.Integer n))
                     (Sql.rows (backups st)))).
        now rewrite (absent_find _ _ Habsent).
      - rewrite get_by_id_text. now rewrite (absent_find_text _ _ Habsent). }
    rewrite Hnone. eexists. split; [reflexivity|]. split; reflexivity.
  - eexists. split; [reflexivity|]. split; reflexivity.
Qed.

End RestoreMore.

Lemma restore_empties_the_records_witness :
  exists st',
    post_restore Json.parse Sample.env Sample.restore_request
      (Sample.with_snapshot More.two_records)
    = (st',
       Sent (json
               (JS.Obj
                  [("success", JS.Bool true);
                   ("message",
                    JS.Str ("Backup restaurado com sucesso! "
                            ++ string_of_Z (Z.of_nat 2)
                            ++ " demandas foram restauradas."))])))
    /\ Sql.rows (demandas st') = []
    /\ auditoria st' = auditoria (Sample.with_snapshot More.two_records)
    /\ backups st' = backups (Sample.with_snapshot More.two_records)
    /\ files st' = files (Sample.with_snapshot More.two_records).
Proof.
  apply (restore_empties_the_records Json.parse Sample.env
           Sample.restore_request (Sample.with_snapshot More.two_records)
           1 (Sample.backup_entry "manual" 1)
           "backup_manual_2026-10-01.json" More.two_records
           (JS.Obj [("versao", JS.Str "1.0.0");
                    ("demandas",
                     JS.Arr [Sql.row_to_js (Sample.demanda 1);
                             Sql.row_to_js (Sample.demanda 2)])])
           [Sql.row_to_js (Sample.demanda 1);
            Sql.row_to_js (Sample.demanda 2)]).
  - reflexivity.
  - discriminate.
  - vm_compute. discriminate.
  - vm_compute. reflexivity.
  - reflexivity.
  - vm_compute. reflexivity.
  - vm_compute. reflexivity.
  - reflexivity.
  - repeat constructor; discriminate.
Defined.

Lemma restore_needs_a_registered_backup_witness :
  exists r,
    post_restore Json.parse Sample.env
      (Sample.request "" (JS.Obj []) (JS.Obj [("backupId", num 7)]))
      (Sample.with_snapshot More.two_records)
    = (Sample.with_snapshot More.two_records, Sent r)
    /\ status r = (if JS.truthy (num 7) then 404 else 400)
    /\ JS.get (payload r) "success" = JS.Bool false.
Proof.
  apply (restore_needs_a_registered_backup Json.parse Sample.env
           (Sample.request "" (JS.Obj []) (JS.Obj [("backupId", num 7)]))
           (Sample.with_snapshot More.two_records) (num 7)).
  - reflexivity.
  - right. exists 7. split.
    + intros r Hin. simpl in Hin. destruct Hin as [<-|[]]. discriminate.
    + left. split; [reflexivity|vm_compute; discriminate].
Defined.

(** ** ORDER BY, LIMIT and OFFSET *)

Section Ordering.

Variable le : Sql.row -> Sql.row -> bool.

Lemma insert_sorted_perm (r : Sql.row) (l : list Sql.row) :
  Permutation (Sql.insert_sorted le r l) (r :: l).
Proof.
  induction l as [|x tl IH]; simpl; [apply Permutation_refl|].
  destruct (le r x); [apply Permutation_refl|].
  apply perm_trans with (x :: r :: tl); [now apply perm_skip|apply perm_swap].
Qed.

Lemma sort_perm (l : list Sql.row) : Permutation (Sql.sort le l) l.
Proof.
  unfold Sql.sort. induction l as [|x tl IH]; simpl; [apply perm_nil|].
  apply perm_trans with (x :: fold_right (Sql.insert_sorted le) [] tl).
  - apply insert_sorted_perm.
  - now apply perm_skip.
Qed.

Hypothesis le_total : forall a b, le a b = false -> le b a = true.

Lemma insert_sorted_hd (r a : Sql.row) (l : list Sql.row) :
  le a r = true ->
  HdRel (fun x y => le x y = true) a l ->
  HdRel (fun x y => le x y = true) a (Sql.insert_sorted le r l).
Proof.
  intros Har Hhd. destruct l as [|x tl]; simpl.
  - now constructor.
  - destruct (le r x); constructor; [exact Har|].
    now apply HdRel_inv in Hhd.
Qed.

Lemma insert_sorted_sorted (r : Sql.row) (l : list Sql.row) :
  Sorted (fun x y => le x y = true) l ->
  Sorted (fun x y => le x y = true) (Sql.insert_sorted le r l).
Proof.
  induction 1 as [|a l Hs IH Hhd]; simpl.
  - repeat constructor.
  - destruct (le r a) eqn:Hra.
    + constructor; [now constructor|now constructor].
    + constructor; [exact IH|].
      apply insert_sorted_hd; [now apply le_total|exact Hhd].
Qed.

Lemma sort_sorted (l : list Sql.row) :
  Sorted (fun x y => le x y = true) (Sql.sort le l).
Proof.
  unfold Sql.sort. induction l as [|x tl IH]; simpl; [constructor|].
  now apply insert_sorted_sorted.
Qed.

End Ordering.

Section Paging.

Variable R : Sql.row -> Sql.row -> Prop.

Lemma sorted_tail (a : Sql.row) (l : list Sql.row) :
  Sorted R (a :: l) -> Sorted R l.
Proof. intros H. now apply Sorted_inv in H. Qed.

Lemma sorted_skipn (n : nat) (l : list Sql.row) :
  Sorted R l -> Sorted R (skipn n l).
Proof.
  revert l. induction n as [|n IH]; intros l Hs; [exact Hs|].
  destruct l as [|a tl]; [constructor|]. simpl. apply IH.
  now apply sorted_tail in Hs.
Qed.

Lemma sorted_firstn (n : nat) (l : list Sql.row) :
  Sorted R l -> Sorted R (firstn n l).
Proof.
  revert l. induction n as [|n IH]; intros l Hs; [constructor|].
  destruct l as [|a tl]; [constructor|]. simpl.
  apply Sorted_inv in Hs. destruct Hs as [Hs Hhd].
  constructor; [now apply IH|].
  destruct tl as [|b tl']; [destruct n; constructor|].
  destruct n; [constructor|]. simpl. constructor.
  now apply HdRel_inv in Hhd.
Qed.

Lemma sorted_limit_offset (lim off : Z) (l : list Sql.row) :
  Sorted R l -> Sorted R (Sql.limit_offset lim off l).
Proof.
  intros Hs. unfold Sql.limit_offset.
  destruct (lim <? 0); [|apply sorted_firstn]; now apply sorted_skipn.
Qed.

End Paging.

Section PagingMembers.

Lemma In_skipn (n : nat) (l : list Sql.row) (x : Sql.row) :
  In x (skipn n l) -> In x l.
Proof.
  revert l. induction n as [|n IH]; intros l; [auto|].
  destruct l as [|a tl]; simpl; [auto|]. intros H. right. now apply IH.
Qed.

Lemma In_firstn (n : nat) (l : list Sql.row) (x : Sql.row) :
  In x (firstn n l) -> In x l.
Proof.
  revert l. induction n as [|n IH]; intros l; simpl; [tauto|].
  destruct l as [|a tl]; simpl; [auto|].
  intros [<-|H]; [now left|right; now apply IH].
Qed.

Lemma In_limit_offset (lim off : Z) (l : list Sql.row) (x : Sql.row) :
  In x (Sql.limit_offset lim off l) -> In x l.
Proof.
  unfold Sql.limit_offset. destruct (lim <? 0); intros H.
  - now apply In_skipn in H.
  - apply In_firstn in H. now apply In_skipn in H.
Qed.

Lemma limit_offset_length (lim off : Z) (l : list Sql.row) :
  0 <= lim ->
  (List.length (Sql.limit_offset lim off l) <= Z.to_nat lim)%nat.
Proof.
  intros Hlim. unfold Sql.limit_offset.
  destruct (Z.ltb_spec lim 0); [lia|]. apply firstn_le_length.
Qed.

End PagingMembers.

Section OrderBy.

Lemma compare_antisym (a b : Sql.value) :
  Sql.compare b a = CompOpp (Sql.compare a b).
Proof.
  destruct a as [|x|s], b as [|y|t]; simpl; try reflexivity.
  - apply Z.compare_antisym.
  - apply String.compare_antisym.
Qed.

(** Of two rows one goes before the other. *)
Lemma before_total (c : string) (desc : bool) (a b : Sql.row) :
  Sql.before c desc a b = false -> Sql.before c desc b a = true.
Proof.
  unfold Sql.before. rewrite (compare_antisym (Sql.col_or_null c a)).
  destruct (Sql.compare _ _), desc; simpl; congruence.
Qed.

Lemma order_by_sorted (c : string) (desc : bool) (l : list Sql.row) :
  Sorted (in_order c desc) (Sql.order_by c desc l).
Proof.
  unfold Sql.order_by, in_order.
  apply (sort_sorted (Sql.before c desc)). apply before_total.
Qed.

Lemma order_by_perm (c : string) (desc : bool) (l : list Sql.row) :
  Permutation (Sql.order_by c desc l) l.
Proof. apply sort_perm. Qed.

Lemma where_eq_text (stored : Sql.value) (s : string) :
  Sql.where_cmp Sql.is_eq Sql.TEXT stored (Sql.Text s) = true ->
  stored = Sql.Text s.
Proof.
  unfold Sql.where_cmp. cbn [Sql.apply_affinity].
  destruct stored as [|z|t]; simpl; try discriminate.
  destruct (String.compare t s) eqn:Hc; try discriminate.
  intros _. apply String.compare_eq_iff in Hc. now subst.
Qed.

End OrderBy.

(** ** The list routes *)

Section Listing.

(** The field that the list query is ordered by is one of the five that the
    route allows, whatever the request asks for. *)
Lemma order_field_allowed (orderBy : JS.value) :
  In (match orderBy with
      | JS.Str s => if mem s allowedOrderFields then s else "dataCriacao"
      | _ => "dataCriacao"
      end) allowedOrderFields.
Proof.
  destruct orderBy as [| |b|n|s|l|ps]; try (simpl; tauto).
  destruct (mem s allowedOrderFields) eqn:Hm; [|simpl; tauto].
  now apply mem_In.
Qed.

(** A status in the query is the first condition of the WHERE clause. *)
Lemma status_condition (conds : list Cond) (vals : list Sql.value)
  (s : string) (r : Sql.row) :
  row_satisfies
    ({| cond_column := "status"; cond_affinity := Sql.TEXT;
        cond_test := Sql.is_eq; cond_param := JS.Str s |} :: conds)
    (Sql.Text s :: vals) r = true ->
  Sql.col_or_null "status" r = Sql.Text s.
Proof.
  cbn [row_satisfies cond_test cond_affinity cond_column].
  intros H. apply andb_true_iff in H. destruct H as [H _].
  now apply where_eq_text.
Qed.

(** The page of an answered list request, from the filter, the order and
    the limits that the request asks for. *)
Lemma get_demandas_page (env : Env) (req : Request) (st st' : State)
  (r : Response) :
  get_demandas env req st = (st', Sent r) ->
  status r = 200 ->
  st' = st
  /\ exists conds rest field dir desc lim off,
       (cond_if (JS.get (query req) "status") "status" Sql.TEXT Sql.is_eq
        ++ rest)%list = conds
       /\ field
          = match default_to (JS.get (query req) "orderBy")
                    (JS.Str "dataCriacao") with
            | JS.Str s =>
                if mem s allowedOrderFields then s else "dataCriacao"
            | _ => "dataCriacao"
            end
       /\ default_to (JS.get (query req) "orderDirection") (JS.Str "DESC")
          = JS.Str dir
       /\ desc = negb (JS.toUpperCase dir =? "ASC")%string
       /\ Sql.must_be_int
            (bound
               (JS.Num
                  (JS.parseInt
                     (default_to (JS.get (query req) "limit") (num 50)))))
          = inr lim
       /\ JS.get (payload r) "data"
          = JS.Arr
              (map Sql.row_to_js
                 (Sql.limit_offset lim off
                    (Sql.order_by field desc
                       (filter
                          (row_satisfies conds
                             (map bound
                                (map cond_param conds
                                 ++ [JS.Num
                                       (JS.parseInt
                                          (default_to
                                             (JS.get (query req) "limit")
                                             (num 50)));
                                     JS.Num
                                       (JS.mul
                                          (JS.sub
                                             (JS.parseInt
                                                (default_to
                                                   (JS.get (query req) "page")
                                                   (num 1)))
                                             (JS.Int 1))
                                          (JS.parseInt
                                             (default_to
                                                (JS.get (query req) "limit")
                                                (num 50))))])%list))
                          (Sql.rows (demandas st)))))).
Proof.
  intros Hget Hok. unfold get_demandas in Hget.
  cbv zeta in Hget.
  set (limit := default_to (JS.get (query req) "limit") (num 50)) in *.
  set (page := default_to (JS.get (query req) "page") (num 1)) in *.
  set (rest :=
         (cond_if (JS.get (query req) "funcionarioId") "funcionarioId"
            Sql.INTEGER Sql.is_eq
          ++ cond_if (JS.get (query req) "categoria") "categoria" Sql.TEXT
               Sql.is_eq
          ++ cond_if (JS.get (query req) "prioridade") "prioridade" Sql.TEXT
               Sql.is_eq
          ++ cond_if (JS.get (query req) "dataInicio") "dataCriacao" Sql.TEXT
               Sql.is_ge
          ++ cond_if (JS.get (query req) "dataFim") "dataCriacao" Sql.TEXT
               Sql.is_le)%list) in *.
  set (conds :=
         (cond_if (JS.get (query req) "status") "status" Sql.TEXT Sql.is_eq
          ++ rest)%list) in *.
  set (field := match default_to (JS.get (query req) "orderBy")
                        (JS.Str "dataCriacao") with
                | JS.Str s =>
                    if mem s allowedOrderFields then s else "dataCriacao"
                | _ => "dataCriacao"
                end) in *.
  clearbody field.
  set (params :=
         (map cond_param conds
          ++ [JS.Num (JS.parseInt limit);
              JS.Num (JS.mul (JS.sub (JS.parseInt page) (JS.Int 1))
                        (JS.parseInt limit))])%list) in *.
  assert (Hlen : List.length params = (List.length conds + 2)%nat).
  { unfold params. rewrite length_app, length_map. reflexivity. }
  assert (Hlim : nth (List.length conds) (map bound params) Sql.Null
                 = bound (JS.Num (JS.parseInt limit))).
  { unfold params. rewrite map_app, app_nth2; rewrite !length_map; [|lia].
    now rewrite Nat.sub_diag. }
  destruct (default_to (JS.get (query req) "orderDirection") (JS.Str "DESC"))
    as [| |b|n|dir|l|ps] eqn:Hdir;
    try (unfold error_handler in Hget; injection Hget as _ <-;
         discriminate Hok).
  rewrite (bind_exact _ _ Hlen) in Hget. rewrite Hlim in Hget.
  destruct (Sql.must_be_int (bound (JS.Num (JS.parseInt limit))))
    as [e|lim] eqn:Hl.
  { injection Hget as _ <-. discriminate Hok. }
  destruct (Sql.must_be_int (nth (S (List.length conds)) _ _))
    as [e|off] in Hget.
  { injection Hget as _ <-. discriminate Hok. }
  injection Hget as <- <-. split; [reflexivity|].
  exists conds, rest, field, dir,
    (negb (JS.toUpperCase dir =? "ASC")%string), lim, off.
  repeat (split; [reflexivity|]). reflexivity.
Qed.

Lemma upper_char_is (c u : ascii) (l : ascii) :
  (65 <= N_of_ascii u <= 90)%N ->
  N_of_ascii l = (N_of_ascii u + 32)%N ->
  JS.upper_char c = u <-> c = u \/ c = l.
Proof.
  intros Hu Hl. unfold JS.upper_char, byte. split.
  - destruct ((97 <=? N_of_ascii c) && (N_of_ascii c <=? 122))%N eqn:Hc.
    + intros H. right.
      apply andb_true_iff in Hc. destruct Hc as [H1 H2].
      apply N.leb_le in H1, H2.
      rewrite <- (ascii_N_embedding c), <- (ascii_N_embedding l). f_equal.
      rewrite Hl, <- H, N_ascii_embedding; lia.
    + intros H. now left.
  - intros [->| ->].
    + destruct ((97 <=? N_of_ascii u) && (N_of_ascii u <=? 122))%N eqn:Hc;
        [|reflexivity].
      apply andb_true_iff in Hc. destruct Hc as [H1 H2].
      apply N.leb_le in H1, H2. lia.
    + rewrite Hl.
      replace ((97 <=? N_of_ascii u + 32) && (N_of_ascii u + 32 <=? 122))%N
        with true
        by (symmetry; apply andb_true_iff; split; apply N.leb_le; lia).
      replace (N_of_ascii u + 32 - 32)%N with (N_of_ascii u) by lia.
      apply ascii_N_embedding.
Qed.

(** The texts that [toUpperCase] turns into ASC. *)
Lemma upper_is_asc (d : string) :
  JS.toUpperCase d = "ASC"
  <-> In d ["ASC"; "ASc"; "AsC"; "Asc"; "aSC"; "aSc"; "asC"; "asc"].
Proof.
  assert (HA : forall c, JS.upper_char c = "A"%char
                         <-> c = "A"%char \/ c = "a"%char)
    by (intros c; apply upper_char_is; [vm_compute; split; discriminate
                                       |reflexivity]).
  assert (HS : forall c, JS.upper_char c = "S"%char
                         <-> c = "S"%char \/ c = "s"%char)
    by (intros c; apply upper_char_is; [vm_compute; split; discriminate
                                       |reflexivity]).
  assert (HC : forall c, JS.upper_char c = "C"%char
                         <-> c = "C"%char \/ c = "c"%char)
    by (intros c; apply upper_char_is; [vm_compute; split; discriminate
                                       |reflexivity]).
  unfold JS.toUpperCase. split.
  - destruct d as [|c1 [|c2 [|c3 [|c4 tl]]]]; try discriminate.
    cbn [map_chars]. intros H. injection H as H1 H2 H3.
    apply HA in H1. apply HS in H2. apply HC in H3.
    destruct H1 as [->| ->], H2 as [->| ->], H3 as [->| ->];
      apply mem_In; reflexivity.
  - intros H. simpl in H.
    repeat (destruct H as [<-|H]; [reflexivity|]). destruct H.
Qed.

(** X17.  An answered list request changes nothing and returns stored
    records only, in the order that the request asks for: by the field of
    [orderBy] when it is one of the five that the route allows and by
    [dataCriacao] when it is not; descending unless [orderDirection], a text
    of ASCII characters, is ASC in upper or lower case.  With a status in
    the query every record returned has that status, and with a limit that
    reads as a number that is not negative no more records than the limit
    are returned. *)
Theorem list_answers_matching_records_in_order :
  forall (env : Env) (req : Request) (st st' : State) (r : Response),
    get_demandas env req st = (st', Sent r) ->
    status r = 200 ->
    st' = st
    /\ exists rows field desc,
         JS.get (payload r) "data" = JS.Arr (map Sql.row_to_js rows)
         /\ Sorted (in_order field desc) rows
         /\ In field allowedOrderFields
         /\ (forall s, JS.get (query req) "orderBy" = JS.Str s ->
                       In s allowedOrderFields -> field = s)
         /\ ((forall s, JS.get (query req) "orderBy" = JS.Str s ->
                        ~ In s allowedOrderFields) ->
             field = "dataCriacao")
         /\ (JS.get (query req) "orderDirection" = JS.Undefined ->
             desc = true)
         /\ (forall d, JS.get (query req) "orderDirection" = JS.Str d ->
                       ascii_text d ->
                       (desc = false
                        <-> In d ["ASC"; "ASc"; "AsC"; "Asc";
                                  "aSC"; "aSc"; "asC"; "asc"]))
         /\ (forall x, In x rows -> In x (Sql.rows (demandas st)))
         /\ (forall s, JS.get (query req) "status" = JS.Str s ->
                       s <> "" ->
                       forall x, In x rows ->
                                 Sql.col_or_null "status" x = Sql.Text s)
         /\ (forall n,
               JS.parseInt (default_to (JS.get (query req) "limit") (num 50))
               = JS.Int n ->
               0 <= n ->
               (List.length rows <= Z.to_nat n)%nat).
Proof.
  intros env req st st' r Hget Hok.
  destruct (get_demandas_page _ _ _ _ _ Hget Hok)
    as (Hst & conds & rest & field & dir & desc & lim & off & Hconds
        & Hfield & Hdir & Hdesc & Hlim & Hdata).
  split; [exact Hst|].
  eexists. exists field, desc. split; [exact Hdata|].
  split; [|split; [|split; [|split; [|split; [|split; [|split; [|split]]]]]]].
  - apply sorted_limit_offset, order_by_sorted.
  - rewrite Hfield. apply order_field_allowed.
  - intros s Hs Hin. rewrite Hfield, Hs. cbn [default_to].
    now rewrite (In_mem _ _ Hin).
  - intros Hout. rewrite Hfield.
    destruct (JS.get (query req) "orderBy") as [| |b|n|s|l|ps] eqn:Hs;
      try reflexivity.
    cbn [default_to].
    destruct (mem s allowedOrderFields) eqn:Hm; [|reflexivity].
    apply mem_In in Hm. now destruct (Hout s eq_refl).
  - intros Hd. rewrite Hd in Hdir. cbn [default_to] in Hdir.
    injection Hdir as <-. rewrite Hdesc. reflexivity.
  - intros d Hd _. rewrite Hd in Hdir. cbn [default_to] in Hdir.
    injection Hdir as <-. rewrite Hdesc, <- upper_is_asc.
    rewrite negb_false_iff. apply String.eqb_eq.
  - intros x Hx. apply In_limit_offset in Hx.
    apply (Permutation_in _ (order_by_perm _ _ _)) in Hx.
    apply filter_In in Hx. exact (proj1 Hx).
  - intros s Hs Hne x Hx. apply In_limit_offset in Hx.
    apply (Permutation_in _ (order_by_perm _ _ _)) in Hx.
    apply filter_In in Hx. destruct Hx as [_ Hsat].
    rewrite <- Hconds in Hsat. rewrite Hs in Hsat.
    revert Hsat. generalize Hne. clear.
    intros Hne.
    assert (Hc : cond_if (JS.Str s) "status" Sql.TEXT Sql.is_eq
                 = [{| cond_column := "status"; cond_affinity := Sql.TEXT;
                       cond_test := Sql.is_eq; cond_param := JS.Str s |}]).
    { unfold cond_if. cbn [JS.truthy].
      destruct (String.eqb_spec s ""); [contradiction|reflexivity]. }
    rewrite Hc. cbn [app map cond_param].
    change (bound (JS.Str s)) with (Sql.Text s).
    apply status_condition.
  - intros n Hn Hpos. rewrite Hn in Hlim.
    change (Sql.must_be_int (bound (JS.Num (JS.Int n)))) with
      (@inr Sql.error Z n) in Hlim.
    injection Hlim as <-. now apply limit_offset_length.
Qed.

(** X18.  The list of snapshots is the whole index, every entry once, the
    newest first; listing changes nothing. *)
Theorem backups_are_listed_newest_first :
  forall (env : Env) (req : Request) (st : State),
  exists rows,
    get_backups env req st
    = (st,
       Sent (json (JS.Obj [("success", JS.Bool true);
                           ("backups", JS.Arr (map Sql.row_to_js rows))])))
    /\ Permutation rows (Sql.rows (backups st))
    /\ Sorted (in_order "dataCriacao" true) rows.
Proof.
  intros env req st. eexists. split; [reflexivity|]. split.
  - apply order_by_perm.
  - apply order_by_sorted.
Qed.

End Listing.

Lemma list_answers_matching_records_in_order_witness :
  exists st' r,
    get_demandas Sample.env
      (Sample.request ""
         (JS.Obj [("status", JS.Str "pendente"); ("limit", JS.Str "2");
                  ("orderBy", JS.Str "id; DROP TABLE demandas");
                  ("orderDirection", JS.Str "asc")])
         (JS.Obj []))
      (Sample.with_records 3) = (st', Sent r)
    /\ status r = 200
    /\ st' = Sample.with_records 3
    /\ exists rows field desc,
         JS.get (payload r) "data" = JS.Arr (map Sql.row_to_js rows)
         /\ Sorted (in_order field desc) rows
         /\ In field allowedOrderFields
         /\ (forall s, JS.Str "id; DROP TABLE demandas" = JS.Str s ->
                       In s allowedOrderFields -> field = s)
         /\ ((forall s, JS.Str "id; DROP TABLE demandas" = JS.Str s ->
                        ~ In s allowedOrderFields) ->
             field = "dataCriacao")
         /\ (JS.Str "asc" = JS.Undefined -> desc = true)
         /\ (forall d, JS.Str "asc" = JS.Str d ->
                       ascii_text d ->
                       (desc = false
                        <-> In d ["ASC"; "ASc"; "AsC"; "Asc";
                                  "aSC"; "aSc"; "asC"; "asc"]))
         /\ (forall x, In x rows ->
                       In x (Sql.rows (demandas (Sample.with_records 3))))
         /\ (forall s, JS.Str "pendente" = JS.Str s ->
                       s <> "" ->
                       forall x, In x rows ->
                                 Sql.col_or_null "status" x = Sql.Text s)
         /\ (forall n,
               JS.parseInt (JS.Str "2") = JS.Int n ->
               0 <= n ->
               (List.length rows <= Z.to_nat n)%nat).
Proof.
  eexists. eexists.
  split; [vm_compute; reflexivity|].
  split; [reflexivity|].
  eapply (list_answers_matching_records_in_order Sample.env
            (Sample.request ""
               (JS.Obj [("status", JS.Str "pendente"); ("limit", JS.Str "2");
                        ("orderBy", JS.Str "id; DROP TABLE demandas");
                        ("orderDirection", JS.Str "asc")])
               (JS.Obj []))
            (Sample.with_records 3)).
  - vm_compute. reflexivity.
  - reflexivity.
Defined.

(** ** The purge, the health route and file names *)

Section Purge.

Lemma ascii_compare_refl (a : ascii) : Ascii.compare a a = Eq.
Proof. unfold Ascii.compare. apply N.compare_refl. Qed.

(** A text with a space after a prefix sorts before every text with a [T]
    after the same prefix. *)
Lemma compare_space_T (d x y : string) :
  String.compare (d ++ " " ++ x) (d ++ "T" ++ y) = Lt.
Proof.
  induction d as [|c tl IH]; simpl; [reflexivity|].
  now rewrite ascii_compare_refl.
Qed.

(** X19.  The daily purge compares the time stamp of an index entry, which
    has a space between the day and the time, with an ISO instant, which has
    a [T] there.  An entry stamped on the day of the cutoff is therefore
    deleted whatever its time of day, later than the cutoff or not.  The
    purge touches the index only. *)
Theorem purge_deletes_the_whole_cutoff_day :
  forall (day time time' : string) (st : State) (r : Sql.row),
    Sql.col "dataCriacao" r = Some (Sql.Text (day ++ " " ++ time)) ->
    let st' := purge_old_backups (day ++ "T" ++ time') st in
    ~ In r (Sql.rows (backups st'))
    /\ demandas st' = demandas st
    /\ auditoria st' = auditoria st
    /\ files st' = files st.
Proof.
  intros day time time' st r Hcol st'. split; [|repeat split].
  unfold st', purge_old_backups. cbn [backups with_backups Sql.rows].
  intros Hin. apply filter_In in Hin. destruct Hin as [_ Hkeep].
  unfold older_than, Sql.col_or_null, Sql.where_cmp in Hkeep.
  rewrite Hcol in Hkeep. cbn [Sql.apply_affinity Sql.compare] in Hkeep.
  rewrite compare_space_T in Hkeep. discriminate.
Qed.

End Purge.

Lemma purge_deletes_the_whole_cutoff_day_witness :
  In (Sample.backup_entry "manual" 3) (Sql.rows (backups More.mixed_index))
  /\ ~ In (Sample.backup_entry "manual" 3)
         (Sql.rows
            (backups
               (purge_old_backups "2026-10-03T00:00:00.000Z"
                  More.mixed_index)))
  /\ demandas (purge_old_backups "2026-10-03T00:00:00.000Z" More.mixed_index)
     = demandas More.mixed_index
  /\ auditoria (purge_old_backups "2026-10-03T00:00:00.000Z" More.mixed_index)
     = auditoria More.mixed_index
  /\ files (purge_old_backups "2026-10-03T00:00:00.000Z" More.mixed_index)
     = files More.mixed_index.
Proof.
  split; [simpl; tauto|].
  apply (purge_deletes_the_whole_cutoff_day "2026-10-03" "06:00:00"
           "00:00:00.000Z" More.mixed_index
           (Sample.backup_entry "manual" 3)).
  reflexivity.
Defined.

Section Health.

(** X20.  The health route never reports the number of records: the row of
    the integrity check hides the row of the count, so the [demandas] field
    of the answer is undefined whatever the table holds, while [integrity]
    is the text of the check.  When the integrity check fails there is no
    row at all, and the request is not answered. *)
Theorem health_never_reports_the_count :
  forall (env : Env) (uptime memory : JS.value) (st : State),
    (forall text,
      exists r,
        get_health env (inr text) uptime memory st = (st, Sent r)
        /\ status r = 200
        /\ JS.get (payload r) "demandas" = JS.Undefined
        /\ JS.get (payload r) "integrity" = JS.Str text)
    /\ (forall e,
         exists msg,
           get_health env (inl e) uptime memory st = (st, Crashed msg)).
Proof.
  intros env uptime memory st. split.
  - intros text. eexists. split; [reflexivity|]. repeat split.
  - intros e. eexists. reflexivity.
Qed.

End Health.

Section FileNames.

(** X21.  The time stamp in the name of a snapshot file has neither a colon
    nor a period, and it is as long as the ISO text it is made of. *)
Theorem snapshot_stamp_is_file_safe :
  forall s : string,
    file_safe (JS.replace_colon_dot s)
    /\ String.length (JS.replace_colon_dot s) = String.length s.
Proof.
  unfold JS.replace_colon_dot.
  induction s as [|c tl [IH1 IH2]]; simpl; [split; [exact I|reflexivity]|].
  split; [|now rewrite IH2].
  destruct (N.eqb_spec (byte c) 58) as [H58|H58]; cbn [orb].
  - repeat split; [discriminate|discriminate|exact IH1].
  - destruct (N.eqb_spec (byte c) 46) as [H46|H46].
    + repeat split; [discriminate|discriminate|exact IH1].
    + repeat split; [| |exact IH1].
      * intros ->. now apply H58.
      * intros ->. now apply H46.
Qed.

End FileNames.

(** ** The backup route *)

Section ManualBackup.

(** X22.  A backup request whose body names no kind makes a snapshot of
    kind manual.  When its file can be written the answer is 200 with the
    name of the file, the file holds every record, and records, audit trail
    and index are as before; when the file cannot be written the answer is
    500 and nothing has changed. *)
Theorem backup_request_defaults_to_manual :
  forall (env : Env) (req : Request) (st : State),
    let timestamp := JS.replace_colon_dot (now_iso env) in
    let filename := "backup_manual_" ++ timestamp ++ ".json" in
    JS.destructure (body req) "tipo" "req.body" = JS.Ret JS.Undefined ->
    exists st' r,
      post_backup env req st = (st', Sent r)
      /\ (if writable env filename
          then status r = 200
               /\ JS.get (payload r) "filename" = JS.Str filename
               /\ lookup_file filename (files st')
                  = Some (JS.stringify_pretty
                            (backupData_of timestamp (JS.Str "manual")
                               (Sql.rows (demandas st))))
               /\ demandas st' = demandas st
               /\ auditoria st' = auditoria st
               /\ backups st' = backups st
          else status r = 500 /\ st' = st).
Proof.
  intros env req st timestamp filename Hbody.
  unfold post_backup. rewrite Hbody. cbn [default_to].
  pose proof (criarBackup_unfold env (JS.Str "manual") st) as Hc.
  cbv beta iota zeta in Hc.
  change ("backup_" ++ JS.to_string (JS.Str "manual") ++ "_"
          ++ JS.replace_colon_dot (now_iso env) ++ ".json")
    with filename in Hc.
  fold timestamp in Hc. rewrite Hc.
  destruct (writable env filename); cbn [negb].
  - eexists. eexists. split; [reflexivity|].
    split; [reflexivity|]. split; [reflexivity|].
    cbn [files with_backups with_files]. rewrite lookup_write_same.
    repeat split.
  - eexists. eexists. split; [reflexivity|]. split; reflexivity.
Qed.

End ManualBackup.

Lemma backup_request_defaults_to_manual_witness :
  exists st' r,
    post_backup Sample.env (Sample.request "" (JS.Obj []) (JS.Obj []))
      (Sample.with_records 2) = (st', Sent r)
    /\ (if writable Sample.env "backup_manual_2026-11-02T12-00-00-000Z.json"
        then status r = 200
             /\ JS.get (payload r) "filename"
                = JS.Str "backup_manual_2026-11-02T12-00-00-000Z.json"
             /\ lookup_file "backup_manual_2026-11-02T12-00-00-000Z.json"
                  (files st')
                = Some (JS.stringify_pretty
                          (backupData_of "2026-11-02T12-00-00-000Z"
                             (JS.Str "manual")
                             (Sql.rows (demandas (Sample.with_records 2)))))
             /\ demandas st' = demandas (Sample.with_records 2)
             /\ auditoria st' = auditoria (Sample.with_records 2)
             /\ backups st' = backups (Sample.with_records 2)
        else status r = 500 /\ st' = Sample.with_records 2).
Proof.
  apply (backup_request_defaults_to_manual Sample.env
           (Sample.request "" (JS.Obj []) (JS.Obj []))
           (Sample.with_records 2)).
  reflexivity.
Defined.

(** ** The earlier server *)

Section LegacyFacts.

Variable JSON_parse : string -> option JS.value.


Lemma get_prop_object (d : JS.value) (k : string) :
  d <> JS.Null -> d <> JS.Undefined -> JS.get_prop d k = JS.Ret (JS.get d k).
Proof. intros Hn Hu. destruct d; try reflexivity; contradiction. Qed.




Lemma update_rows_unmatched (tname : string) (sch : Sql.schema)
  (given : list (string * Sql.value)) (key : Sql.value)
  (todo done : list Sql.row) :
  (forall r, In r todo -> Sql.id_matches key r = false) ->
  Sql.update_rows tname sch given key done todo = inr (done ++ todo)%list.
Proof.
  revert done. induction todo as [|r tl IH]; intros done H; simpl.
  - now rewrite app_nil_r.
  - rewrite (H r) by now left.
    rewrite IH by (intros x Hx; apply H; now right).
    now rewrite <- app_assoc.
Qed.

Lemma filter_unmatched (key : Sql.value) (l : list Sql.row) :
  (forall r, In r l -> Sql.id_matches key r = false) ->
  filter (fun r => negb (Sql.id_matches key r)) l = l.
Proof.
  induction l as [|r tl IH]; intros H; simpl; [reflexivity|].
  rewrite (H r) by now left. simpl. f_equal.
  apply IH. intros x Hx. apply H. now right.
Qed.

Lemma with_demandas_same (st : State) : with_demandas (demandas st) st = st.
Proof. now destruct st. Qed.

Lemma table_eta (t : Sql.table) :
  {| Sql.rows := Sql.rows t; Sql.seq := Sql.seq t |} = t.
Proof. now destruct t. Qed.

(** X24.  The update route of the earlier server does not look the record
    up: for an id that is the decimal text of an integer that no record has
    it answers 200 with [success: true], and nothing has changed. *)
Theorem legacy_update_of_unknown_id_succeeds :
  forall (env : Env) (req : Request) (st : State) (n : Z),
    body req <> JS.Null ->
    body req <> JS.Undefined ->
    param_id req = string_of_Z n ->
    absent n (demandas st) ->
    exists r,
      Legacy.put_demandas env req st = (st, Sent r)
      /\ status r = 200
      /\ JS.get (payload r) "success" = JS.Bool true.
Proof.
  intros env req st n Hn Hu Hid Habsent. unfold Legacy.put_demandas.
  rewrite (get_prop_object _ _ Hn Hu).
  unfold Sql.update.
  change (Sql.check_columns Legacy.demandas_schema Legacy.set_columns)
    with (@None Sql.error).
  rewrite bind_exact by reflexivity.
  assert (Hkey : last (map bound (Legacy.update_values (body req)
                                  ++ [JS.Str (param_id req)])%list) Sql.Null
                 = Sql.Text (param_id req))
    by (rewrite map_app; apply last_last).
  cbv zeta. rewrite Hkey.
  rewrite Hid, update_rows_unmatched by now apply absent_unmatched.
  cbn [app]. rewrite table_eta, with_demandas_same.
  eexists. split; [reflexivity|]. split; reflexivity.
Qed.

(** X25.  The delete route of the earlier server answers 200 with
    [success: true] also for an id that is the decimal text of an integer
    that no record has, and nothing has changed. *)
Theorem legacy_delete_of_unknown_id_succeeds :
  forall (env : Env) (req : Request) (st : State) (n : Z),
    param_id req = string_of_Z n ->
    absent n (demandas st) ->
    Legacy.delete_demandas env req st
    = (st, Sent (json (JS.Obj [("success", JS.Bool true)]))).
Proof.
  intros env req st n Hid Habsent.
  unfold Legacy.delete_demandas, Sql.delete_by_id.
  cbn [Sql.bind Sql.bind_from Sql.of_js Nat.ltb Nat.leb hd].
  cbn [Nat.sub repeat hd].
  rewrite Hid, filter_unmatched by now apply absent_unmatched.
  now rewrite table_eta, with_demandas_same.
Qed.

Lemma set_field_object (ps : list (string * JS.value)) (k : string)
  (v : JS.value) :
  set_field (JS.Obj ps) k v = JS.Obj (JS.set k v ps).
Proof. reflexivity. Qed.

(** X26.  The list route of the earlier server never fails on a stored
    list: a day list or assignee list that is NULL, empty or not JSON is
    answered as the empty array, and [isRotina] is answered as a boolean. *)
Theorem legacy_list_defaults_malformed_lists :
  forall (r : Sql.row) (c : string) (v : Sql.value),
    In c ["diasSemana"; "atribuidos"] ->
    Sql.col c r = Some v ->
    JS.truthy (Sql.to_js v) = false
    \/ JSON_parse (JS.to_string (Sql.to_js v)) = None ->
    JS.get (Legacy.process_row JSON_parse r) c = JS.Arr []
    /\ exists b,
         JS.get (Legacy.process_row JSON_parse r) "isRotina" = JS.Bool b.
Proof.
  intros r c v Hc Hcol Hbad.
  assert (Hempty : Legacy.parsed_or_empty JSON_parse (Sql.to_js v)
                   = JS.Arr []).
  { unfold Legacy.parsed_or_empty.
    destruct (JS.truthy (Sql.to_js v)); [|reflexivity].
    destruct Hbad as [Hf|Hp]; [discriminate|now rewrite Hp]. }
  assert (Hget : JS.get (Sql.row_to_js r) c = Sql.to_js v).
  { unfold JS.get, Sql.row_to_js.
    pose proof (lookup_row_to_js c r) as H. unfold Sql.row_to_js in H.
    cbn [JS.own_props] in H. rewrite H, Hcol. reflexivity. }
  unfold Legacy.process_row. unfold Sql.row_to_js in *.
  rewrite !set_field_object. cbn [set_field].
  split.
  - cbn [JS.get]. rewrite lookup_set_other
      by (simpl in Hc; destruct Hc as [<-|[<-|[]]]; discriminate).
    simpl in Hc. destruct Hc as [<-|[<-|[]]].
    + rewrite lookup_set_other by discriminate.
      rewrite lookup_set_same. f_equal. rewrite <- Hempty. f_equal.
      exact Hget.
    + rewrite lookup_set_same. f_equal.
      rewrite <- Hempty. f_equal.
      rewrite <- Hget. cbn [JS.get].
      now rewrite lookup_set_other by discriminate.
  - eexists. cbn [JS.get]. rewrite lookup_set_same. reflexivity.
Qed.

End LegacyFacts.


Lemma legacy_update_of_unknown_id_succeeds_witness :
  exists r,
    Legacy.put_demandas Sample.env
      (Sample.request "99" (JS.Obj []) Sample.fix_leak) More.legacy_store
    = (More.legacy_store, Sent r)
    /\ status r = 200
    /\ JS.get (payload r) "success" = JS.Bool true.
Proof.
  apply (legacy_update_of_unknown_id_succeeds Sample.env
           (Sample.request "99" (JS.Obj []) Sample.fix_leak)
           More.legacy_store 99).
  - discriminate.
  - discriminate.
  - reflexivity.
  - intros r Hin. simpl in Hin.
    destruct Hin as [<-|[<-|[]]]; discriminate.
Defined.

Lemma legacy_delete_of_unknown_id_succeeds_witness :
  Legacy.delete_demandas Sample.env
    (Sample.request "99" (JS.Obj []) (JS.Obj [])) More.legacy_store
  = (More.legacy_store, Sent (json (JS.Obj [("success", JS.Bool true)]))).
Proof.
  apply (legacy_delete_of_unknown_id_succeeds Sample.env
           (Sample.request "99" (JS.Obj []) (JS.Obj [])) More.legacy_store
           99).
  - reflexivity.
  - intros r Hin. simpl in Hin.
    destruct Hin as [<-|[<-|[]]]; discriminate.
Defined.

Lemma legacy_list_defaults_malformed_lists_witness :
  JS.get
    (Legacy.process_row Json.parse
       (More.legacy_demanda 1 (Sql.Text "[oops"))) "diasSemana"
  = JS.Arr []
  /\ exists b,
       JS.get
         (Legacy.process_row Json.parse
            (More.legacy_demanda 1 (Sql.Text "[oops"))) "isRotina"
       = JS.Bool b.
Proof.
  apply (legacy_list_defaults_malformed_lists Json.parse
           (More.legacy_demanda 1 (Sql.Text "[oops")) "diasSemana"
           (Sql.Text "[oops")).
  - simpl. tauto.
  - reflexivity.
  - right. vm_compute. reflexivity.
Defined.
